(** * The request-admission controller of app.py (class RateLimiter)

    A shallow embedding of the rate limiter that gates the calls to the
    generative-language API, and the properties the specification states
    about it.

    Conventions of the model.
    - Timestamps are Python floats.  They are modelled as exact rationals
      ([Q]): the rounding of float arithmetic, infinities, NaN and the
      overflow of [float()] on a huge int are not modelled.
    - Python ints ([len], the backoff, the statistics) are [Z].
    - [time.time()] is an input: every function that reads the clock takes
      the reading as an argument.
    - Mutation of [self] is explicit state passing: a method takes the
      object and returns the new one next to its result.
    - The state file is modelled after [json.load]: either the file cannot
      be used, or it holds a decoded JSON value ([pyval]); a value written
      by [json.dump] is read back as it was.  Whether a write succeeds is
      an input of [save_state]. *)

From Stdlib Require Import QArith ZArith List String Ascii Bool Lia Lqa.
From Stdlib Require Import DecimalString.
Import ListNotations.

Open Scope Q_scope.

(** ** Comparisons on timestamps *)

(** Python's [x < y] on floats, as a boolean. *)
Definition Qltb (x y : Q) : bool := negb (Qle_bool y x).

(** ** Python values read back by [json.load] *)

#[warnings="-register-all"]
Inductive pyval : Type :=
| PyNone
| PyBool (b : bool)
| PyNum (q : Q)
| PyStr (s : string)
| PyList (l : list pyval)
| PyDict (items : list (string * pyval)).

Inductive exn : Type := TypeError | ValueError.

Inductive outcome (A : Type) : Type :=
| Returns (a : A)
| Raises (e : exn).
Arguments Returns {A} a.
Arguments Raises {A} e.

(** The numeric value of a Python object in [v > 0] and [x - v]: floats,
    ints and bools have one, everything else raises [TypeError]. *)
Definition py_number (v : pyval) : option Q :=
  match v with
  | PyNum q => Some q
  | PyBool true => Some 1
  | PyBool false => Some 0
  | _ => None
  end.

(** [len(l)] *)
Definition len {A : Type} (l : list A) : Z := Z.of_nat (List.length l).

(** [min(l)] on a list of floats: the first smallest element; [None] stands
    for the [ValueError] on an empty list. *)
Definition py_min_from (x : Q) (l : list Q) : Q :=
  fold_left (fun m t => if Qltb t m then t else m) l x.

Definition py_min (l : list Q) : option Q :=
  match l with
  | [] => None
  | x :: r => Some (py_min_from x r)
  end.

(** [max(l)], the first largest element. *)
Definition py_max_from (x : Q) (l : list Q) : Q :=
  fold_left (fun m t => if Qltb m t then t else m) l x.

Definition py_max (l : list Q) : option Q :=
  match l with
  | [] => None
  | x :: r => Some (py_max_from x r)
  end.

(** ** Fixed-point formatting: [f"{x:.0f}"] and [f"{x:.1f}"] *)

(** Nearest integer of a non-negative [n / d], ties to the even one. *)
Definition round_half_even (n : Z) (d : positive) : Z :=
  let fl := (n / Zpos d)%Z in
  let r := (n mod Zpos d)%Z in
  match (2 * r ?= Zpos d)%Z with
  | Lt => fl
  | Gt => (fl + 1)%Z
  | Eq => if Z.even fl then fl else (fl + 1)%Z
  end.

Definition digits (n : Z) : string :=
  NilZero.string_of_uint (N.to_uint (Z.to_N n)).

Fixpoint zeros (k : nat) : string :=
  match k with
  | O => EmptyString
  | S k' => String "0" (zeros k')
  end.

(** [format(x, ".<prec>f")] *)
Definition format_fixed (prec : nat) (x : Q) : string :=
  let scale := (10 ^ Z.of_nat prec)%Z in
  let m := round_half_even (Z.abs (Qnum x) * scale) (Qden x) in
  let sign := if (Qnum x <? 0)%Z then "-"%string else EmptyString in
  let int_part := digits (m / scale) in
  let frac := digits (m mod scale) in
  match prec with
  | O => (sign ++ int_part)%string
  | _ => (sign ++ int_part ++ "." ++
          zeros (prec - String.length frac) ++ frac)%string
  end.

(** ** Configuration *)

Definition MAX_REQUESTS_PER_MINUTE : Z := 10.
Definition MAX_REQUESTS_PER_DAY : Z := 1500.
Definition MAX_TOKENS_PER_MINUTE : Z := 1000000.
Definition REQUEST_COOLDOWN : Q := 6.

(** ** The limiter object *)

Record RateLimiter : Type := mkRateLimiter {
  minute_requests : list Q;
  daily_requests : list Q;
  last_request_time : pyval;
  request_timestamps : list Q
}.

Definition reset_state (self : RateLimiter) : RateLimiter :=
  {| minute_requests := [];
     daily_requests := [];
     last_request_time := PyNum 0;
     request_timestamps := [] |}.

(** [[t for t in l if t > current_time - window]] *)
Definition within (window current_time : Q) (l : list Q) : list Q :=
  filter (fun t => Qltb (current_time - window) t) l.

Definition clean_old_requests (current_time : Q) (self : RateLimiter)
  : RateLimiter :=
  {| minute_requests := within 60 current_time (minute_requests self);
     daily_requests := within 86400 current_time (daily_requests self);
     last_request_time := last_request_time self;
     request_timestamps := within 300 current_time (request_timestamps self) |}.

Definition calculate_backoff_time (now : Q) (self : RateLimiter) : Z :=
  if (3 <=? len (request_timestamps self))%Z then
    let recent_requests := within 60 now (request_timestamps self) in
    if (3 <=? len recent_requests)%Z
    then Z.min (2 ^ (len recent_requests - 2)) 60
    else 0%Z
  else 0%Z.

Definition minute_message (wait_time : Q) : string :=
  ("⚠️ Minute limit exceeded. Wait " ++ format_fixed 0 wait_time ++ "s.")%string.

Definition daily_message : string :=
  "⚠️ Daily limit reached. Resets at midnight PT."%string.

Definition cooldown_message (remaining : Q) : string :=
  ("⏳ Please wait " ++ format_fixed 1 remaining ++ "s before next request.")%string.

Definition decision : Type := (bool * option string)%type.

(** The cooldown part of [can_make_request] (lines 94-100), on the pruned
    object; [t_backoff] is the clock as [calculate_backoff_time] reads it. *)
Definition cooldown_check (current_time t_backoff : Q) (self : RateLimiter)
  : outcome decision :=
  match py_number (last_request_time self) with
  | None => Raises TypeError
  | Some last =>
      if Qltb 0 last then
        let elapsed := current_time - last in
        let cooldown :=
          REQUEST_COOLDOWN + inject_Z (calculate_backoff_time t_backoff self) in
        if Qltb elapsed cooldown
        then Returns (false, Some (cooldown_message (cooldown - elapsed)))
        else Returns (true, None)
      else Returns (true, None)
  end.

(** [can_make_request] with the three clock readings it makes: in
    [clean_old_requests], in its own body and in
    [calculate_backoff_time].  It returns the pruned object with the
    answer. *)
Definition can_make_request_at (t_clean current_time t_backoff : Q)
    (self : RateLimiter) : RateLimiter * outcome decision :=
  let self := clean_old_requests t_clean self in
  (self,
   if (MAX_REQUESTS_PER_MINUTE <=? len (minute_requests self))%Z then
     match py_min (minute_requests self) with
     | None => Raises ValueError
     | Some oldest_request =>
         let wait_time := 60 - (current_time - oldest_request) in
         Returns (false, Some (minute_message wait_time))
     end
   else if (MAX_REQUESTS_PER_DAY <=? len (daily_requests self))%Z then
     Returns (false, Some daily_message)
   else cooldown_check current_time t_backoff self).

(** The call seen at one instant [now], as the specification reads it. *)
Definition can_make_request (now : Q) (self : RateLimiter)
  : RateLimiter * outcome decision :=
  can_make_request_at now now now self.

Record Stats : Type := mkStats {
  minute_used : Z;
  minute_limit : Z;
  minute_remaining : Z;
  daily_used : Z;
  daily_limit : Z;
  daily_remaining : Z;
  tokens_per_minute : Z
}.

Definition get_stats (now : Q) (self : RateLimiter) : RateLimiter * Stats :=
  let self := clean_old_requests now self in
  let minute_remaining := (MAX_REQUESTS_PER_MINUTE - len (minute_requests self))%Z in
  let daily_remaining := (MAX_REQUESTS_PER_DAY - len (daily_requests self))%Z in
  (self,
   {| minute_used := len (minute_requests self);
      minute_limit := MAX_REQUESTS_PER_MINUTE;
      minute_remaining := minute_remaining;
      daily_used := len (daily_requests self);
      daily_limit := MAX_REQUESTS_PER_DAY;
      daily_remaining := daily_remaining;
      tokens_per_minute := MAX_TOKENS_PER_MINUTE |}).




(** ** The state file and the process around the limiter *)

(** What [load_state] finds at [RATE_LIMIT_FILE]. *)
Inductive FileState : Type :=
| Absent                (* [RATE_LIMIT_FILE.exists()] is false *)
| Unreadable            (* the file exists, [open] raises *)
| Garbled               (* [json.load] raises: the text is not JSON *)
| Holds (state : pyval) (* [json.load] returns [state] *).

(** Python's builtins on [str] that [load_state] can reach when the file
    holds strings where numbers are expected: [float(s)] ([None] for its
    [ValueError]) and the iteration of a [str] into its characters. *)
Class StrBuiltins : Type := {
  float_of_str : string -> option Q;
  str_chars : string -> list string
}.

Section Loading.

Context {builtins : StrBuiltins}.

(** [float(v)] *)
Definition py_float (v : pyval) : option Q :=
  match v with
  | PyNum q => Some q
  | PyBool true => Some 1
  | PyBool false => Some 0
  | PyStr s => float_of_str s
  | PyNone | PyList _ | PyDict _ => None
  end.

(** The elements [for t in v] runs over; [None] when [v] is not iterable. *)
Definition py_iter (v : pyval) : option (list pyval) :=
  match v with
  | PyList l => Some l
  | PyStr s => Some (map PyStr (str_chars s))
  | PyDict items => Some (map (fun kv => PyStr (fst kv)) items)
  | PyNone | PyBool _ | PyNum _ => None
  end.

(** [[float(t) for t in l]] *)
Fixpoint floats (l : list pyval) : option (list Q) :=
  match l with
  | [] => Some []
  | t :: r =>
      match py_float t with
      | None => None
      | Some q =>
          match floats r with
          | None => None
          | Some qs => Some (q :: qs)
          end
      end
  end.

Definition float_list (v : pyval) : option (list Q) :=
  match py_iter v with
  | None => None
  | Some l => floats l
  end.

Fixpoint assoc (key : string) (items : list (string * pyval)) : option pyval :=
  match items with
  | [] => None
  | (k, v) :: r => if String.eqb k key then Some v else assoc key r
  end.

(** [state.get(key, default)]; only a dict has [get], [None] stands for the
    [AttributeError] on anything else. *)
Definition dict_get (state : pyval) (key : string) (default : pyval)
  : option pyval :=
  match state with
  | PyDict items =>
      Some (match assoc key items with Some v => v | None => default end)
  | _ => None
  end.

(** The three assignments inside the [try] of [load_state]; [None] when
    one of them raises. *)
Definition read_state (state : pyval) : option (list Q * list Q * pyval) :=
  match dict_get state "minute_requests" (PyList []) with
  | None => None
  | Some m =>
      match float_list m with
      | None => None
      | Some minute =>
          match dict_get state "daily_requests" (PyList []) with
          | None => None
          | Some d =>
              match float_list d with
              | None => None
              | Some daily =>
                  match dict_get state "last_request_time" (PyNum 0) with
                  | None => None
                  | Some last => Some (minute, daily, last)
                  end
              end
          end
      end
  end.

Definition load_state (f : FileState) (self : RateLimiter) : RateLimiter :=
  match f with
  | Absent => reset_state self
  | Unreadable | Garbled => reset_state self
  | Holds state =>
      match read_state state with
      | Some (minute, daily, last) =>
          {| minute_requests := minute;
             daily_requests := daily;
             last_request_time := last;
             request_timestamps := request_timestamps self |}
      | None => reset_state self
      end
  end.

(** The object as [__init__] receives it: no attribute is assigned yet, and
    each one is assigned before it is read. *)
Definition blank : RateLimiter :=
  {| minute_requests := [];
     daily_requests := [];
     last_request_time := PyNone;
     request_timestamps := [] |}.

(** [RateLimiter()], which is what [get_rate_limiter] returns. *)
Definition RateLimiter_init (f : FileState) : RateLimiter :=
  let self := load_state f blank in
  {| minute_requests := minute_requests self;
     daily_requests := daily_requests self;
     last_request_time := last_request_time self;
     request_timestamps := [] |}.

End Loading.

(** The dict [save_state] dumps.  A dumped value is read back unchanged by
    [json.load]. *)
Definition state_json (self : RateLimiter) : pyval :=
  PyDict [("minute_requests"%string, PyList (map PyNum (minute_requests self)));
          ("daily_requests"%string, PyList (map PyNum (daily_requests self)));
          ("last_request_time"%string, last_request_time self)].

(** How the write of [save_state] goes: it succeeds, [open] raises and the
    file is left as it was, or [json.dump] raises after [open] truncated
    the file. *)
Inductive write_result : Type :=
| Written
| OpenFails (e : string)
| DumpFails (e : string).

(** The file and what was printed. *)
Record Env : Type := mkEnv {
  file : FileState;
  stdout : list string
}.

Definition save_state (w : write_result) (self : RateLimiter) (env : Env)
  : Env :=
  match w with
  | Written => {| file := Holds (state_json self); stdout := stdout env |}
  | OpenFails e =>
      {| file := file env;
         stdout := stdout env ++ [("Error saving rate limit state: " ++ e)%string] |}
  | DumpFails e =>
      {| file := Garbled;
         stdout := stdout env ++ [("Error saving rate limit state: " ++ e)%string] |}
  end.

Definition record_request (current_time : Q) (w : write_result)
    (self : RateLimiter) (env : Env) : RateLimiter * Env :=
  let self :=
    {| minute_requests := minute_requests self ++ [current_time];
       daily_requests := daily_requests self ++ [current_time];
       last_request_time := PyNum current_time;
       request_timestamps := request_timestamps self ++ [current_time] |} in
  (self, save_state w self env).

(** A process: the cached limiter object and its environment. *)
Record Process : Type := mkProcess {
  limiter : RateLimiter;
  env : Env
}.

(** What the application does with the limiter, each call with the clock
    reading it makes; [Relaunch] is a new process on the same file. *)
Inductive call : Type :=
| CanMakeRequest (now : Q)
| RecordRequest (now : Q) (w : write_result)
| GetStats (now : Q)
| Relaunch.

Inductive reply : Type :=
| Answer (a : outcome decision)
| Recorded
| Report (s : Stats)
| Started.

Definition clock (c : call) : option Q :=
  match c with
  | CanMakeRequest now | RecordRequest now _ | GetStats now => Some now
  | Relaunch => None
  end.

Section Running.

Context {builtins : StrBuiltins}.

Definition start (f : FileState) : Process :=
  {| limiter := RateLimiter_init f;
     env := {| file := f; stdout := [] |} |}.

Definition step (c : call) (p : Process) : Process * reply :=
  match c with
  | CanMakeRequest now =>
      let (self, a) := can_make_request now (limiter p) in
      ({| limiter := self; env := env p |}, Answer a)
  | RecordRequest now w =>
      let (self, e) := record_request now w (limiter p) (env p) in
      ({| limiter := self; env := e |}, Recorded)
  | GetStats now =>
      let (self, s) := get_stats now (limiter p) in
      ({| limiter := self; env := env p |}, Report s)
  | Relaunch =>
      ({| limiter := RateLimiter_init (file (env p)); env := env p |}, Started)
  end.

Fixpoint run (cs : list call) (p : Process) : Process * list reply :=
  match cs with
  | [] => (p, [])
  | c :: r =>
      let (p1, a) := step c p in
      let (p2, rs) := run r p1 in
      (p2, a :: rs)
  end.

End Running.

(** Builtins for files that hold no string: no [str] is a number. *)
Definition no_numeric_str : StrBuiltins :=
  {| float_of_str := fun _ => None;
     str_chars := fun _ => [] |}.

(** ** Vocabulary of the statements *)

(** Every stored timestamp lies inside its window at [now]. *)
Definition pruned_at (now : Q) (self : RateLimiter) : Prop :=
  (forall t, In t (minute_requests self) -> now - 60 < t) /\
  (forall t, In t (daily_requests self) -> now - 86400 < t) /\
  (forall t, In t (request_timestamps self) -> now - 300 < t).

(** The object with expired timestamps in front of its three sequences. *)
Definition with_expired (old_minute old_daily old_burst : list Q)
    (self : RateLimiter) : RateLimiter :=
  {| minute_requests := old_minute ++ minute_requests self;
     daily_requests := old_daily ++ daily_requests self;
     last_request_time := last_request_time self;
     request_timestamps := old_burst ++ request_timestamps self |}.

(** [can_make_request] called at each of the instants [ts] in turn, the
    answers dropped. *)
Definition polls (ts : list Q) (self : RateLimiter) : RateLimiter :=
  fold_left (fun s t => fst (can_make_request t s)) ts self.

(** [record_request] called at each instant of [rs] in turn, each with the
    way its write goes. *)
Fixpoint record_all (rs : list (Q * write_result)) (self : RateLimiter)
    (e : Env) : RateLimiter * Env :=
  match rs with
  | [] => (self, e)
  | (t, w) :: r =>
      let (self1, e1) := record_request t w self e in
      record_all r self1 e1
  end.

(** The clock never runs backwards during the calls [cs], and starts no
    earlier than [T]. *)
Fixpoint ordered (T : Q) (cs : list call) : Prop :=
  match cs with
  | [] => True
  | c :: r =>
      match clock c with
      | Some t => T <= t /\ ordered t r
      | None => ordered T r
      end
  end.

(** The union of the three sequences. *)
Definition all_timestamps (self : RateLimiter) : list Q :=
  minute_requests self ++ daily_requests self ++ request_timestamps self.

(** What recording and pruning keep true of the object when the clock has
    reached [T]: the last request time is a number, no later than [T] and
    no earlier than any stored timestamp; the daily window covers the two
    shorter ones; and the last request time is in the daily window as long
    as that window holds anything. *)
Definition consistent (T : Q) (self : RateLimiter) : Prop :=
  exists l,
    last_request_time self = PyNum l /\
    l <= T /\
    (forall u, In u (all_timestamps self) -> u <= l) /\
    (forall u, In u (minute_requests self) -> In u (daily_requests self)) /\
    (forall u, In u (request_timestamps self) -> In u (daily_requests self)) /\
    (daily_requests self <> [] -> In l (daily_requests self)).

(** A call with the outcome of its write forgotten. *)
Definition forget_write (c : call) : call :=
  match c with
  | RecordRequest now _ => RecordRequest now Written
  | _ => c
  end.

Definition in_process (c : call) : bool :=
  match c with
  | Relaunch => false
  | _ => true
  end.

(** A state file that is valid JSON but not a valid state: the last
    request time is a string. *)
Definition ill_typed_file : FileState :=
  Holds (PyDict [("minute_requests"%string, PyList []);
                 ("daily_requests"%string, PyList []);
                 ("last_request_time"%string, PyStr "soon")]).

(** The invariant of a process: the object is consistent, and so is the
    object a new process would build from the file. *)
Definition good {builtins : StrBuiltins} (T : Q) (p : Process) : Prop :=
  0 <= T /\
  consistent T (limiter p) /\
  consistent T (RateLimiter_init (file (env p))).

(** The last request time is the maximum of the union of the three
    sequences. *)
Definition last_is_max (self : RateLimiter) : Prop :=
  exists l m,
    last_request_time self = PyNum l /\
    py_max (all_timestamps self) = Some m /\
    m == l.

(** ** Concrete states used as examples *)

(** A concrete burst history: five calls, four of them in the last minute
    before [1000]. *)
Definition burst_example : RateLimiter :=
  {| minute_requests := [];
     daily_requests := [];
     last_request_time := PyNum 980;
     request_timestamps := [700; 950; 960; 970; 980] |}.


Definition empty_env : Env := {| file := Absent; stdout := [] |}.

(** Ten calls recorded in one process, one per second from [1000]. *)
Definition ten_calls : RateLimiter :=
  fst (record_all
         (map (fun t => (t, Written))
              [1000; 1001; 1002; 1003; 1004; 1005; 1006; 1007; 1008; 1009])
         (reset_state blank) empty_env).


(** One call recorded at [1000] by a fresh limiter. *)
Definition one_call : RateLimiter :=
  fst (record_request 1000 Written (reset_state blank) empty_env).

(** 1500 calls recorded at [1000]. *)
Definition day_spent : RateLimiter :=
  fst (record_all (repeat (1000, Written) 1500) (reset_state blank) empty_env).

(** Three calls recorded more than a day after the epoch. *)
Definition late_calls : RateLimiter :=
  fst (record_all [(101000, Written); (101001, Written); (101002, Written)]
         (reset_state blank) empty_env).

(** Eleven recordings in eleven seconds, and 1501 recordings at one
    instant. *)
Definition eleven_records : list (Q * write_result) :=
  map (fun t => (t, Written))
      [1000; 1001; 1002; 1003; 1004; 1005; 1006; 1007; 1008; 1009; 1010].

Definition day_overrun : list (Q * write_result) :=
  repeat (1000, Written) 1501.

(** A session: a call is recorded, a check, a recording whose write
    fails, a new process, a look at the statistics and a last recording
    whose write fails half-way. *)
Definition session : list call :=
  [RecordRequest 1000 Written;
   CanMakeRequest 1003;
   RecordRequest 1010 (OpenFails "disk full");
   Relaunch;
   GetStats 1100;
   RecordRequest 1200 (DumpFails "disk full")].

(** A call is checked and recorded, and the next check comes more than a
    day later. *)
Definition long_pause : list call :=
  [CanMakeRequest 1000; RecordRequest 1000 Written; CanMakeRequest 90000].

(** Two calls checked and recorded while the clock is set back by 100
    seconds in between. *)
Definition clock_set_back : list call :=
  [CanMakeRequest 1000; RecordRequest 1000 Written;
   CanMakeRequest 900; RecordRequest 900 Written].

(** ** The prompt handler of app.py *)

(** Python's [str.strip] and [str.lower]. *)
Class TextBuiltins : Type := {
  py_strip : string -> string;
  py_lower : string -> string
}.

(** [word in text] on strings. *)
Fixpoint contains (word text : string) : bool :=
  if String.prefix word text then true
  else
    match text with
    | EmptyString => false
    | String _ rest => contains word rest
    end.

Definition greetings : list string :=
  ["hi"; "hello"; "hey"; "good morning"; "good afternoon"]%string.
Definition farewells : list string :=
  ["bye"; "goodbye"; "see you"; "later"]%string.
Definition thanks : list string :=
  ["thanks"; "thank you"; "thx"]%string.

Definition greeting_reply : string :=
  "🤖 Hi there! How can I help you with AI agents today?"%string.
Definition farewell_reply : string :=
  "🤖 Goodbye! Feel free to ask more about AI agents anytime."%string.
Definition thanks_reply : string :=
  "🤖 You're welcome! Do you have any more questions about AI agents?"%string.

(** [generate_response]; [None] is the signal to query the agent. *)
Definition generate_response {text : TextBuiltins} (user_text : string)
  : option string :=
  let text_lower := py_lower (py_strip user_text) in
  if existsb (fun word => contains word text_lower) greetings
  then Some greeting_reply
  else if existsb (fun word => contains word text_lower) farewells
  then Some farewell_reply
  else if existsb (fun word => contains word text_lower) thanks
  then Some thanks_reply
  else None.

(** What became of a prompt: answered as small talk, refused by the
    limiter with the text shown, passed to the agent, or an exception left
    the limiter. *)
Inductive handled : Type :=
| SmallTalk (reply : string)
| Refused (shown : string)
| Asked
| Crashed (e : exn).

(** The body of [if prompt := st.chat_input(...)] down to the call of the
    agent: [t_check] and [t_record] are the clock as [can_make_request]
    and [record_request] read it, [w] the way the write goes. *)
Definition on_prompt {text : TextBuiltins} (prompt : string)
    (t_check t_record : Q) (w : write_result) (p : Process)
  : Process * handled :=
  match generate_response prompt with
  | Some reply => (p, SmallTalk reply)
  | None =>
      let (self, a) := can_make_request t_check (limiter p) in
      match a with
      | Raises e => ({| limiter := self; env := env p |}, Crashed e)
      | Returns (false, Some msg_status) =>
          ({| limiter := self; env := env p |},
           Refused ("⚠️ " ++ msg_status)%string)
      | Returns (false, None) =>
          ({| limiter := self; env := env p |}, Crashed TypeError)
      | Returns (true, _) =>
          let (self1, e1) := record_request t_record w self (env p) in
          ({| limiter := self1; env := e1 |}, Asked)
      end
  end.

(** The value the sidebar passes to [st.sidebar.progress]. *)
Definition sidebar_progress (stats : Stats) : Q :=
  inject_Z (Z.min (minute_used stats) (minute_limit stats))
  / inject_Z (minute_limit stats).

(** One thing that happens to the application: the script runs without a
    prompt, it runs with one, or the process is started anew. *)
Inductive event : Type :=
| Visit (t_stats : Q)
| Ask (t_stats : Q) (prompt : string) (t_check t_record : Q)
      (w : write_result)
| Reboot.

Section Application.

Context {builtins : StrBuiltins} {text : TextBuiltins}.

(** One run of the script: the statistics for the sidebar, then the
    prompt if there is one. *)
Definition app_step (ev : event) (p : Process) : Process :=
  match ev with
  | Visit t_stats =>
      {| limiter := fst (get_stats t_stats (limiter p)); env := env p |}
  | Ask t_stats prompt t_check t_record w =>
      fst (on_prompt prompt t_check t_record w
             {| limiter := fst (get_stats t_stats (limiter p));
                env := env p |})
  | Reboot =>
      {| limiter := RateLimiter_init (file (env p)); env := env p |}
  end.

Definition app_run (evs : list event) (p : Process) : Process :=
  fold_left (fun q ev => app_step ev q) evs p.

End Application.

(** The clock readings of an event, in the order they are made when the
    prompt goes to the limiter. *)
Definition readings (ev : event) : list Q :=
  match ev with
  | Visit t => [t]
  | Ask t _ t_check t_record _ => [t; t_check; t_record]
  | Reboot => []
  end.

(** The readings [ts] never decrease and none is before [T]. *)
Fixpoint nondecreasing (T : Q) (ts : list Q) : Prop :=
  match ts with
  | [] => True
  | t :: r => T <= t /\ nondecreasing t r
  end.

(** Any two entries of [l], taken in order, are at least [gap] apart. *)
Definition spaced (gap : Q) (l : list Q) : Prop :=
  ForallOrdPairs (fun a b => a + gap <= b) l.

(** The backoff as a function of the number of recent calls. *)
Definition backoff_of (recent : Z) : Z :=
  if (3 <=? recent)%Z then Z.min (2 ^ (recent - 2)) 60 else 0%Z.

(** Text builtins for ASCII text. *)
Definition ascii_lower (c : ascii) : ascii :=
  let n := nat_of_ascii c in
  if ((65 <=? n) && (n <=? 90))%nat then ascii_of_nat (n + 32) else c.

Definition is_space (c : ascii) : bool :=
  let n := nat_of_ascii c in
  ((n =? 32) || ((9 <=? n) && (n <=? 13)))%nat.

Fixpoint lstrip (s : string) : string :=
  match s with
  | EmptyString => EmptyString
  | String c r => if is_space c then lstrip r else s
  end.

Fixpoint string_rev_onto (s acc : string) : string :=
  match s with
  | EmptyString => acc
  | String c r => string_rev_onto r (String c acc)
  end.

Fixpoint string_map (f : ascii -> ascii) (s : string) : string :=
  match s with
  | EmptyString => EmptyString
  | String c r => String (f c) (string_map f r)
  end.

Definition ascii_text : TextBuiltins :=
  {| py_strip := fun s =>
       string_rev_onto (lstrip (string_rev_onto (lstrip s) EmptyString))
                       EmptyString;
     py_lower := string_map ascii_lower |}.

(** The entries of [l] never decrease. *)
Definition sorted (l : list Q) : Prop := ForallOrdPairs Qle l.

(** What recording and pruning keep true of the three sequences when the
    clock has reached [T]: each is in time order, nothing is later than
    [T], and the minute sequence is the part of the daily one that was
    inside the minute window at some instant [tau] up to [T]. *)
Definition tidy (T : Q) (self : RateLimiter) : Prop :=
  sorted (minute_requests self) /\
  sorted (daily_requests self) /\
  sorted (request_timestamps self) /\
  (forall u, In u (all_timestamps self) -> u <= T) /\
  exists tau,
    tau <= T /\
    minute_requests self = within 60 tau (daily_requests self).

Definition tidy_process {builtins : StrBuiltins} (T : Q) (p : Process)
  : Prop :=
  tidy T (limiter p) /\ tidy T (RateLimiter_init (file (env p))).

(** Neither sequence holds more than its ceiling. *)
Definition within_limits (self : RateLimiter) : Prop :=
  (len (minute_requests self) <= MAX_REQUESTS_PER_MINUTE)%Z /\
  (len (daily_requests self) <= MAX_REQUESTS_PER_DAY)%Z.

(** What the application keeps true of the object when it records only
    after an allowed check: the object is consistent, the timestamps of
    each sequence are at least the cooldown apart, and all are positive
    clock readings. *)
Definition paced (T : Q) (self : RateLimiter) : Prop :=
  consistent T self /\
  spaced REQUEST_COOLDOWN (minute_requests self) /\
  spaced REQUEST_COOLDOWN (daily_requests self) /\
  spaced REQUEST_COOLDOWN (request_timestamps self) /\
  (forall u, In u (daily_requests self) -> 0 < u).

(** In a process that started without a state file the minute sequence
    is also the last minute of the burst history, and it stays short. *)
Definition paced_from_scratch (T : Q) (self : RateLimiter) : Prop :=
  paced T self /\
  (exists tau,
     tau <= T /\
     minute_requests self = within 60 tau (request_timestamps self)) /\
  (len (minute_requests self) <= 7)%Z.

Definition is_reboot (ev : event) : bool :=
  match ev with
  | Reboot => true
  | _ => false
  end.

Definition paced_process {builtins : StrBuiltins} (T : Q) (p : Process)
  : Prop :=
  0 < T /\
  paced T (limiter p) /\
  paced T (RateLimiter_init (file (env p))).

(** * Chunking of documents (app/ingest.py) *)

Module Ingest.

Inductive error : Type :=
| ValueError
| TypeError
| KeyError
| Failure (message : string)   (* a plain [Exception] *)
| Foreign (name : string)      (* an exception of a library *).

Inductive result (A : Type) : Type :=
| Ok (a : A)
| Err (e : error).
Arguments Ok {A} a.
Arguments Err {A} e.

(** One entry of the list [sliding_window] returns:
    [{"start": i, "content": batch}]. *)
Record window (A : Type) : Type := mkWindow {
  start : Z;
  content : list A
}.
Arguments mkWindow {A} start content.
Arguments start {A} w.
Arguments content {A} w.

(** [items[i:j]] for [0 <= i <= j]. *)
Definition slice {A : Type} (items : list A) (i j : Z) : list A :=
  firstn (Z.to_nat (j - i)) (skipn (Z.to_nat i) items).

(** [range(0, n, step)] for [0 <= n] and [0 < step]. *)
Definition range0 (n step : Z) : list Z :=
  map (fun k => (Z.of_nat k * step)%Z)
      (List.seq 0 (Z.to_nat ((n + step - 1) / step))).

(** The [for] loop of [sliding_window] over the remaining values of
    [range(0, n, step)], with its [break]. *)
Fixpoint window_loop {A : Type} (items : list A) (n size : Z)
    (starts : list Z) : list (window A) :=
  match starts with
  | [] => []
  | i :: rest =>
      let batch := slice items i (i + size) in
      {| start := i; content := batch |}
      :: (if (n <? i + size)%Z then [] else window_loop items n size rest)
  end.

(** [sliding_window] on a sequence given as the list of its items. *)
Definition sliding_window {A : Type} (items : list A) (size step : Z)
  : result (list (window A)) :=
  if ((size <=? 0) || (step <=? 0))%Z then Err ValueError
  else
    let n := len items in
    Ok (window_loop items n size (range0 n step)).

(** The sequence put together again from its windows: the first [step]
    items of every window but the last, then the last window. *)
Fixpoint rebuild {A : Type} (step : nat) (ws : list (window A)) : list A :=
  match ws with
  | [] => []
  | w :: rest =>
      match rest with
      | [] => content w
      | _ :: _ => firstn step (content w) ++ rebuild step rest
      end
  end.

Section Documents.

(** The characters of a [str], and the values that have no [len()]
    (None, booleans, floats, dates). *)
Context {Char Scalar : Type}.

(** Whether [slice] objects are hashable (they are from Python 3.12 on),
    which decides the exception of [d[i:j]] on a dict. *)
Variable hashable_slices : bool.

(** The values of a document as the YAML front matter gives them. *)
#[warnings="-register-all"]
Inductive value : Type :=
| Str (chars : list Char)
| Int (n : Z)
| Seq (elems : list value)
| Map (entries : list (string * value))
| Atom (a : Scalar).

(** A dict with [str] keys, as the list of its items in insertion
    order. *)
Definition dict : Type := list (string * value).

Fixpoint dict_get (key : string) (d : dict) : option value :=
  match d with
  | [] => None
  | (k, v) :: r => if String.eqb k key then Some v else dict_get key r
  end.

(** [d.pop(key)]: the value and the dict without the key; [None] for the
    [KeyError]. *)
Fixpoint dict_pop (key : string) (d : dict) : option (value * dict) :=
  match d with
  | [] => None
  | (k, v) :: r =>
      if String.eqb k key then Some (v, r)
      else
        match dict_pop key r with
        | None => None
        | Some (x, r') => Some (x, (k, v) :: r')
        end
  end.

(** [d[key] = v]: an existing key keeps its place, a new one goes last. *)
Fixpoint dict_set (key : string) (v : value) (d : dict) : dict :=
  match d with
  | [] => [(key, v)]
  | (k, x) :: r =>
      if String.eqb k key then (k, v) :: r else (k, x) :: dict_set key v r
  end.

(** [d.update(other)] *)
Definition dict_update (d other : dict) : dict :=
  fold_left (fun acc kv => dict_set (fst kv) (snd kv) acc) other d.

Definition window_dict {A : Type} (wrap : list A -> value) (w : window A)
  : dict :=
  [("start"%string, Int (start w)); ("content"%string, wrap (content w))].

(** [sliding_window] on a value of a document. *)
Definition sliding_window_value (seq : value) (size step : Z)
  : result (list dict) :=
  if ((size <=? 0) || (step <=? 0))%Z then Err ValueError
  else
    match seq with
    | Str chars =>
        Ok (map (window_dict Str)
              (window_loop chars (len chars) size (range0 (len chars) step)))
    | Seq elems =>
        Ok (map (window_dict Seq)
              (window_loop elems (len elems) size (range0 (len elems) step)))
    | Map [] => Ok []
    | Map (_ :: _) => Err (if hashable_slices then KeyError else TypeError)
    | Int _ | Atom _ => Err TypeError
    end.

Fixpoint chunk_documents (docs : list dict) (size step : Z)
  : result (list dict) :=
  match docs with
  | [] => Ok []
  | doc :: rest =>
      match dict_pop "content" doc with
      | None => Err KeyError
      | Some (doc_content, doc_copy) =>
          match sliding_window_value doc_content size step with
          | Err e => Err e
          | Ok doc_chunks =>
              let doc_chunks :=
                map (fun chunk => dict_update chunk doc_copy) doc_chunks in
              match chunk_documents rest size step with
              | Err e => Err e
              | Ok more => Ok (doc_chunks ++ more)
              end
          end
      end
  end.

(** The keys of a dict are distinct. *)
Definition well_formed (d : dict) : Prop := NoDup (map fst d).

End Documents.

Section Repository.

Context {Char Scalar : Type} {text : TextBuiltins}.

(** The bytes of an archive member; [frontmatter.loads] on their decoded
    text followed by [to_dict] ([Err] when reading or parsing raises); and
    the characters of a [str]. *)
Context {Raw : Type}.
Variable parse : Raw -> result (@dict Char Scalar).
Variable text_of : string -> list Char.

(** [s.endswith(suffix)] *)
Definition ends_with (suffix s : string) : bool :=
  (String.length suffix <=? String.length s)%nat &&
  String.eqb
    (substring (String.length s - String.length suffix)
               (String.length suffix) s)
    suffix.

(** [s.split("/", maxsplit=1)] when it has two parts; [None] when [s] holds
    no ["/"] and the list has one element. *)
Fixpoint split_first (s : string) : option (string * string) :=
  match s with
  | EmptyString => None
  | String c r =>
      if Ascii.eqb c "/" then Some (EmptyString, r)
      else
        match split_first r with
        | Some (a, b) => Some (String c a, b)
        | None => None
        end
  end.

(** The three tests of the loop of [read_repo_data]: [true] when the member
    is read, [false] when one of the [continue]s is taken. *)
Definition kept (name : string) : bool :=
  let filename := py_lower name in
  let filename_lower := py_lower filename in
  if negb (ends_with ".md" filename || ends_with ".mdx" filename) then false
  else if contains "/translations/" filename
          && negb (contains "/en/" filename) then false
  else if existsb (fun skip => contains skip filename_lower)
                  ["/locale/"; "/i18n/"; "/.github/"]%string
          && (negb (contains "/en/" filename_lower)
              && negb (contains "/english/" filename_lower)) then false
  else true.

(** The loop over [zf.infolist()]. *)
Fixpoint read_members (members : list (string * Raw))
  : result (list (@dict Char Scalar)) :=
  match members with
  | [] => Ok []
  | (name, raw) :: rest =>
      if kept name then
        match parse raw with
        | Err e => Err e
        | Ok data =>
            match split_first name with
            | None => Err ValueError
            | Some (_, filename_repo) =>
                let data :=
                  dict_set "filename" (Str (text_of filename_repo)) data in
                match read_members rest with
                | Err e => Err e
                | Ok more => Ok (data :: more)
                end
            end
        end
      else read_members rest
  end.

(** [read_repo_data], given the status of the download and what
    [zipfile.ZipFile] makes of the body. *)
Definition read_repo_data (status_code : Z)
    (archive : result (list (string * Raw)))
  : result (list (@dict Char Scalar)) :=
  if negb (status_code =? 200)%Z
  then Err (Failure ("Failed to download repository: "
                     ++ digits status_code)%string)
  else
    match archive with
    | Err e => Err e
    | Ok members => read_members members
    end.

End Repository.

End Ingest.

(** A document of three characters with a title and a [start] field of
    its own. *)
Definition sample_doc : @Ingest.dict ascii unit :=
  [("title"%string, Ingest.Str ["T"%char]);
   ("content"%string, Ingest.Str ["a"%char; "b"%char; "c"%char]);
   ("start"%string, Ingest.Int 99)].

(** Prompts over some minutes, with a failed write and a restart, and the
    same sitting without the restart. *)
Definition busy_day : list event :=
  [Ask 1000 "Explain tools" 1000 1001 Written;
   Ask 1003 "and memory?" 1003 1004 Written;
   Visit 1005;
   Ask 1010 "what next?" 1010 1011 (OpenFails "disk full");
   Reboot;
   Ask 1020 "go on" 1020 1021 Written].

Definition one_sitting : list event :=
  [Ask 1000 "Explain tools" 1000 1001 Written;
   Ask 1003 "and memory?" 1003 1004 Written;
   Visit 1005;
   Ask 1010 "what next?" 1010 1011 (OpenFails "disk full");
   Ask 1020 "go on" 1020 1021 Written].

(** A document without a [content] field. *)
Definition empty_doc : @Ingest.dict ascii unit :=
  [("title"%string, Ingest.Str ["T"%char])].

(** An archive of four members: two pages, an image and a French
    translation. *)
Definition sample_parse (raw : string) : Ingest.result (@Ingest.dict ascii unit) :=
  if String.eqb raw "bad" then Ingest.Err (Ingest.Foreign "YAMLError")
  else Ingest.Ok [("content"%string, Ingest.Str (list_ascii_of_string raw))].

Definition sample_archive : list (string * string) :=
  [("repo-master/README.md", "hello");
   ("repo-master/img/logo.png", "bad");
   ("repo-master/translations/fr/README.md", "bad");
   ("repo-master/docs/Intro.MDX", "intro")]%string.
(** * Properties *)

(** ** Timestamps and windows *)

Lemma Qltb_lt (x y : Q) : Qltb x y = true <-> x < y.
Proof.
  unfold Qltb. rewrite negb_true_iff. split; intro H.
  - apply Qnot_le_lt. intro Hle. apply Qle_bool_iff in Hle. congruence.
  - destruct (Qle_bool y x) eqn:E; [|reflexivity].
    apply Qle_bool_iff in E. exfalso. apply (Qlt_not_le _ _ H E).
Qed.

Lemma Qltb_ge (x y : Q) : Qltb x y = false <-> y <= x.
Proof.
  unfold Qltb. rewrite negb_false_iff. apply Qle_bool_iff.
Qed.

Lemma within_In (w now t : Q) (l : list Q) :
  In t (within w now l) <-> In t l /\ now - w < t.
Proof.
  unfold within. rewrite filter_In, Qltb_lt. tauto.
Qed.

Lemma within_length (w now : Q) (l : list Q) :
  (len (within w now l) <= len l)%Z.
Proof.
  unfold len, within. apply inj_le. apply filter_length_le.
Qed.

(** Pruning a list that was pruned at an earlier (or the same) instant, or
    for a wider window, is pruning the original list. *)
Lemma within_within (w1 w2 t1 t2 : Q) (l : list Q) :
  t1 - w1 <= t2 - w2 ->
  within w2 t2 (within w1 t1 l) = within w2 t2 l.
Proof.
  intro Hle. unfold within. induction l as [|t l IH]; simpl; [reflexivity|].
  destruct (Qltb (t1 - w1) t) eqn:E1; simpl.
  - rewrite IH. reflexivity.
  - rewrite IH. destruct (Qltb (t2 - w2) t) eqn:E2; [|reflexivity].
    apply Qltb_lt in E2. apply Qltb_ge in E1. exfalso.
    apply (Qlt_irrefl t). eapply Qle_lt_trans; [exact E1|].
    eapply Qle_lt_trans; [exact Hle|exact E2].
Qed.

Lemma within_all (w now : Q) (l : list Q) :
  (forall t, In t l -> now - w < t) -> within w now l = l.
Proof.
  intro H. unfold within. induction l as [|t l IH]; simpl; [reflexivity|].
  assert (E : Qltb (now - w) t = true) by (apply Qltb_lt, H; left; reflexivity).
  rewrite E. f_equal. apply IH. intros u Hu. apply H. right. exact Hu.
Qed.

Lemma within_none (w now : Q) (l : list Q) :
  (forall t, In t l -> t <= now - w) -> within w now l = [].
Proof.
  intro H. unfold within. induction l as [|t l IH]; simpl; [reflexivity|].
  assert (E : Qltb (now - w) t = false) by (apply Qltb_ge, H; left; reflexivity).
  rewrite E. apply IH. intros u Hu. apply H. right. exact Hu.
Qed.

Lemma within_app (w now : Q) (l1 l2 : list Q) :
  within w now (l1 ++ l2) = within w now l1 ++ within w now l2.
Proof. unfold within. apply filter_app. Qed.

(** ** Formatting *)

(** [round_half_even n d] is an integer nearest to [n / d]. *)
Lemma round_half_even_nearest (n : Z) (d : positive) :
  (0 <= n)%Z ->
  (Z.abs (2 * (round_half_even n d * Zpos d - n)) <= Zpos d)%Z.
Proof.
  intro Hn. unfold round_half_even.
  pose proof (Z.div_mod n (Zpos d) ltac:(lia)) as Hdm.
  pose proof (Z.mod_pos_bound n (Zpos d) ltac:(lia)) as Hr.
  set (q := (n / Zpos d)%Z) in *. set (r := (n mod Zpos d)%Z) in *.
  destruct (2 * r ?= Zpos d)%Z eqn:E.
  - apply Z.compare_eq in E. destruct (Z.even q); nia.
  - rewrite Z.compare_lt_iff in E. nia.
  - rewrite Z.compare_gt_iff in E. nia.
Qed.

Lemma digits_single (k : Z) :
  (0 <= k < 10)%Z -> String.length (digits k) = 1%nat.
Proof.
  intro H.
  assert (C : (k = 0 \/ k = 1 \/ k = 2 \/ k = 3 \/ k = 4 \/ k = 5 \/ k = 6 \/
               k = 7 \/ k = 8 \/ k = 9)%Z) by lia.
  repeat (destruct C as [-> | C]; [reflexivity|]). subst k. reflexivity.
Qed.

(** [f"{x:.1f}"]: a sign, the integer digits, a point and one digit, of
    the tenths nearest to [x]. *)
Lemma format_fixed_one_decimal (x : Q) :
  let m := round_half_even (Z.abs (Qnum x) * 10) (Qden x) in
  format_fixed 1 x =
    ((if (Qnum x <? 0)%Z then "-" else "") ++
     digits (m / 10) ++ "." ++ digits (m mod 10))%string /\
  String.length (digits (m mod 10)) = 1%nat /\
  (Z.abs (2 * (m * Zpos (Qden x) - Z.abs (Qnum x) * 10)) <= Zpos (Qden x))%Z.
Proof.
  intro m.
  assert (Hd : String.length (digits (m mod 10)) = 1%nat).
  { apply digits_single. apply Z.mod_pos_bound. lia. }
  split; [|split; [exact Hd|]].
  - unfold format_fixed. fold m.
    change (10 ^ Z.of_nat 1)%Z with 10%Z. fold m.
    rewrite Hd. reflexivity.
  - apply round_half_even_nearest. lia.
Qed.

(** ** The backoff function *)

Lemma calculate_backoff_time_cases (now : Q) (self : RateLimiter) :
  let recent := within 60 now (request_timestamps self) in
  calculate_backoff_time now self =
    if (3 <=? len recent)%Z then Z.min (2 ^ (len recent - 2)) 60 else 0%Z.
Proof.
  intro recent. unfold calculate_backoff_time. fold recent.
  destruct (3 <=? len (request_timestamps self))%Z eqn:E; [reflexivity|].
  apply Z.leb_gt in E.
  pose proof (within_length 60 now (request_timestamps self)) as Hle.
  fold recent in Hle.
  destruct (3 <=? len recent)%Z eqn:E2; [|reflexivity].
  apply Z.leb_le in E2. lia.
Qed.

(** C2: on the pruned object, the backoff is [min(2^(count(recent) - 2), 60)]
    when the 300-second burst sequence and its trailing 60-second part
    [recent] both hold at least 3 timestamps, and 0 otherwise; for 3, 4, 5
    and 10 recent calls it is 2, 4, 8 and 60 (the cap, where the power
    is 256). *)
Theorem calculate_backoff_time_spec (now : Q) (self : RateLimiter) :
  let pruned := clean_old_requests now self in
  let burst := request_timestamps pruned in
  let recent := within 60 now burst in
  let backoff := calculate_backoff_time now pruned in
  ((3 <= len burst)%Z -> (3 <= len recent)%Z ->
     backoff = Z.min (2 ^ (len recent - 2)) 60) /\
  (~ ((3 <= len burst)%Z /\ (3 <= len recent)%Z) -> backoff = 0%Z) /\
  (len recent = 3%Z -> backoff = 2%Z) /\
  (len recent = 4%Z -> backoff = 4%Z) /\
  (len recent = 5%Z -> backoff = 8%Z) /\
  (len recent = 10%Z -> backoff = 60%Z /\ (2 ^ (len recent - 2) = 256)%Z).
Proof.
  intros pruned burst recent backoff.
  assert (Hb : backoff =
    if (3 <=? len recent)%Z then Z.min (2 ^ (len recent - 2)) 60 else 0%Z)
    by apply calculate_backoff_time_cases.
  pose proof (within_length 60 now burst) as Hle. fold recent in Hle.
  repeat split.
  - intros _ H3. rewrite Hb. apply Z.leb_le in H3. rewrite H3. reflexivity.
  - intro Hn. rewrite Hb. destruct (3 <=? len recent)%Z eqn:E; [|reflexivity].
    apply Z.leb_le in E. exfalso. apply Hn. lia.
  - intro E. rewrite Hb, E. reflexivity.
  - intro E. rewrite Hb, E. reflexivity.
  - intro E. rewrite Hb, E. reflexivity.
  - rewrite Hb, H. reflexivity.
  - rewrite H. reflexivity.
Qed.

Lemma calculate_backoff_time_spec_witness :
  let pruned := clean_old_requests 1000 burst_example in
  let recent := within 60 1000 (request_timestamps pruned) in
  ((3 <= len (request_timestamps pruned))%Z /\ (3 <= len recent)%Z /\
   calculate_backoff_time 1000 pruned = Z.min (2 ^ (len recent - 2)) 60) /\
  (len recent = 4%Z /\ calculate_backoff_time 1000 pruned = 4%Z).
Proof.
  intros pruned recent.
  destruct (calculate_backoff_time_spec 1000 burst_example)
    as (Hmin & _ & _ & H4 & _).
  assert (Hb : (3 <= len (request_timestamps pruned))%Z)
    by (vm_compute; discriminate).
  assert (Hr : (3 <= len recent)%Z) by (vm_compute; discriminate).
  assert (E4 : len recent = 4%Z) by reflexivity.
  split.
  - split; [exact Hb|]. split; [exact Hr|]. exact (Hmin Hb Hr).
  - split; [exact E4|]. exact (H4 E4).
Defined.

(** ** The decision procedure *)

Lemma py_min_nonempty (l : list Q) :
  (0 < len l)%Z -> exists m, py_min l = Some m.
Proof.
  destruct l as [|x r]; unfold len; simpl.
  - lia.
  - intros _. eexists. reflexivity.
Qed.

Lemma py_min_from_spec (l : list Q) (x : Q) :
  (py_min_from x l = x \/ In (py_min_from x l) l) /\
  py_min_from x l <= x /\
  (forall t, In t l -> py_min_from x l <= t).
Proof.
  unfold py_min_from. revert x.
  induction l as [|t l IH]; intro x; simpl.
  - split; [left; reflexivity|]. split; [apply Qle_refl|]. intros t [].
  - destruct (Qltb t x) eqn:E.
    + destruct (IH t) as (Hin & Hle & Hall). apply Qltb_lt in E.
      split; [right; destruct Hin as [->|Hin]; [left; reflexivity|right; exact Hin]|].
      split; [eapply Qle_trans; [exact Hle|apply Qlt_le_weak, E]|].
      intros u [<-|Hu]; [exact Hle|apply Hall, Hu].
    + destruct (IH x) as (Hin & Hle & Hall). apply Qltb_ge in E.
      split; [destruct Hin as [->|Hin]; [left; reflexivity|right; right; exact Hin]|].
      split; [exact Hle|].
      intros u [<-|Hu]; [eapply Qle_trans; [exact Hle|exact E]|apply Hall, Hu].
Qed.

(** [min(l)] is an element of [l] below all the others. *)
Lemma py_min_spec (l : list Q) (m : Q) :
  py_min l = Some m -> In m l /\ forall t, In t l -> m <= t.
Proof.
  destruct l as [|x r]; simpl; [discriminate|].
  intro H. injection H as <-.
  destruct (py_min_from_spec r x) as (Hin & Hle & Hall).
  split.
  - destruct Hin as [->|Hin]; [left; reflexivity|right; exact Hin].
  - intros t [<-|Ht]; [exact Hle|apply Hall, Ht].
Qed.


Lemma can_make_request_at_daily (t_clean current_time t_backoff : Q)
    (self : RateLimiter) :
  let pruned := clean_old_requests t_clean self in
  (len (minute_requests pruned) < MAX_REQUESTS_PER_MINUTE)%Z ->
  (MAX_REQUESTS_PER_DAY <= len (daily_requests pruned))%Z ->
  can_make_request_at t_clean current_time t_backoff self =
    (pruned, Returns (false, Some daily_message)).
Proof.
  intros pruned Hm Hd. unfold can_make_request_at. fold pruned.
  apply Z.leb_gt in Hm. rewrite Hm.
  apply Z.leb_le in Hd. rewrite Hd. reflexivity.
Qed.

Lemma can_make_request_at_cooldown (t_clean current_time t_backoff last : Q)
    (self : RateLimiter) :
  let pruned := clean_old_requests t_clean self in
  let cooldown :=
    REQUEST_COOLDOWN + inject_Z (calculate_backoff_time t_backoff pruned) in
  let elapsed := current_time - last in
  (len (minute_requests pruned) < MAX_REQUESTS_PER_MINUTE)%Z ->
  (len (daily_requests pruned) < MAX_REQUESTS_PER_DAY)%Z ->
  py_number (last_request_time self) = Some last ->
  0 < last ->
  can_make_request_at t_clean current_time t_backoff self =
    (pruned,
     if Qltb elapsed cooldown
     then Returns (false, Some (cooldown_message (cooldown - elapsed)))
     else Returns (true, None)).
Proof.
  intros pruned cooldown elapsed Hm Hd Hl Hpos.
  unfold can_make_request_at. fold pruned.
  apply Z.leb_gt in Hm. rewrite Hm.
  apply Z.leb_gt in Hd. rewrite Hd.
  unfold cooldown_check.
  replace (last_request_time pruned) with (last_request_time self)
    by reflexivity.
  rewrite Hl. apply Qltb_lt in Hpos. rewrite Hpos. reflexivity.
Qed.

(** An object whose last request time is not a number makes the cooldown
    check raise, once both ceilings are passed. *)
Lemma can_make_request_at_ill_typed (t_clean current_time t_backoff : Q)
    (self : RateLimiter) :
  let pruned := clean_old_requests t_clean self in
  (len (minute_requests pruned) < MAX_REQUESTS_PER_MINUTE)%Z ->
  (len (daily_requests pruned) < MAX_REQUESTS_PER_DAY)%Z ->
  py_number (last_request_time self) = None ->
  can_make_request_at t_clean current_time t_backoff self =
    (pruned, Raises TypeError).
Proof.
  intros pruned Hm Hd Hl.
  unfold can_make_request_at. fold pruned.
  apply Z.leb_gt in Hm. rewrite Hm.
  apply Z.leb_gt in Hd. rewrite Hd.
  unfold cooldown_check.
  replace (last_request_time pruned) with (last_request_time self)
    by reflexivity.
  rewrite Hl. reflexivity.
Qed.

(** With a numeric last request time the call always returns an answer. *)
Lemma can_make_request_at_returns (t_clean current_time t_backoff : Q)
    (self : RateLimiter) :
  py_number (last_request_time self) <> None ->
  exists d,
    snd (can_make_request_at t_clean current_time t_backoff self) = Returns d.
Proof.
  intro Hl. unfold can_make_request_at. cbv zeta.
  set (pruned := clean_old_requests t_clean self).
  unfold snd.
  destruct (MAX_REQUESTS_PER_MINUTE <=? len (minute_requests pruned))%Z eqn:Em.
  - apply Z.leb_le in Em.
    destruct (py_min_nonempty (minute_requests pruned)) as [m Hm].
    { unfold MAX_REQUESTS_PER_MINUTE in Em. lia. }
    rewrite Hm. eexists. reflexivity.
  - destruct (MAX_REQUESTS_PER_DAY <=? len (daily_requests pruned))%Z.
    + eexists. reflexivity.
    + unfold cooldown_check.
      replace (last_request_time pruned) with (last_request_time self)
        by reflexivity.
      destruct (py_number (last_request_time self)) as [last|];
        [|congruence].
      destruct (Qltb 0 last); [|eexists; reflexivity].
      cbv zeta.
      destruct (Qltb _ _); eexists; reflexivity.
Qed.



(** C4: when the minute ceiling is not hit and the pruned daily window holds
    at least 1500 timestamps, the answer is a denial with one fixed reason,
    the same string for every state and every instant. *)
Theorem daily_ceiling (now : Q) (self : RateLimiter) :
  let pruned := clean_old_requests now self in
  (len (minute_requests pruned) < MAX_REQUESTS_PER_MINUTE)%Z ->
  (MAX_REQUESTS_PER_DAY <= len (daily_requests pruned))%Z ->
  can_make_request now self =
    (pruned,
     Returns (false,
              Some "⚠️ Daily limit reached. Resets at midnight PT."%string)).
Proof.
  intros pruned Hm Hd.
  unfold can_make_request, can_make_request_at. fold pruned.
  apply Z.leb_gt in Hm. rewrite Hm.
  apply Z.leb_le in Hd. rewrite Hd. reflexivity.
Qed.



Lemma daily_ceiling_witness :
  ((len (minute_requests (clean_old_requests 1100 day_spent))
      < MAX_REQUESTS_PER_MINUTE)%Z /\
   (MAX_REQUESTS_PER_DAY
      <= len (daily_requests (clean_old_requests 1100 day_spent)))%Z /\
   snd (can_make_request 1100 day_spent) =
     Returns (false,
              Some "⚠️ Daily limit reached. Resets at midnight PT."%string)) /\
  ((len (minute_requests (clean_old_requests 87399 day_spent))
      < MAX_REQUESTS_PER_MINUTE)%Z /\
   (MAX_REQUESTS_PER_DAY
      <= len (daily_requests (clean_old_requests 87399 day_spent)))%Z /\
   snd (can_make_request 87399 day_spent) =
     Returns (false,
              Some "⚠️ Daily limit reached. Resets at midnight PT."%string)).
Proof.
  split.
  - assert (Hm : (len (minute_requests (clean_old_requests 1100 day_spent))
                  < MAX_REQUESTS_PER_MINUTE)%Z) by (vm_compute; reflexivity).
    assert (Hd : (MAX_REQUESTS_PER_DAY
                  <= len (daily_requests (clean_old_requests 1100 day_spent)))%Z)
      by (vm_compute; discriminate).
    split; [exact Hm|]. split; [exact Hd|].
    rewrite (daily_ceiling 1100 day_spent Hm Hd). reflexivity.
  - assert (Hm : (len (minute_requests (clean_old_requests 87399 day_spent))
                  < MAX_REQUESTS_PER_MINUTE)%Z) by (vm_compute; reflexivity).
    assert (Hd : (MAX_REQUESTS_PER_DAY
                  <= len (daily_requests (clean_old_requests 87399 day_spent)))%Z)
      by (vm_compute; discriminate).
    split; [exact Hm|]. split; [exact Hd|].
    rewrite (daily_ceiling 87399 day_spent Hm Hd). reflexivity.
Defined.


(** ** Pruning before every read *)

Lemma clean_old_requests_pruned (now : Q) (self : RateLimiter) :
  pruned_at now (clean_old_requests now self).
Proof.
  unfold pruned_at, clean_old_requests; simpl.
  repeat split; intros t Ht; apply within_In in Ht; tauto.
Qed.

Lemma can_make_request_fst (now : Q) (self : RateLimiter) :
  fst (can_make_request now self) = clean_old_requests now self.
Proof. reflexivity. Qed.

Lemma get_stats_fst (now : Q) (self : RateLimiter) :
  fst (get_stats now self) = clean_old_requests now self.
Proof. reflexivity. Qed.

(** Both reads are functions of the pruned object. *)
Lemma can_make_request_clean (now : Q) (s1 s2 : RateLimiter) :
  clean_old_requests now s1 = clean_old_requests now s2 ->
  can_make_request now s1 = can_make_request now s2.
Proof.
  intro H. unfold can_make_request, can_make_request_at. rewrite H. reflexivity.
Qed.

Lemma get_stats_clean (now : Q) (s1 s2 : RateLimiter) :
  clean_old_requests now s1 = clean_old_requests now s2 ->
  get_stats now s1 = get_stats now s2.
Proof.
  intro H. unfold get_stats. rewrite H. reflexivity.
Qed.

Lemma clean_with_expired (now : Q) (om od ob : list Q) (self : RateLimiter) :
  (forall t, In t om -> t <= now - 60) ->
  (forall t, In t od -> t <= now - 86400) ->
  (forall t, In t ob -> t <= now - 300) ->
  clean_old_requests now (with_expired om od ob self) =
  clean_old_requests now self.
Proof.
  intros Hm Hd Hb. unfold clean_old_requests, with_expired; simpl.
  rewrite !within_app.
  rewrite (within_none _ _ _ Hm), (within_none _ _ _ Hd), (within_none _ _ _ Hb).
  reflexivity.
Qed.

(** Pruning at [t1] and then at a later [t2] is pruning at [t2]. *)
Lemma clean_clean (t1 t2 : Q) (self : RateLimiter) :
  t1 <= t2 ->
  clean_old_requests t2 (clean_old_requests t1 self) =
  clean_old_requests t2 self.
Proof.
  intro H. unfold clean_old_requests; simpl.
  rewrite !within_within; [reflexivity| | |];
    unfold Qminus; apply Qplus_le_compat; try exact H; apply Qle_refl.
Qed.

Lemma clean_pruned_at (now : Q) (self : RateLimiter) :
  pruned_at now self -> clean_old_requests now self = self.
Proof.
  intros (Hm & Hd & Hb). destruct self as [m d l b].
  unfold clean_old_requests; simpl in *.
  rewrite (within_all 60 now m Hm), (within_all 86400 now d Hd),
          (within_all 300 now b Hb).
  reflexivity.
Qed.

(** C5: [can_make_request] and [get_stats] first prune: the object they
    return holds, of each sequence, exactly the timestamps later than
    [now - 60] (minute), [now - 86400] (daily) and [now - 300] (burst), in
    their order, and nothing else; they answer as if the expired timestamps
    had never been stored, and an object whose timestamps all lie inside
    their windows comes back as it was; ten calls recorded at 0 (or at
    1000) leave an empty minute window 61 seconds later, and the call is
    allowed. *)
Theorem reads_prune_first {builtins : StrBuiltins} (now : Q)
    (old_minute old_daily old_burst : list Q) (self : RateLimiter) :
  (forall t, In t old_minute -> t <= now - 60) ->
  (forall t, In t old_daily -> t <= now - 86400) ->
  (forall t, In t old_burst -> t <= now - 300) ->
  let aged := with_expired old_minute old_daily old_burst self in
  (pruned_at now (fst (can_make_request now aged)) /\
   pruned_at now (fst (get_stats now aged))) /\
  (can_make_request now aged = can_make_request now self /\
   get_stats now aged = get_stats now self) /\
  (forall T, T = 0 \/ T = 1000 ->
   let p := fst (run (repeat (RecordRequest T Written) 10) (start Absent)) in
   len (minute_requests (limiter p)) = 10%Z /\
   minute_requests (limiter (fst (step (CanMakeRequest (T + 61)) p))) = [] /\
   snd (step (CanMakeRequest (T + 61)) p) = Answer (Returns (true, None)) /\
   minute_used (snd (get_stats (T + 61) (limiter p))) = 0%Z) /\
  (fst (get_stats now aged) = fst (can_make_request now aged) /\
   minute_requests (fst (can_make_request now aged)) =
     filter (fun t => Qltb (now - 60) t) (minute_requests aged) /\
   daily_requests (fst (can_make_request now aged)) =
     filter (fun t => Qltb (now - 86400) t) (daily_requests aged) /\
   request_timestamps (fst (can_make_request now aged)) =
     filter (fun t => Qltb (now - 300) t) (request_timestamps aged) /\
   last_request_time (fst (can_make_request now aged)) =
     last_request_time aged) /\
  (forall t,
     (In t (minute_requests (fst (can_make_request now aged))) <->
      In t (minute_requests aged) /\ now - 60 < t) /\
     (In t (daily_requests (fst (can_make_request now aged))) <->
      In t (daily_requests aged) /\ now - 86400 < t) /\
     (In t (request_timestamps (fst (can_make_request now aged))) <->
      In t (request_timestamps aged) /\ now - 300 < t)) /\
  (pruned_at now self ->
   fst (can_make_request now aged) = self /\
   fst (get_stats now aged) = self /\
   minute_used (snd (get_stats now aged)) = len (minute_requests self) /\
   daily_used (snd (get_stats now aged)) = len (daily_requests self)).
Proof.
  intros Hm Hd Hb aged.
  pose proof (clean_with_expired now _ _ _ self Hm Hd Hb) as Hc.
  fold aged in Hc.
  split; [|split; [|split; [|split; [|split]]]].
  - rewrite can_make_request_fst, get_stats_fst.
    split; apply clean_old_requests_pruned.
  - split; [apply can_make_request_clean|apply get_stats_clean]; exact Hc.
  - intros T [-> | ->]; vm_compute; repeat split; reflexivity.
  - repeat split; reflexivity.
  - intro t. rewrite can_make_request_fst.
    unfold clean_old_requests; simpl.
    split; [apply within_In|split; apply within_In].
  - intro Hp.
    assert (E : clean_old_requests now aged = self)
      by (rewrite Hc; apply clean_pruned_at, Hp).
    rewrite can_make_request_fst, get_stats_fst.
    split; [exact E|]. split; [exact E|].
    unfold get_stats; cbv zeta; unfold snd, minute_used, daily_used.
    rewrite E. split; reflexivity.
Qed.

Lemma polls_cons (t : Q) (ts : list Q) (self : RateLimiter) :
  polls (t :: ts) self = polls ts (clean_old_requests t self).
Proof. reflexivity. Qed.

(** Earlier calls leave no trace that a later call can see. *)
Lemma polls_unobserved (now : Q) (earlier : list Q)
    (self : RateLimiter) :
  (forall t, In t earlier -> t <= now) ->
  let polled := polls earlier self in
  can_make_request now polled = can_make_request now self /\
  can_make_request now (fst (can_make_request now self)) =
    can_make_request now self /\
  clean_old_requests now (clean_old_requests now self) =
    clean_old_requests now self /\
  (len (minute_requests polled) <= len (minute_requests self))%Z /\
  (len (daily_requests polled) <= len (daily_requests self))%Z /\
  (len (request_timestamps polled) <= len (request_timestamps self))%Z /\
  (forall t, In t (minute_requests polled) -> In t (minute_requests self)) /\
  (forall t, In t (daily_requests polled) -> In t (daily_requests self)) /\
  (forall t, In t (request_timestamps polled) ->
             In t (request_timestamps self)) /\
  last_request_time polled = last_request_time self.
Proof.
  revert self.
  induction earlier as [|t ts IH]; intros self Hle; cbv zeta.
  - change (polls [] self) with self.
    repeat split; try lia; try tauto.
    + apply can_make_request_clean, clean_clean, Qle_refl.
    + apply clean_clean, Qle_refl.
  - assert (Ht : t <= now) by (apply Hle; left; reflexivity).
    assert (Hts : forall u, In u ts -> u <= now)
      by (intros u Hu; apply Hle; right; exact Hu).
    destruct (IH (clean_old_requests t self) Hts) as
      (H1 & _ & _ & Hlm & Hld & Hlb & Him & Hid & Hib & Hlast).
    pose proof (within_length 60 t (minute_requests self)).
    pose proof (within_length 86400 t (daily_requests self)).
    pose proof (within_length 300 t (request_timestamps self)).
    cbv zeta in H1. simpl in Hlm, Hld, Hlb, Him, Hid, Hib, Hlast.
    rewrite polls_cons.
    repeat split.
    + rewrite H1. apply can_make_request_clean, clean_clean, Ht.
    + apply can_make_request_clean, clean_clean, Qle_refl.
    + apply clean_clean, Qle_refl.
    + lia.
    + lia.
    + lia.
    + intros u Hu. apply Him in Hu. apply within_In in Hu. tauto.
    + intros u Hu. apply Hid in Hu. apply within_In in Hu. tauto.
    + intros u Hu. apply Hib in Hu. apply within_In in Hu. tauto.
    + exact Hlast.
Qed.

(** C6: calling [can_make_request] any number of times at instants up to
    [now] changes nothing that a call at [now] observes: the call at [now]
    returns the same object and the same answer as without them, a
    second call at [now] returns what the first one did, the earlier
    calls only remove timestamps, and no call touches the file or
    prints. *)
Theorem can_make_request_idempotent {builtins : StrBuiltins} (now : Q)
    (earlier : list Q) (self : RateLimiter) :
  (forall t, In t earlier -> t <= now) ->
  let polled := polls earlier self in
  can_make_request now polled = can_make_request now self /\
  can_make_request now (fst (can_make_request now self)) =
    can_make_request now self /\
  clean_old_requests now (clean_old_requests now self) =
    clean_old_requests now self /\
  (len (minute_requests polled) <= len (minute_requests self))%Z /\
  (len (daily_requests polled) <= len (daily_requests self))%Z /\
  (len (request_timestamps polled) <= len (request_timestamps self))%Z /\
  (forall t, In t (minute_requests polled) -> In t (minute_requests self)) /\
  (forall t, In t (daily_requests polled) -> In t (daily_requests self)) /\
  (forall t, In t (request_timestamps polled) ->
             In t (request_timestamps self)) /\
  last_request_time polled = last_request_time self /\
  (forall p, env (fst (step (CanMakeRequest now) p)) = env p).
Proof.
  intros H polled.
  destruct (polls_unobserved now earlier self H)
    as (H1 & H2 & H3 & H4 & H5 & H6 & H7 & H8 & H9 & H10).
  fold polled in H1, H4, H5, H6, H7, H8, H9, H10.
  repeat (split; [assumption|]).
  intro p. reflexivity.
Qed.

Lemma reads_prune_first_witness :
  (forall t, In t [100900; 100930] -> t <= 101010 - 60) /\
  (forall t, In t [50] -> t <= 101010 - 86400) /\
  (forall t, In t [100700] -> t <= 101010 - 300) /\
  pruned_at 101010 late_calls /\
  can_make_request 101010
      (with_expired [100900; 100930] [50] [100700] late_calls) =
    can_make_request 101010 late_calls /\
  get_stats 101010 (with_expired [100900; 100930] [50] [100700] late_calls) =
    get_stats 101010 late_calls /\
  fst (can_make_request 101010
         (with_expired [100900; 100930] [50] [100700] late_calls))
    = late_calls.
Proof.
  assert (Hm : forall t, In t [100900; 100930] -> t <= 101010 - 60).
  { intros t [<- | [<- | []]]; vm_compute; discriminate. }
  assert (Hd : forall t, In t [50] -> t <= 101010 - 86400).
  { intros t [<- | []]; vm_compute; discriminate. }
  assert (Hb : forall t, In t [100700] -> t <= 101010 - 300).
  { intros t [<- | []]; vm_compute; discriminate. }
  assert (Hp : pruned_at 101010 late_calls).
  { repeat split; intros t Ht; simpl in Ht;
      repeat (destruct Ht as [<- | Ht]; [reflexivity|]); destruct Ht. }
  destruct (@reads_prune_first no_numeric_str 101010
              [100900; 100930] [50] [100700] late_calls Hm Hd Hb)
    as (_ & (H1 & H2) & _ & _ & _ & Hexact).
  split; [exact Hm|]. split; [exact Hd|]. split; [exact Hb|].
  split; [exact Hp|]. split; [exact H1|]. split; [exact H2|].
  exact (proj1 (Hexact Hp)).
Defined.

Lemma can_make_request_idempotent_witness :
  (forall t, In t [1005; 1061; 1062] -> t <= 1062) /\
  can_make_request 1062 (polls [1005; 1061; 1062] ten_calls) =
    can_make_request 1062 ten_calls /\
  Z.le (len (minute_requests (polls [1005; 1061; 1062] ten_calls)))
       (len (minute_requests ten_calls)).
Proof.
  assert (H : forall t, In t [1005; 1061; 1062] -> t <= 1062).
  { intros t [<- | [<- | [<- | []]]]; vm_compute; discriminate. }
  split; [exact H|].
  destruct (@can_make_request_idempotent no_numeric_str 1062
              [1005; 1061; 1062] ten_calls H)
    as (H1 & _ & _ & H4 & _).
  split; [exact H1 | exact H4].
Defined.

(** ** Recording *)

Lemma record_all_app (rs1 rs2 : list (Q * write_result)) (self : RateLimiter)
    (e : Env) :
  record_all (rs1 ++ rs2) self e =
  record_all rs2 (fst (record_all rs1 self e)) (snd (record_all rs1 self e)).
Proof.
  revert self e. induction rs1 as [|[t w] r IH]; intros self e; simpl.
  - reflexivity.
  - apply IH.
Qed.

(** [record_request] appends to all three sequences, whatever they hold and
    however the write goes. *)
Lemma record_all_sequences (rs : list (Q * write_result)) (self : RateLimiter)
    (e : Env) :
  let recorded := fst (record_all rs self e) in
  minute_requests recorded = minute_requests self ++ map fst rs /\
  daily_requests recorded = daily_requests self ++ map fst rs /\
  request_timestamps recorded = request_timestamps self ++ map fst rs.
Proof.
  revert self e. induction rs as [|[t w] r IH]; intros self e; simpl.
  - rewrite !app_nil_r. repeat split; reflexivity.
  - destruct (IH (fst (record_request t w self e))
                 (snd (record_request t w self e))) as (Hm & Hd & Hb).
    simpl in Hm, Hd, Hb. rewrite <- !app_assoc in Hm, Hd, Hb.
    repeat split; assumption.
Qed.

Lemma len_app {A : Type} (l1 l2 : list A) :
  len (l1 ++ l2) = (len l1 + len l2)%Z.
Proof. unfold len. rewrite length_app. lia. Qed.

Lemma len_map {A B : Type} (f : A -> B) (l : list A) :
  len (map f l) = len l.
Proof. unfold len. rewrite length_map. reflexivity. Qed.

Lemma len_nonneg {A : Type} (l : list A) : (0 <= len l)%Z.
Proof. unfold len. lia. Qed.

(** C10: [record_request] appends without looking at the ceilings, so more
    than 10 calls recorded inside the minute window (more than 1500 inside
    the day window) leave [get_stats] with a negative [minute_remaining]
    ([daily_remaining]): the fields are the limit minus the count, with no
    clamp at zero. *)
Theorem record_request_unchecked (now : Q) (rs : list (Q * write_result))
    (self : RateLimiter) (e : Env) :
  let recorded := fst (record_all rs self e) in
  let stats := snd (get_stats now recorded) in
  (minute_requests recorded = minute_requests self ++ map fst rs /\
   daily_requests recorded = daily_requests self ++ map fst rs) /\
  (minute_remaining stats = MAX_REQUESTS_PER_MINUTE - minute_used stats /\
   daily_remaining stats = MAX_REQUESTS_PER_DAY - daily_used stats)%Z /\
  ((forall t, In t (map fst rs) -> now - 60 < t) ->
   (MAX_REQUESTS_PER_MINUTE < len rs)%Z ->
   (len rs <= minute_used stats /\ minute_remaining stats < 0)%Z) /\
  ((forall t, In t (map fst rs) -> now - 86400 < t) ->
   (MAX_REQUESTS_PER_DAY < len rs)%Z ->
   (len rs <= daily_used stats /\ daily_remaining stats < 0)%Z).
Proof.
  intros recorded stats.
  destruct (record_all_sequences rs self e) as (Hm & Hd & _).
  fold recorded in Hm, Hd.
  split; [split; assumption|].
  split; [split; reflexivity|].
  split.
  - intros Hin Hlen.
    assert (Hu : minute_used stats =
                 (len (within 60 now (minute_requests self)) + len rs)%Z).
    { unfold stats, get_stats; simpl. rewrite Hm, within_app, len_app.
      rewrite (within_all _ _ _ Hin), len_map. reflexivity. }
    assert (Hr : minute_remaining stats
                 = (MAX_REQUESTS_PER_MINUTE - minute_used stats)%Z)
      by reflexivity.
    pose proof (len_nonneg (within 60 now (minute_requests self))).
    rewrite Hr, Hu. lia.
  - intros Hin Hlen.
    assert (Hu : daily_used stats =
                 (len (within 86400 now (daily_requests self)) + len rs)%Z).
    { unfold stats, get_stats; simpl. rewrite Hd, within_app, len_app.
      rewrite (within_all _ _ _ Hin), len_map. reflexivity. }
    assert (Hr : daily_remaining stats
                 = (MAX_REQUESTS_PER_DAY - daily_used stats)%Z)
      by reflexivity.
    pose proof (len_nonneg (within 86400 now (daily_requests self))).
    rewrite Hr, Hu. lia.
Qed.

Lemma record_request_unchecked_witness :
  ((forall t, In t (map fst eleven_records) -> 1011 - 60 < t) /\
   (MAX_REQUESTS_PER_MINUTE < len eleven_records)%Z /\
   (minute_remaining
      (snd (get_stats 1011
              (fst (record_all eleven_records (reset_state blank) empty_env))))
    < 0)%Z) /\
  ((forall t, In t (map fst day_overrun) -> 1001 - 86400 < t) /\
   (MAX_REQUESTS_PER_DAY < len day_overrun)%Z /\
   (daily_remaining
      (snd (get_stats 1001
              (fst (record_all day_overrun (reset_state blank) empty_env))))
    < 0)%Z).
Proof.
  split.
  - assert (Hin : forall t, In t (map fst eleven_records) -> 1011 - 60 < t).
    { intros t Ht. simpl in Ht.
      repeat (destruct Ht as [<- | Ht]; [reflexivity|]). destruct Ht. }
    assert (Hlen : (MAX_REQUESTS_PER_MINUTE < len eleven_records)%Z)
      by reflexivity.
    split; [exact Hin|]. split; [exact Hlen|].
    destruct (record_request_unchecked 1011 eleven_records
                (reset_state blank) empty_env) as (_ & _ & Hmin & _).
    exact (proj2 (Hmin Hin Hlen)).
  - assert (Hin : forall t, In t (map fst day_overrun) -> 1001 - 86400 < t).
    { intros t Ht. apply in_map_iff in Ht. destruct Ht as (x & <- & Hx).
      apply repeat_spec in Hx. subst x. reflexivity. }
    assert (Hlen : (MAX_REQUESTS_PER_DAY < len day_overrun)%Z)
      by (vm_compute; reflexivity).
    split; [exact Hin|]. split; [exact Hlen|].
    destruct (record_request_unchecked 1001 day_overrun
                (reset_state blank) empty_env) as (_ & _ & _ & Hday).
    exact (proj2 (Hday Hin Hlen)).
Defined.

(** ** The state file *)

Section Persistence.

Context {builtins : StrBuiltins}.

Lemma floats_map_PyNum (l : list Q) : floats (map PyNum l) = Some l.
Proof.
  induction l as [|q l IH]; simpl; [reflexivity|]. rewrite IH. reflexivity.
Qed.

Lemma read_state_state_json (self : RateLimiter) :
  read_state (state_json self) =
  Some (minute_requests self, daily_requests self, last_request_time self).
Proof.
  unfold read_state, state_json, dict_get, float_list; simpl.
  rewrite !floats_map_PyNum. reflexivity.
Qed.

(** A new limiter on a file that [save_state] wrote is the saved object
    without its burst history. *)
Lemma RateLimiter_init_saved (self : RateLimiter) :
  RateLimiter_init (Holds (state_json self)) =
  {| minute_requests := minute_requests self;
     daily_requests := daily_requests self;
     last_request_time := last_request_time self;
     request_timestamps := [] |}.
Proof.
  unfold RateLimiter_init, load_state. rewrite read_state_state_json.
  reflexivity.
Qed.

(** A file that cannot be used gives the reset object. *)
Lemma RateLimiter_init_unusable (f : FileState) :
  f = Absent \/ f = Unreadable \/ f = Garbled \/
  (exists state, f = Holds state /\ read_state state = None) ->
  RateLimiter_init f = reset_state blank.
Proof.
  intros [-> | [-> | [-> | (state & -> & H)]]]; try reflexivity.
  unfold RateLimiter_init, load_state. rewrite H. reflexivity.
Qed.

(** A file whose top-level value is not an object, or whose minute or
    daily entry is not a sequence of numbers, is such a file. *)
Lemma read_state_not_dict (state : pyval) :
  (forall items, state <> PyDict items) -> read_state state = None.
Proof.
  intro H. destruct state; try reflexivity. exfalso. apply (H items).
  reflexivity.
Qed.

End Persistence.

(** A failed write changes nothing in the object: it only prints. *)
Lemma record_request_write (t : Q) (w : write_result) (self : RateLimiter)
    (e : Env) :
  fst (record_request t w self e) = fst (record_request t Written self e) /\
  (w <> Written ->
   exists msg,
     stdout (snd (record_request t w self e)) =
     stdout e ++ [("Error saving rate limit state: " ++ msg)%string]).
Proof.
  split; [reflexivity|].
  intro Hw. destruct w as [|msg|msg]; [congruence| |]; exists msg; reflexivity.
Qed.

(** C9: the file written by a recording holds exactly [minute_requests],
    [daily_requests] and [last_request_time] of the object; a new limiter
    on that file starts with an empty burst history and the same two
    windows and last request time, so its [get_stats] reports what the
    original's does at every instant. *)
Theorem persistence_round_trip {builtins : StrBuiltins}
    (rs : list (Q * write_result)) (t now : Q) (self : RateLimiter)
    (e : Env) :
  let after := record_all (rs ++ [(t, Written)]) self e in
  let original := fst after in
  let fresh := RateLimiter_init (file (snd after)) in
  file (snd after) =
    Holds (PyDict
      [("minute_requests"%string, PyList (map PyNum (minute_requests original)));
       ("daily_requests"%string, PyList (map PyNum (daily_requests original)));
       ("last_request_time"%string, last_request_time original)]) /\
  request_timestamps fresh = [] /\
  minute_requests fresh = minute_requests original /\
  daily_requests fresh = daily_requests original /\
  last_request_time fresh = last_request_time original /\
  snd (get_stats now fresh) = snd (get_stats now original).
Proof.
  intros after original fresh.
  assert (Hfile : file (snd after) = Holds (state_json original)).
  { unfold original, after. rewrite record_all_app. reflexivity. }
  split; [exact Hfile|].
  unfold fresh. rewrite Hfile, RateLimiter_init_saved.
  repeat split; reflexivity.
Qed.

(** ** Storage failures *)

Section Failures.

Context {builtins : StrBuiltins}.

Lemma run_app (cs1 cs2 : list call) (p : Process) :
  run (cs1 ++ cs2) p =
  (fst (run cs2 (fst (run cs1 p))),
   snd (run cs1 p) ++ snd (run cs2 (fst (run cs1 p)))).
Proof.
  revert p. induction cs1 as [|c r IH]; intro p; simpl.
  - destruct (run cs2 p). reflexivity.
  - destruct (step c p) as [p1 a]. rewrite IH.
    destruct (run r p1) as [p2 rs]. reflexivity.
Qed.

Lemma step_forget_write (c : call) (p p' : Process) :
  in_process c = true ->
  limiter p = limiter p' ->
  limiter (fst (step c p)) = limiter (fst (step (forget_write c) p')) /\
  snd (step c p) = snd (step (forget_write c) p').
Proof.
  intros Hc Hl. destruct c as [now|now w|now|]; simpl in *;
    try discriminate; rewrite Hl; split; reflexivity.
Qed.

(** Within one process the objects and the answers do not depend on how
    the writes of [save_state] went. *)
Lemma run_forget_writes (cs : list call) (p p' : Process) :
  forallb in_process cs = true ->
  limiter p = limiter p' ->
  limiter (fst (run cs p)) = limiter (fst (run (map forget_write cs) p')) /\
  snd (run cs p) = snd (run (map forget_write cs) p').
Proof.
  revert p p'. induction cs as [|c r IH]; intros p p' Hcs Hl; simpl.
  - split; [exact Hl|reflexivity].
  - simpl in Hcs. apply andb_true_iff in Hcs. destruct Hcs as [Hc Hr].
    destruct (step_forget_write c p p' Hc Hl) as [H1 H2].
    destruct (step c p) as [p1 a]. destruct (step (forget_write c) p') as [p1' a'].
    simpl in H1, H2. destruct (IH p1 p1' Hr H1) as [H3 H4].
    destruct (run r p1) as [p2 rs].
    destruct (run (map forget_write r) p1') as [p2' rs'].
    simpl in *. split; [exact H3|]. rewrite H2, H4. reflexivity.
Qed.

(** C8, at the file [ill_typed_file]: [json.load] succeeds and no
    conversion fails, so the object is not reset: the string is kept as
    the last request time, and [can_make_request] raises [TypeError] at
    every instant; [get_stats] still answers. *)
Theorem load_state_keeps_ill_typed_last_request_time (now : Q) :
  let self := RateLimiter_init ill_typed_file in
  last_request_time self = PyStr "soon" /\
  self <> reset_state blank /\
  snd (can_make_request now self) = Raises TypeError /\
  snd (step (CanMakeRequest now) (start ill_typed_file))
    = Answer (Raises TypeError) /\
  minute_used (snd (get_stats now self)) = 0%Z.
Proof.
  intro self.
  split; [reflexivity|]. split; [intro H; discriminate H|].
  split; [reflexivity|]. split; reflexivity.
Qed.

End Failures.

(** ** The last request time and the stored timestamps *)

Lemma py_max_from_spec (l : list Q) (x : Q) :
  (py_max_from x l = x \/ In (py_max_from x l) l) /\
  x <= py_max_from x l /\
  (forall t, In t l -> t <= py_max_from x l).
Proof.
  unfold py_max_from. revert x.
  induction l as [|t l IH]; intro x; simpl.
  - split; [left; reflexivity|]. split; [apply Qle_refl|]. intros t [].
  - destruct (Qltb x t) eqn:E.
    + destruct (IH t) as (Hin & Hle & Hall). apply Qltb_lt in E.
      split; [right; destruct Hin as [->|Hin]; [left; reflexivity|right; exact Hin]|].
      split; [eapply Qle_trans; [apply Qlt_le_weak, E|exact Hle]|].
      intros u [<-|Hu]; [exact Hle|apply Hall, Hu].
    + destruct (IH x) as (Hin & Hle & Hall). apply Qltb_ge in E.
      split; [destruct Hin as [->|Hin]; [left; reflexivity|right; right; exact Hin]|].
      split; [exact Hle|].
      intros u [<-|Hu]; [eapply Qle_trans; [exact E|exact Hle]|apply Hall, Hu].
Qed.

(** [max(l)] is an element of [l] above all the others. *)
Lemma py_max_spec (l : list Q) :
  l <> [] ->
  exists m, py_max l = Some m /\ In m l /\ forall t, In t l -> t <= m.
Proof.
  destruct l as [|x r]; [congruence|]. intros _.
  exists (py_max_from x r). split; [reflexivity|].
  destruct (py_max_from_spec r x) as (Hin & Hle & Hall).
  split.
  - destruct Hin as [->|Hin]; [left; reflexivity|right; exact Hin].
  - intros t [<-|Ht]; [exact Hle|apply Hall, Ht].
Qed.

Lemma consistent_mono (T T' : Q) (self : RateLimiter) :
  T <= T' -> consistent T self -> consistent T' self.
Proof.
  intros HT (l & Hl & HlT & H). exists l. split; [exact Hl|].
  split; [eapply Qle_trans; eassumption|exact H].
Qed.

Lemma consistent_reset (T : Q) : 0 <= T -> consistent T (reset_state blank).
Proof.
  intro HT. exists 0. split; [reflexivity|]. split; [exact HT|].
  simpl. repeat split; try (intros u []). intro H. congruence.
Qed.

Lemma consistent_clean (T now : Q) (self : RateLimiter) :
  consistent T self -> consistent T (clean_old_requests now self).
Proof.
  intros (l & Hl & HlT & Hall & Hm & Hb & Hd). exists l.
  split; [exact Hl|]. split; [exact HlT|].
  unfold all_timestamps in *. simpl. repeat split.
  - intros u Hu. apply Hall. rewrite !in_app_iff in *.
    destruct Hu as [Hu|[Hu|Hu]]; apply within_In in Hu; tauto.
  - intros u Hu. apply within_In in Hu. destruct Hu as [Hu Hw].
    apply within_In. split; [apply Hm, Hu|]. lra.
  - intros u Hu. apply within_In in Hu. destruct Hu as [Hu Hw].
    apply within_In. split; [apply Hb, Hu|]. lra.
  - intro Hne.
    destruct (within 86400 now (daily_requests self)) as [|u r] eqn:E;
      [congruence|].
    assert (Hu : In u (within 86400 now (daily_requests self)))
      by (rewrite E; left; reflexivity).
    rewrite <- E. apply within_In in Hu. destruct Hu as [Hu Hw].
    apply within_In. split.
    + apply Hd. intro Hnil. rewrite Hnil in Hu. destruct Hu.
    + assert (u <= l) by (apply Hall; rewrite !in_app_iff; tauto). lra.
Qed.

Lemma consistent_record (T t : Q) (w : write_result) (self : RateLimiter)
    (e : Env) :
  T <= t -> consistent T self ->
  consistent t (fst (record_request t w self e)).
Proof.
  intros HT (l & Hl & HlT & Hall & Hm & Hb & Hd). exists t.
  split; [reflexivity|]. split; [apply Qle_refl|].
  unfold all_timestamps in *. simpl. repeat split.
  - intros u Hu. rewrite !in_app_iff in Hu. simpl in Hu.
    assert (Hlt : l <= t) by (eapply Qle_trans; eassumption).
    assert (Hold : In u (minute_requests self ++ daily_requests self ++
                         request_timestamps self) -> u <= t).
    { intro H. eapply Qle_trans; [apply Hall, H|exact Hlt]. }
    rewrite !in_app_iff in Hold.
    destruct Hu as [[Hu|[<-|[]]]|[[Hu|[<-|[]]]|[Hu|[<-|[]]]]];
      try apply Qle_refl; apply Hold; tauto.
  - intros u Hu. rewrite in_app_iff in *. simpl in *.
    destruct Hu as [Hu|Hu]; [left; apply Hm, Hu|right; exact Hu].
  - intros u Hu. rewrite in_app_iff in *. simpl in *.
    destruct Hu as [Hu|Hu]; [left; apply Hb, Hu|right; exact Hu].
  - intros _. apply in_app_iff. right. left. reflexivity.
Qed.

Lemma consistent_without_burst (T : Q) (self : RateLimiter) :
  consistent T self ->
  consistent T {| minute_requests := minute_requests self;
                  daily_requests := daily_requests self;
                  last_request_time := last_request_time self;
                  request_timestamps := [] |}.
Proof.
  intros (l & Hl & HlT & Hall & Hm & Hb & Hd). exists l.
  split; [exact Hl|]. split; [exact HlT|].
  unfold all_timestamps in *. simpl. repeat split.
  - intros u Hu. apply Hall. rewrite !in_app_iff in *. simpl in Hu. tauto.
  - exact Hm.
  - intros u [].
  - exact Hd.
Qed.

Section Invariant.

Context {builtins : StrBuiltins}.

Lemma good_start : good 0 (start Absent).
Proof.
  split; [apply Qle_refl|].
  split; apply consistent_reset, Qle_refl.
Qed.

Lemma good_step (T : Q) (c : call) (p : Process) :
  good T p ->
  match clock c with
  | Some t => T <= t -> good t (fst (step c p))
  | None => good T (fst (step c p))
  end.
Proof.
  intros (H0 & Hs & Hf).
  destruct c as [now|now w|now|]; simpl.
  - intro HT. assert (0 <= now) by (eapply Qle_trans; eassumption).
    split; [assumption|]. split; simpl.
    + apply consistent_clean, (consistent_mono T); assumption.
    + apply (consistent_mono T); assumption.
  - intro HT. assert (H0' : 0 <= now) by (eapply Qle_trans; eassumption).
    split; [assumption|]. split; simpl.
    + apply (consistent_record T now w (limiter p) (env p) HT Hs).
    + destruct w as [|msg|msg]; simpl.
      * rewrite RateLimiter_init_saved.
        apply (consistent_without_burst now
                 (fst (record_request now Written (limiter p) (env p)))).
        apply (consistent_record T); assumption.
      * apply (consistent_mono T); assumption.
      * apply consistent_reset. exact H0'.
  - intro HT. assert (0 <= now) by (eapply Qle_trans; eassumption).
    split; [assumption|]. split; simpl.
    + apply consistent_clean, (consistent_mono T); assumption.
    + apply (consistent_mono T); assumption.
  - split; [assumption|]. split; simpl; assumption.
Qed.

Lemma good_run (cs : list call) (T : Q) (p : Process) :
  good T p -> ordered T cs -> exists T', good T' (fst (run cs p)).
Proof.
  revert T p. induction cs as [|c r IH]; intros T p Hg Ho; simpl.
  - exists T. exact Hg.
  - pose proof (good_step T c p Hg) as Hstep. simpl in Ho.
    destruct (step c p) as [p1 a] eqn:Es. simpl in Hstep.
    destruct (clock c) as [t|].
    + destruct Ho as [HT Ho]. destruct (IH t p1 (Hstep HT) Ho) as [T' HT'].
      exists T'. destruct (run r p1). exact HT'.
    + destruct (IH T p1 Hstep Ho) as [T' HT'].
      exists T'. destruct (run r p1). exact HT'.
Qed.

(** In a consistent object that stores any timestamp, the last request
    time is the largest of them. *)
Lemma consistent_max (T : Q) (self : RateLimiter) :
  consistent T self ->
  all_timestamps self <> [] ->
  exists l m,
    last_request_time self = PyNum l /\
    py_max (all_timestamps self) = Some m /\ m == l.
Proof.
  intros (l & Hl & _ & Hall & Hm & Hb & Hd) Hne.
  destruct (py_max_spec _ Hne) as (m & Hmax & Hin & Hge).
  exists l, m. split; [exact Hl|]. split; [exact Hmax|].
  apply Qle_antisym; [apply Hall, Hin|].
  apply Hge. unfold all_timestamps in *.
  assert (Hdne : daily_requests self <> []).
  { intro Hnil. rewrite !in_app_iff in Hin.
    destruct Hin as [Hi|[Hi|Hi]].
    - apply Hm in Hi. rewrite Hnil in Hi. destruct Hi.
    - rewrite Hnil in Hi. destruct Hi.
    - apply Hb in Hi. rewrite Hnil in Hi. destruct Hi. }
  rewrite !in_app_iff. right. left. apply Hd, Hdne.
Qed.

(** C7: along any calls made with a clock that never runs backwards, from
    a first start without a state file, the last request time is the
    maximum of the union of the three sequences whenever they hold
    anything; right after a recording at [t] each of the three sequences
    holds [t], and the last request time and that maximum are [t]. *)
Theorem last_request_time_is_max (cs : list call) :
  ordered 0 cs ->
  let self := limiter (fst (run cs (start Absent))) in
  (all_timestamps self <> [] ->
   exists l m,
     last_request_time self = PyNum l /\
     py_max (all_timestamps self) = Some m /\ m == l) /\
  (forall cs' t w,
     cs = cs' ++ [RecordRequest t w] ->
     last_request_time self = PyNum t /\
     In t (minute_requests self) /\
     In t (daily_requests self) /\
     In t (request_timestamps self) /\
     exists m, py_max (all_timestamps self) = Some m /\ m == t).
Proof.
  intros Ho self.
  destruct (good_run cs 0 (start Absent) good_start Ho) as (T & _ & Hc & _).
  fold self in Hc.
  assert (Hmax := consistent_max T self Hc).
  split; [exact Hmax|].
  intros cs' t w E.
  assert (Hs : self =
    fst (record_request t w (limiter (fst (run cs' (start Absent))))
           (env (fst (run cs' (start Absent)))))).
  { unfold self. rewrite E, run_app. reflexivity. }
  assert (Hlast : last_request_time self = PyNum t)
    by (rewrite Hs; reflexivity).
  assert (Hi1 : In t (minute_requests self))
    by (rewrite Hs; simpl; apply in_app_iff; right; left; reflexivity).
  assert (Hi2 : In t (daily_requests self))
    by (rewrite Hs; simpl; apply in_app_iff; right; left; reflexivity).
  assert (Hi3 : In t (request_timestamps self))
    by (rewrite Hs; simpl; apply in_app_iff; right; left; reflexivity).
  repeat (split; [assumption|]).
  destruct Hmax as (l & m & Hl & Hm & Hml).
  { intro Hnil. unfold all_timestamps in Hnil.
    apply app_eq_nil in Hnil. destruct Hnil as [Hnil _].
    rewrite Hnil in Hi1. destruct Hi1. }
  exists m. split; [exact Hm|].
  rewrite Hlast in Hl. injection Hl as <-. exact Hml.
Qed.

End Invariant.

Lemma last_request_time_is_max_witness :
  ordered 0 session /\
  let self := limiter (fst (@run no_numeric_str session
                              (@start no_numeric_str Absent))) in
  last_request_time self = PyNum 1200 /\
  exists m, py_max (all_timestamps self) = Some m /\ m == 1200.
Proof.
  assert (Ho : ordered 0 session).
  { simpl. repeat split; vm_compute; discriminate. }
  split; [exact Ho|]. intro self.
  destruct (proj2 (@last_request_time_is_max no_numeric_str session Ho)
              [RecordRequest 1000 Written;
               CanMakeRequest 1003;
               RecordRequest 1010 (OpenFails "disk full");
               Relaunch;
               GetStats 1100]
              1200 (DumpFails "disk full") eq_refl)
    as (Hl & _ & _ & _ & Hm).
  split; [exact Hl | exact Hm].
Defined.

(** C7 as the specification words it, for every reachable state, does
    not hold: pruning leaves the last request time alone, so after a pause
    longer than the day window the three sequences are empty while the last
    request time is still that of the last recording; and when the clock is
    set back between two recordings the later recording is not the
    maximum. *)
Lemma last_request_time_not_always_max :
  ~ last_is_max
      (limiter (fst (@run no_numeric_str long_pause
                       (@start no_numeric_str Absent)))) /\
  ~ last_is_max
      (limiter (fst (@run no_numeric_str clock_set_back
                       (@start no_numeric_str Absent)))).
Proof.
  split; intros (l & m & Hl & Hm & Hml).
  - vm_compute in Hm. discriminate Hm.
  - vm_compute in Hl. injection Hl as <-.
    vm_compute in Hm. injection Hm as <-.
    vm_compute in Hml. discriminate Hml.
Qed.

(** * Further properties of the limiter *)

(** ** Bounds and decay of the backoff *)

Lemma calculate_backoff_time_backoff_of (now : Q) (self : RateLimiter) :
  calculate_backoff_time now self =
  backoff_of (len (within 60 now (request_timestamps self))).
Proof. apply calculate_backoff_time_cases. Qed.

Lemma backoff_of_bounds (r : Z) :
  (backoff_of r = 0 \/ 2 <= backoff_of r <= 60)%Z.
Proof.
  unfold backoff_of. destruct (3 <=? r)%Z eqn:E; [|left; reflexivity].
  apply Z.leb_le in E. right.
  assert (2 ^ 1 <= 2 ^ (r - 2))%Z by (apply Z.pow_le_mono_r; lia).
  change (2 ^ 1)%Z with 2%Z in *. lia.
Qed.

Lemma backoff_of_mono (r1 r2 : Z) :
  (r1 <= r2)%Z -> (backoff_of r1 <= backoff_of r2)%Z.
Proof.
  intro H. unfold backoff_of.
  destruct (3 <=? r1)%Z eqn:E1; destruct (3 <=? r2)%Z eqn:E2.
  - apply Z.leb_le in E1.
    assert (2 ^ (r1 - 2) <= 2 ^ (r2 - 2))%Z by (apply Z.pow_le_mono_r; lia).
    lia.
  - apply Z.leb_le in E1. apply Z.leb_gt in E2. lia.
  - apply Z.leb_le in E2.
    assert (0 <= 2 ^ (r2 - 2))%Z by (apply Z.pow_nonneg; lia). lia.
  - lia.
Qed.

(** The range of the backoff and of the cooldown. *)
Lemma cooldown_range (now : Q) (self : RateLimiter) :
  let backoff := calculate_backoff_time now self in
  let cooldown := REQUEST_COOLDOWN + inject_Z backoff in
  (backoff = 0 \/ 2 <= backoff <= 60)%Z /\
  6 <= cooldown /\ cooldown <= 66.
Proof.
  intros backoff cooldown.
  assert (Hb : (backoff = 0 \/ 2 <= backoff <= 60)%Z).
  { unfold backoff. rewrite calculate_backoff_time_backoff_of.
    apply backoff_of_bounds. }
  split; [exact Hb|].
  assert (H0 : (0 <= backoff <= 60)%Z) by lia.
  destruct H0 as [Hlo Hhi].
  rewrite Zle_Qle in Hlo. rewrite Zle_Qle in Hhi.
  unfold cooldown, REQUEST_COOLDOWN.
  change (inject_Z 0) with 0 in Hlo. change (inject_Z 60) with 60 in Hhi.
  split; lra.
Qed.

(** X1: the backoff is 0 or between 2 and 60 seconds, so a cooldown is
    never shorter than 6 nor longer than 66 seconds. *)
Theorem calculate_backoff_time_bounds (now : Q) (self : RateLimiter) :
  let backoff := calculate_backoff_time now self in
  let cooldown := REQUEST_COOLDOWN + inject_Z backoff in
  (backoff = 0 \/ 2 <= backoff <= 60)%Z /\
  6 <= cooldown /\ cooldown <= 66.
Proof. apply cooldown_range. Qed.

Lemma within_later_length (w now later : Q) (l : list Q) :
  now <= later ->
  (len (within w later l) <= len (within w now l))%Z.
Proof.
  intro H. rewrite <- (within_within w w now later l) by lra.
  apply within_length.
Qed.

(** The backoff of the pruned object only decays while nothing is
    recorded. *)
Lemma calculate_backoff_time_decays (now later : Q) (self : RateLimiter) :
  now <= later ->
  (calculate_backoff_time later (clean_old_requests later self)
   <= calculate_backoff_time now (clean_old_requests now self))%Z.
Proof.
  intro H. rewrite !calculate_backoff_time_backoff_of. simpl.
  apply backoff_of_mono.
  rewrite (within_within 300 60 later later) by lra.
  rewrite (within_within 300 60 now now) by lra.
  apply within_later_length, H.
Qed.

(** ** The waits that the denials announce *)

Lemma filter_length_lt {A : Type} (f : A -> bool) (x : A) (l : list A) :
  In x l -> f x = false -> (List.length (filter f l) < List.length l)%nat.
Proof.
  induction l as [|a l IH]; simpl; [tauto|].
  intros [->|Hin] Hf.
  - rewrite Hf. pose proof (filter_length_le f l). lia.
  - specialize (IH Hin Hf). destruct (f a); simpl; lia.
Qed.

(** X2: a minute denial on a window that is exactly full, with the clock
    read at [t_clean] for the pruning and at [current_time] for the wait
    (app.py lines 70 and 84): the wait [60 - (current_time - min)] that the
    message is computed from exceeds [t_clean - current_time], so it is
    positive when the clock has not advanced between the two readings and
    can be negative otherwise; it is at most 60 seconds unless a stored
    timestamp lies in the future; and a call that prunes at any instant from
    [current_time + wait] on finds fewer than 10 timestamps and does not
    take the minute-limit branch. *)
Theorem minute_wait_frees_a_slot
    (t_clean current_time t_backoff oldest : Q) (self : RateLimiter) :
  let pruned := clean_old_requests t_clean self in
  let wait_time := 60 - (current_time - oldest) in
  len (minute_requests pruned) = MAX_REQUESTS_PER_MINUTE ->
  py_min (minute_requests pruned) = Some oldest ->
  can_make_request_at t_clean current_time t_backoff self =
    (pruned, Returns (false, Some (minute_message wait_time))) /\
  t_clean - current_time < wait_time /\
  (current_time <= t_clean -> 0 < wait_time) /\
  (oldest <= current_time -> wait_time <= 60) /\
  (forall t_clean' current_time' t_backoff',
     current_time + wait_time <= t_clean' ->
     let pruned' := clean_old_requests t_clean' self in
     (len (minute_requests pruned') < MAX_REQUESTS_PER_MINUTE)%Z /\
     can_make_request_at t_clean' current_time' t_backoff' self =
       (pruned',
        if (MAX_REQUESTS_PER_DAY <=? len (daily_requests pruned'))%Z
        then Returns (false, Some daily_message)
        else cooldown_check current_time' t_backoff' pruned')).
Proof.
  intros pruned wait_time Hlen Hmin.
  destruct (py_min_spec _ _ Hmin) as [Hin _].
  assert (Hw : t_clean - 60 < oldest).
  { unfold pruned in Hin; simpl in Hin. apply within_In in Hin. tauto. }
  unfold wait_time.
  split; [|split; [lra|split; [intro; lra|split; [intro; lra|]]]].
  - unfold can_make_request_at. fold pruned.
    rewrite Hlen, Hmin. reflexivity.
  - intros t' c' b' Hlater.
    set (pruned' := clean_old_requests t' self).
    assert (Hlt : (len (minute_requests pruned')
                   < MAX_REQUESTS_PER_MINUTE)%Z).
    { rewrite <- Hlen. unfold pruned', pruned. simpl.
      rewrite <- (within_within 60 60 t_clean t') by lra.
      unfold len. apply inj_lt. unfold within at 1.
      apply (filter_length_lt _ oldest); [exact Hin|].
      apply Qltb_ge. lra. }
    split; [exact Hlt|].
    unfold can_make_request_at. fold pruned'.
    apply Z.leb_gt in Hlt. rewrite Hlt. reflexivity.
Qed.

(** X3: a call denied for the cooldown is allowed at any instant from the
    announced wait on, as long as nothing is recorded in between. *)
Theorem cooldown_wait_suffices (now later last : Q) (self : RateLimiter) :
  let pruned := clean_old_requests now self in
  let cooldown :=
    REQUEST_COOLDOWN + inject_Z (calculate_backoff_time now pruned) in
  let elapsed := now - last in
  (len (minute_requests pruned) < MAX_REQUESTS_PER_MINUTE)%Z ->
  (len (daily_requests pruned) < MAX_REQUESTS_PER_DAY)%Z ->
  py_number (last_request_time self) = Some last ->
  elapsed < cooldown ->
  now + (cooldown - elapsed) <= later ->
  can_make_request later self =
    (clean_old_requests later self, Returns (true, None)).
Proof.
  intros pruned cooldown elapsed Hm Hd Hl Hden Hlater.
  assert (Hnl : now <= later) by lra.
  pose proof (within_later_length 60 now later (minute_requests self) Hnl).
  pose proof (within_later_length 86400 now later (daily_requests self) Hnl).
  pose proof (calculate_backoff_time_decays now later self Hnl) as Hb.
  rewrite Zle_Qle in Hb.
  unfold can_make_request, can_make_request_at.
  set (pruned' := clean_old_requests later self) in *.
  assert (Em : (MAX_REQUESTS_PER_MINUTE <=? len (minute_requests pruned'))%Z
               = false).
  { apply Z.leb_gt. unfold pruned'; simpl. simpl in Hm. lia. }
  assert (Ed : (MAX_REQUESTS_PER_DAY <=? len (daily_requests pruned'))%Z
               = false).
  { apply Z.leb_gt. unfold pruned'; simpl. simpl in Hd. lia. }
  rewrite Em, Ed. unfold cooldown_check.
  replace (last_request_time pruned') with (last_request_time self)
    by reflexivity.
  rewrite Hl. destruct (Qltb 0 last); [|reflexivity].
  cbv zeta.
  assert (E : Qltb (later - last)
                (REQUEST_COOLDOWN
                 + inject_Z (calculate_backoff_time later pruned')) = false).
  { apply Qltb_ge. unfold cooldown, elapsed in *. fold pruned in Hb. lra. }
  rewrite E. reflexivity.
Qed.

(** X4: the value handed to the sidebar's progress bar lies between 0 and 1
    for every object, also when more calls were recorded than the
    limit. *)
Theorem sidebar_progress_in_range (now : Q) (self : RateLimiter) :
  let stats := snd (get_stats now self) in
  0 <= sidebar_progress stats /\ sidebar_progress stats <= 1.
Proof.
  intro stats. unfold sidebar_progress.
  set (m := Z.min (minute_used stats) (minute_limit stats)).
  assert (Hm : (0 <= m <= 10)%Z).
  { unfold m, stats; simpl. unfold MAX_REQUESTS_PER_MINUTE.
    pose proof (len_nonneg (within 60 now (minute_requests self))). lia. }
  destruct Hm as [Hlo Hhi]. rewrite Zle_Qle in Hlo. rewrite Zle_Qle in Hhi.
  change (inject_Z (minute_limit stats)) with 10.
  change (inject_Z 0) with 0 in Hlo. change (inject_Z 10) with 10 in Hhi.
  split.
  - apply Qle_shift_div_l; [reflexivity|lra].
  - apply Qle_shift_div_r; [reflexivity|lra].
Qed.

(** ** Order and coherence of the sequences *)

Lemma FOP_filter {A : Type} (R : A -> A -> Prop) (f : A -> bool)
    (l : list A) :
  ForallOrdPairs R l -> ForallOrdPairs R (filter f l).
Proof.
  induction 1 as [|a l Ha Hl IH]; simpl; [constructor|].
  destruct (f a); [|exact IH].
  constructor; [|exact IH].
  apply Forall_forall. intros x Hx. apply filter_In in Hx.
  rewrite Forall_forall in Ha. apply Ha. tauto.
Qed.

Lemma FOP_snoc {A : Type} (R : A -> A -> Prop) (l : list A) (x : A) :
  ForallOrdPairs R l -> (forall a, In a l -> R a x) ->
  ForallOrdPairs R (l ++ [x]).
Proof.
  induction 1 as [|a l Ha Hl IH]; simpl; intro Hx.
  - constructor; constructor.
  - constructor.
    + apply Forall_app. split; [exact Ha|].
      constructor; [apply Hx; left; reflexivity|constructor].
    + apply IH. intros b Hb. apply Hx. right. exact Hb.
Qed.

Lemma within_comm (w1 w2 t1 t2 : Q) (l : list Q) :
  within w1 t1 (within w2 t2 l) = within w2 t2 (within w1 t1 l).
Proof.
  unfold within. induction l as [|a l IH]; simpl; [reflexivity|].
  destruct (Qltb (t2 - w2) a) eqn:E2; destruct (Qltb (t1 - w1) a) eqn:E1;
    simpl; rewrite ?E1, ?E2, IH; reflexivity.
Qed.

Lemma tidy_mono (T T' : Q) (self : RateLimiter) :
  T <= T' -> tidy T self -> tidy T' self.
Proof.
  intros HT (Hm & Hd & Hb & Hle & tau & Htau & Heq).
  repeat split; try assumption.
  - intros u Hu. eapply Qle_trans; [apply Hle, Hu|exact HT].
  - exists tau. split; [eapply Qle_trans; eassumption|exact Heq].
Qed.

Lemma tidy_reset (T : Q) : tidy T (reset_state blank).
Proof.
  repeat split; try constructor.
  - intros u [].
  - exists T. split; [apply Qle_refl|reflexivity].
Qed.

Lemma tidy_clean (T now : Q) (self : RateLimiter) :
  T <= now -> tidy T self -> tidy now (clean_old_requests now self).
Proof.
  intros HT (Hm & Hd & Hb & Hle & tau & Htau & Heq).
  unfold tidy, sorted, all_timestamps in *. simpl.
  split; [apply FOP_filter, Hm|]. split; [apply FOP_filter, Hd|].
  split; [apply FOP_filter, Hb|]. split.
  - intros u Hu. eapply Qle_trans; [apply Hle|exact HT].
    rewrite !in_app_iff in *.
    destruct Hu as [Hu|[Hu|Hu]]; apply within_In in Hu; tauto.
  - exists now. split; [apply Qle_refl|].
    rewrite Heq.
    rewrite (within_within 60 60 tau now) by lra.
    rewrite (within_within 86400 60 now now) by lra.
    reflexivity.
Qed.

Lemma tidy_record (T t : Q) (w : write_result) (self : RateLimiter)
    (e : Env) :
  T <= t -> tidy T self -> tidy t (fst (record_request t w self e)).
Proof.
  intros HT (Hm & Hd & Hb & Hle & tau & Htau & Heq).
  unfold tidy, sorted, all_timestamps in *. simpl.
  assert (Hall : forall u,
            In u (minute_requests self) \/ In u (daily_requests self) \/
            In u (request_timestamps self) -> u <= t).
  { intros u Hu. eapply Qle_trans; [apply Hle|exact HT].
    rewrite !in_app_iff. exact Hu. }
  split; [apply FOP_snoc; [exact Hm|intros a Ha; apply Hall; tauto]|].
  split; [apply FOP_snoc; [exact Hd|intros a Ha; apply Hall; tauto]|].
  split; [apply FOP_snoc; [exact Hb|intros a Ha; apply Hall; tauto]|].
  split.
  - intros u Hu. rewrite !in_app_iff in Hu. simpl in Hu.
    destruct Hu as [[Hu|[<-|[]]]|[[Hu|[<-|[]]]|[Hu|[<-|[]]]]];
      try apply Qle_refl; apply Hall; tauto.
  - exists tau. split; [eapply Qle_trans; eassumption|].
    rewrite within_app, <- Heq. f_equal.
    unfold within; simpl.
    assert (E : Qltb (tau - 60) t = true) by (apply Qltb_lt; lra).
    rewrite E. reflexivity.
Qed.

Lemma tidy_without_burst (T : Q) (self : RateLimiter) :
  tidy T self ->
  tidy T {| minute_requests := minute_requests self;
            daily_requests := daily_requests self;
            last_request_time := last_request_time self;
            request_timestamps := [] |}.
Proof.
  intros (Hm & Hd & Hb & Hle & Htau).
  unfold tidy, all_timestamps in *. simpl.
  repeat split; try assumption; [constructor|].
  intros u Hu. apply Hle. rewrite !in_app_iff in *. simpl in Hu. tauto.
Qed.

Section Order.

Context {builtins : StrBuiltins}.

Lemma tidy_process_write (T t : Q) (w : write_result) (p : Process) :
  T <= t -> tidy_process T p ->
  tidy_process t
    {| limiter := fst (record_request t w (limiter p) (env p));
       env := snd (record_request t w (limiter p) (env p)) |}.
Proof.
  intros HT [Hs Hf]. split.
  - exact (tidy_record T t w (limiter p) (env p) HT Hs).
  - destruct w as [|msg|msg]; simpl.
    + rewrite RateLimiter_init_saved.
      apply (tidy_without_burst t
               (fst (record_request t Written (limiter p) (env p)))).
      exact (tidy_record T t Written (limiter p) (env p) HT Hs).
    + apply (tidy_mono T); assumption.
    + apply tidy_reset.
Qed.

Lemma tidy_step (T : Q) (c : call) (p : Process) :
  tidy_process T p ->
  match clock c with
  | Some t => T <= t -> tidy_process t (fst (step c p))
  | None => tidy_process T (fst (step c p))
  end.
Proof.
  intros [Hs Hf].
  destruct c as [now|now w|now|]; simpl.
  - intro HT. split; simpl.
    + apply (tidy_clean T); assumption.
    + apply (tidy_mono T); assumption.
  - intro HT. apply (tidy_process_write T now w p HT). split; assumption.
  - intro HT. split; simpl.
    + apply (tidy_clean T); assumption.
    + apply (tidy_mono T); assumption.
  - split; simpl; assumption.
Qed.

Lemma tidy_run (cs : list call) (T : Q) (p : Process) :
  tidy_process T p -> ordered T cs ->
  exists T', tidy_process T' (fst (run cs p)).
Proof.
  revert T p. induction cs as [|c r IH]; intros T p Hg Ho; simpl.
  - exists T. exact Hg.
  - pose proof (tidy_step T c p Hg) as Hstep. simpl in Ho.
    destruct (step c p) as [p1 a] eqn:Es. simpl in Hstep.
    destruct (clock c) as [t|].
    + destruct Ho as [HT Ho]. destruct (IH t p1 (Hstep HT) Ho) as [T' HT'].
      exists T'. destruct (run r p1). exact HT'.
    + destruct (IH T p1 Hstep Ho) as [T' HT'].
      exists T'. destruct (run r p1). exact HT'.
Qed.

(** X5: with a clock that never runs backwards, the three sequences stay
    in time order through recordings, prunings, failed writes and
    restarts. *)
Theorem sequences_stay_sorted (cs : list call) :
  ordered 0 cs ->
  let self := limiter (fst (run cs (start Absent))) in
  sorted (minute_requests self) /\
  sorted (daily_requests self) /\
  sorted (request_timestamps self).
Proof.
  intros Ho self.
  destruct (tidy_run cs 0 (start Absent)) as (T & (Hm & Hd & Hb & _) & _).
  - split; apply tidy_reset.
  - exact Ho.
  - repeat split; assumption.
Qed.

(** X6: with such a clock the statistics are coherent at every instant:
    the calls counted for the minute are among those counted for the day, so
    [minute_used] never exceeds [daily_used]. *)
Theorem minute_used_le_daily_used (cs : list call) (now : Q) :
  ordered 0 cs ->
  let stats := snd (get_stats now (limiter (fst (run cs (start Absent))))) in
  (minute_used stats <= daily_used stats)%Z.
Proof.
  intros Ho stats.
  destruct (tidy_run cs 0 (start Absent)) as
    (T & (_ & _ & _ & _ & tau & _ & Heq) & _).
  - split; apply tidy_reset.
  - exact Ho.
  - unfold stats, get_stats; simpl. rewrite Heq.
    rewrite within_comm.
    rewrite <- (within_within 86400 60 now now
                  (daily_requests (limiter (fst (run cs (start Absent))))))
      by lra.
    etransitivity; [apply within_length|apply within_length].
Qed.

End Order.

(** ** The application's use of the limiter *)

(** What an allowing answer says about the pruned object. *)
Lemma can_make_request_allowed (t : Q) (self : RateLimiter)
    (m : option string) :
  snd (can_make_request t self) = Returns (true, m) ->
  let pruned := clean_old_requests t self in
  (len (minute_requests pruned) < MAX_REQUESTS_PER_MINUTE)%Z /\
  (len (daily_requests pruned) < MAX_REQUESTS_PER_DAY)%Z /\
  exists last,
    py_number (last_request_time self) = Some last /\
    (0 < last ->
     REQUEST_COOLDOWN + inject_Z (calculate_backoff_time t pruned)
       <= t - last).
Proof.
  intros H pruned. unfold can_make_request, can_make_request_at in H.
  fold pruned in H. unfold snd in H.
  destruct (MAX_REQUESTS_PER_MINUTE <=? len (minute_requests pruned))%Z eqn:Em.
  { destruct (py_min (minute_requests pruned)); discriminate. }
  destruct (MAX_REQUESTS_PER_DAY <=? len (daily_requests pruned))%Z eqn:Ed;
    [discriminate|].
  apply Z.leb_gt in Em. apply Z.leb_gt in Ed.
  split; [exact Em|]. split; [exact Ed|].
  unfold cooldown_check in H.
  replace (last_request_time pruned) with (last_request_time self) in H
    by reflexivity.
  destruct (py_number (last_request_time self)) as [last|]; [|discriminate].
  exists last. split; [reflexivity|]. intro Hpos.
  apply Qltb_lt in Hpos. rewrite Hpos in H. cbv zeta in H.
  destruct (Qltb (t - last) _) eqn:E; [discriminate|].
  apply Qltb_ge in E. exact E.
Qed.

Section Handler.

Context {builtins : StrBuiltins} {text : TextBuiltins}.

(** The three things [on_prompt] can do to the process: nothing, prune, or
    prune and record after an allowing answer. *)
Lemma on_prompt_cases (prompt : string) (t_check t_record : Q)
    (w : write_result) (p : Process) :
  let pruned := clean_old_requests t_check (limiter p) in
  fst (on_prompt prompt t_check t_record w p) = p \/
  fst (on_prompt prompt t_check t_record w p)
    = {| limiter := pruned; env := env p |} \/
  ((exists m, snd (can_make_request t_check (limiter p)) = Returns (true, m)) /\
   fst (on_prompt prompt t_check t_record w p)
     = {| limiter := fst (record_request t_record w pruned (env p));
          env := snd (record_request t_record w pruned (env p)) |}).
Proof.
  intro pruned. unfold on_prompt.
  destruct (generate_response prompt); [left; reflexivity|].
  destruct (can_make_request t_check (limiter p)) as [self a] eqn:E.
  assert (Hs : self = pruned).
  { change self with (fst (self, a)). rewrite <- E. reflexivity. }
  assert (Ha : snd (can_make_request t_check (limiter p)) = a)
    by (rewrite E; reflexivity).
  subst self.
  destruct a as [[[|] [msg|]]|e]; try (right; left; reflexivity);
    right; right; (split; [eexists; reflexivity|reflexivity]).
Qed.

(** X7: the prompt handler records exactly when the prompt is no small
    talk and [can_make_request] answers True: then, and only then, the
    outcome is that the agent is asked, and the process is the pruned one
    after [record_request] at [t_record]; small talk leaves the process
    untouched; a refusal shows the reason and only prunes; in every case
    but the recording no timestamp is added and the file and the output are
    as before. *)
Theorem on_prompt_records_only_when_allowed (prompt : string)
    (t_check t_record : Q) (w : write_result) (p : Process) :
  let next := fst (on_prompt prompt t_check t_record w p) in
  let outcome := snd (on_prompt prompt t_check t_record w p) in
  let pruned := clean_old_requests t_check (limiter p) in
  (forall reply, outcome = SmallTalk reply -> next = p) /\
  (forall shown,
     outcome = Refused shown ->
     limiter next = pruned /\ env next = env p) /\
  (outcome = Asked ->
   (exists m, snd (can_make_request t_check (limiter p)) = Returns (true, m)) /\
   last_request_time (limiter next) = PyNum t_record /\
   daily_requests (limiter next) =
     within 86400 t_check (daily_requests (limiter p)) ++ [t_record]) /\
  (outcome = Asked <->
   generate_response prompt = None /\
   exists m, snd (can_make_request t_check (limiter p)) = Returns (true, m)) /\
  (generate_response prompt = None ->
   (exists m, snd (can_make_request t_check (limiter p)) = Returns (true, m)) ->
   limiter next = fst (record_request t_record w pruned (env p)) /\
   env next = snd (record_request t_record w pruned (env p)) /\
   minute_requests (limiter next) = minute_requests pruned ++ [t_record] /\
   daily_requests (limiter next) = daily_requests pruned ++ [t_record] /\
   request_timestamps (limiter next)
     = request_timestamps pruned ++ [t_record] /\
   last_request_time (limiter next) = PyNum t_record) /\
  (forall reply, outcome = SmallTalk reply <->
                 generate_response prompt = Some reply) /\
  (forall msg_status,
     generate_response prompt = None ->
     snd (can_make_request t_check (limiter p))
       = Returns (false, Some msg_status) ->
     outcome = Refused ("⚠️ " ++ msg_status)%string) /\
  (outcome <> Asked ->
   env next = env p /\ (limiter next = limiter p \/ limiter next = pruned)).
Proof.
  intros next outcome pruned. unfold next, outcome, on_prompt.
  destruct (generate_response prompt) as [reply0|].
  { cbn [fst snd].
    split; [intros; reflexivity|].
    split; [intros shown H; discriminate H|].
    split; [intro H; discriminate H|].
    split; [split; [intro H; discriminate H|intros [H _]; discriminate H]|].
    split; [intro H; discriminate H|].
    split; [intro reply; split; intro H; injection H as <-; reflexivity|].
    split; [intros ms H; discriminate H|].
    intros _. split; [reflexivity|left; reflexivity]. }
  destruct (can_make_request t_check (limiter p)) as [self a] eqn:E.
  assert (Hs : self = pruned).
  { change self with (fst (self, a)). rewrite <- E. reflexivity. }
  subst self.
  destruct a as [[[|] [msg|]]|e]; cbn [fst snd limiter env].
  all: split; [intros reply H; discriminate H|].
  all: split; [intros shown H;
               first [discriminate H|split; reflexivity]|].
  all: split; [intro H;
               first [discriminate H
                     |split; [eexists; reflexivity|split; reflexivity]]|].
  all: split; [split;
               [intro H;
                first [discriminate H
                      |split; [reflexivity|eexists; reflexivity]]
               |intros [_ [m Hm]];
                first [discriminate Hm|reflexivity]]|].
  all: split; [intros _ [m Hm];
               first [discriminate Hm|repeat split; reflexivity]|].
  all: split; [intro reply; split; intro H; discriminate H|].
  all: split; [intros ms _ Hms;
               first [discriminate Hms
                     |injection Hms as <-; reflexivity]|].
  all: intro Hne;
    first [exfalso; apply Hne; reflexivity
          |split; [reflexivity|right; reflexivity]].
Qed.

Lemma within_limits_clean (t : Q) (self : RateLimiter) :
  within_limits self -> within_limits (clean_old_requests t self).
Proof.
  intros [Hm Hd]. split; simpl.
  - pose proof (within_length 60 t (minute_requests self)). lia.
  - pose proof (within_length 86400 t (daily_requests self)). lia.
Qed.

Lemma within_limits_app_step (ev : event) (p : Process) :
  within_limits (limiter p) ->
  within_limits (RateLimiter_init (file (env p))) ->
  within_limits (limiter (app_step ev p)) /\
  within_limits (RateLimiter_init (file (env (app_step ev p)))).
Proof.
  intros Hs Hf. destruct ev as [t|t prompt tc tr w|]; simpl.
  - split; [apply within_limits_clean, Hs|exact Hf].
  - set (q := {| limiter := clean_old_requests t (limiter p); env := env p |}).
    assert (Hq : within_limits (limiter q)) by apply within_limits_clean, Hs.
    destruct (on_prompt_cases prompt tc tr w q) as [E|[E|[[m Hm] E]]];
      rewrite E.
    + split; [exact Hq|exact Hf].
    + split; [apply within_limits_clean, Hq|exact Hf].
    + apply can_make_request_allowed in Hm. destruct Hm as (H1 & H2 & _).
      assert (Hrec : within_limits
                (fst (record_request tr w
                        (clean_old_requests tc (limiter q)) (env q)))).
      { split; simpl; rewrite len_app; unfold len at 2; simpl;
          simpl in H1, H2; lia. }
      split; [exact Hrec|].
      destruct w as [|msg|msg]; simpl.
      * rewrite RateLimiter_init_saved. exact Hrec.
      * exact Hf.
      * split; unfold len; simpl;
          unfold MAX_REQUESTS_PER_MINUTE, MAX_REQUESTS_PER_DAY; lia.
  - split; [exact Hf|exact Hf].
Qed.

(** X8: as the application uses the limiter (it records only after an
    allowing answer), from a first start without a state file, neither
    sequence ever holds more than its ceiling, so [get_stats] never reports a
    negative remaining count, whatever the clock does and however the writes
    go. *)
Theorem app_stays_within_limits (evs : list event) (now : Q) :
  let self := limiter (app_run evs (start Absent)) in
  let stats := snd (get_stats now self) in
  within_limits self /\
  (0 <= minute_remaining stats)%Z /\
  (0 <= daily_remaining stats)%Z.
Proof.
  intros self stats.
  assert (H : within_limits self /\
              within_limits
                (RateLimiter_init (file (env (app_run evs (start Absent)))))).
  { unfold self, app_run.
    assert (H0 : within_limits (limiter (start Absent)) /\
                 within_limits
                   (RateLimiter_init (file (env (start Absent))))).
    { split; split; unfold len; simpl;
        unfold MAX_REQUESTS_PER_MINUTE, MAX_REQUESTS_PER_DAY; lia. }
    revert H0. generalize (start Absent).
    induction evs as [|ev r IH]; intros p [Hs Hf]; simpl.
    - split; assumption.
    - apply IH. apply within_limits_app_step; assumption. }
  destruct H as [Hw _]. split; [exact Hw|].
  destruct (within_limits_clean now self Hw) as [Hm Hd].
  split.
  - change (0 <= MAX_REQUESTS_PER_MINUTE
                 - len (minute_requests (clean_old_requests now self)))%Z.
    lia.
  - change (0 <= MAX_REQUESTS_PER_DAY
                 - len (daily_requests (clean_old_requests now self)))%Z.
    lia.
Qed.

End Handler.

(** ** The spacing of the calls the application records *)

Lemma last_cons {A : Type} (a d : A) (l : list A) :
  last (a :: l) d = last l a.
Proof.
  revert a d. induction l as [|b l IH]; intros a d; [reflexivity|].
  change (last (a :: b :: l) d) with (last (b :: l) d).
  rewrite (IH b d), (IH b a). reflexivity.
Qed.

Lemma nondecreasing_app (T : Q) (l1 l2 : list Q) :
  nondecreasing T (l1 ++ l2) <->
  nondecreasing T l1 /\ nondecreasing (last l1 T) l2.
Proof.
  revert T. induction l1 as [|a l IH]; intro T.
  - simpl. tauto.
  - change (nondecreasing T ((a :: l) ++ l2))
      with (T <= a /\ nondecreasing a (l ++ l2)).
    change (nondecreasing T (a :: l)) with (T <= a /\ nondecreasing a l).
    rewrite IH.
    rewrite last_cons. tauto.
Qed.

Lemma nondecreasing_last (T : Q) (l : list Q) :
  nondecreasing T l -> T <= last l T.
Proof.
  revert T. induction l as [|a l IH]; intros T H.
  - apply Qle_refl.
  - destruct H as [Ha Hl].
    rewrite last_cons. eapply Qle_trans; [exact Ha|apply IH, Hl].
Qed.

Lemma len_cons {A : Type} (a : A) (l : list A) :
  len (a :: l) = (len l + 1)%Z.
Proof.
  unfold len. change (List.length (a :: l)) with (S (List.length l)). lia.
Qed.

(** A sequence whose entries are 6 apart spans 6 seconds per entry after
    the first. *)
Lemma spaced_span (a hi : Q) (l : list Q) :
  spaced REQUEST_COOLDOWN (a :: l) ->
  (forall u, In u (a :: l) -> u <= hi) ->
  a + 6 * inject_Z (len l) <= hi.
Proof.
  unfold spaced, REQUEST_COOLDOWN. revert a.
  induction l as [|b r IH]; intros a Hs Hhi.
  - assert (a <= hi) by (apply Hhi; left; reflexivity).
    change (inject_Z (len [])) with 0. lra.
  - inversion Hs as [|? ? Ha Hl]; subst.
    inversion Ha as [|? ? Hab _]; subst.
    assert (Hb : b + 6 * inject_Z (len r) <= hi).
    { apply IH; [exact Hl|]. intros u Hu. apply Hhi. right. exact Hu. }
    rewrite len_cons, inject_Z_plus. change (inject_Z 1) with 1. lra.
Qed.

Lemma paced_mono (T T' : Q) (self : RateLimiter) :
  T <= T' -> paced T self -> paced T' self.
Proof.
  intros HT (Hc & H). split; [apply (consistent_mono T); assumption|exact H].
Qed.

Lemma paced_reset (T : Q) : 0 <= T -> paced T (reset_state blank).
Proof.
  intro HT. split; [apply consistent_reset, HT|].
  repeat split; try constructor. intros u [].
Qed.

Lemma paced_clean (T now : Q) (self : RateLimiter) :
  paced T self -> paced T (clean_old_requests now self).
Proof.
  intros (Hc & Hm & Hd & Hb & Hpos).
  split; [apply consistent_clean, Hc|].
  unfold spaced in *. simpl.
  split; [apply FOP_filter, Hm|]. split; [apply FOP_filter, Hd|].
  split; [apply FOP_filter, Hb|].
  intros u Hu. apply within_In in Hu. apply Hpos. tauto.
Qed.

Lemma paced_without_burst (T : Q) (self : RateLimiter) :
  paced T self ->
  paced T {| minute_requests := minute_requests self;
             daily_requests := daily_requests self;
             last_request_time := last_request_time self;
             request_timestamps := [] |}.
Proof.
  intros (Hc & Hm & Hd & Hb & Hpos).
  split; [apply consistent_without_burst, Hc|].
  simpl. repeat split; try assumption. constructor.
Qed.

(** Recording at [t], at least the cooldown after the last request time,
    keeps the pace. *)
Lemma paced_record (T t : Q) (w : write_result) (self : RateLimiter)
    (e : Env) :
  T <= t -> 0 < t ->
  (forall l, last_request_time self = PyNum l -> 0 < l ->
             l + REQUEST_COOLDOWN <= t) ->
  paced T self ->
  paced t (fst (record_request t w self e)).
Proof.
  intros HT Ht Hgap (Hc & Hm & Hd & Hb & Hpos).
  split; [apply (consistent_record T t w self e HT Hc)|].
  destruct Hc as (l & Hl & HlT & Hall & Hmd & Hbd & Hin).
  assert (Hfar : forall u, In u (daily_requests self) ->
                           u + REQUEST_COOLDOWN <= t).
  { intros u Hu.
    assert (Hul : u <= l).
    { apply Hall. unfold all_timestamps. rewrite !in_app_iff. tauto. }
    assert (Hlpos : 0 < l).
    { eapply Qlt_le_trans; [apply Hpos, Hu|exact Hul]. }
    specialize (Hgap l Hl Hlpos). lra. }
  unfold spaced in *. simpl.
  split; [apply FOP_snoc; [exact Hm|intros a Ha; apply Hfar, Hmd, Ha]|].
  split; [apply FOP_snoc; [exact Hd|exact Hfar]|].
  split; [apply FOP_snoc; [exact Hb|intros a Ha; apply Hfar, Hbd, Ha]|].
  intros u Hu. apply in_app_iff in Hu. destruct Hu as [Hu|[<-|[]]];
    [apply Hpos, Hu|exact Ht].
Qed.

(** An allowing answer at [t] comes at least the cooldown after the last
    request time of a consistent object. *)
Lemma allowed_after_cooldown (T t : Q) (self : RateLimiter)
    (m : option string) :
  consistent T self ->
  snd (can_make_request t self) = Returns (true, m) ->
  forall l, last_request_time self = PyNum l -> 0 < l ->
            l + REQUEST_COOLDOWN
              + inject_Z (calculate_backoff_time t
                            (clean_old_requests t self)) <= t.
Proof.
  intros Hc Ha l Hl Hpos.
  apply can_make_request_allowed in Ha.
  destruct Ha as (_ & _ & last & Hn & Hcool).
  rewrite Hl in Hn. simpl in Hn. injection Hn as <-.
  specialize (Hcool Hpos). lra.
Qed.

Section Pace.

Context {builtins : StrBuiltins} {text : TextBuiltins}.

Lemma paced_process_mono (T T' : Q) (p : Process) :
  T <= T' -> paced_process T p -> paced_process T' p.
Proof.
  intros HT (H0 & Hs & Hf).
  split; [eapply Qlt_le_trans; eassumption|].
  split; apply (paced_mono T); assumption.
Qed.

Lemma paced_app_step (T : Q) (ev : event) (p : Process) :
  paced_process T p ->
  nondecreasing T (readings ev) ->
  paced_process (last (readings ev) T) (app_step ev p).
Proof.
  intros (H0 & Hs & Hf) Hord.
  destruct ev as [t|t prompt tc tr w|]; simpl in Hord; simpl last.
  - destruct Hord as [Ht _].
    apply (paced_process_mono T); [exact Ht|].
    split; [exact H0|]. split; [apply paced_clean, Hs|exact Hf].
  - destruct Hord as (Ht & Htc & Htr & _).
    assert (HTtr : T <= tr) by lra.
    set (q := {| limiter := clean_old_requests t (limiter p); env := env p |}).
    assert (Hq : paced T (limiter q)) by apply paced_clean, Hs.
    change (app_step (Ask t prompt tc tr w) p)
      with (fst (on_prompt prompt tc tr w q)).
    destruct (on_prompt_cases prompt tc tr w q) as [E|[E|[[m Hm] E]]];
      rewrite E.
    + apply (paced_process_mono T); [exact HTtr|].
      split; [exact H0|]. split; [exact Hq|exact Hf].
    + apply (paced_process_mono T); [exact HTtr|].
      split; [exact H0|]. split; [apply paced_clean, Hq|exact Hf].
    + assert (Htrpos : 0 < tr) by lra.
      assert (Hpruned : paced T (clean_old_requests tc (limiter q)))
        by apply paced_clean, Hq.
      assert (Hgap : forall l,
                last_request_time (clean_old_requests tc (limiter q))
                  = PyNum l ->
                0 < l -> l + REQUEST_COOLDOWN <= tr).
      { intros l Hl Hpos.
        pose proof (allowed_after_cooldown T tc (limiter q) m
                      (proj1 Hq) Hm l Hl Hpos) as Hc.
        pose proof (cooldown_range tc
                      (clean_old_requests tc (limiter q))) as (Hb & _).
        cbv zeta in Hb.
        assert (Hb0 : (0 <= calculate_backoff_time tc
                               (clean_old_requests tc (limiter q)))%Z) by lia.
        rewrite Zle_Qle in Hb0. change (inject_Z 0) with 0 in Hb0. lra. }
      assert (Hrec : paced tr
                (fst (record_request tr w
                        (clean_old_requests tc (limiter q)) (env q)))).
      { apply (paced_record T); assumption. }
      split; [exact Htrpos|]. split; [exact Hrec|].
      destruct w as [|msg|msg]; simpl.
      * rewrite RateLimiter_init_saved.
        apply (paced_without_burst tr
                 (fst (record_request tr Written
                         (clean_old_requests tc (limiter q)) (env q)))).
        exact Hrec.
      * apply (paced_mono T); assumption.
      * apply paced_reset. lra.
  - split; [exact H0|]. split; [exact Hf|exact Hf].
Qed.

Lemma paced_app_run (evs : list event) (T : Q) (p : Process) :
  paced_process T p ->
  nondecreasing T (flat_map readings evs) ->
  exists T', paced_process T' (app_run evs p).
Proof.
  revert T p. induction evs as [|ev r IH]; intros T p Hp Hord.
  - exists T. exact Hp.
  - simpl in Hord. apply nondecreasing_app in Hord.
    destruct Hord as [H1 H2].
    apply (IH (last (readings ev) T) (app_step ev p));
      [apply paced_app_step; assumption|exact H2].
Qed.

(** X9: as the application uses the limiter, with a positive clock that
    never runs backwards, any two timestamps of a sequence are at least the
    cooldown of 6 seconds apart, through failed writes and restarts. *)
Theorem app_calls_are_spaced (evs : list event) (T0 : Q) :
  0 < T0 ->
  nondecreasing T0 (flat_map readings evs) ->
  let self := limiter (app_run evs (start Absent)) in
  spaced REQUEST_COOLDOWN (daily_requests self) /\
  spaced REQUEST_COOLDOWN (minute_requests self) /\
  spaced REQUEST_COOLDOWN (request_timestamps self).
Proof.
  intros H0 Hord self.
  destruct (paced_app_run evs T0 (start Absent)) as
    (T & _ & (_ & Hm & Hd & Hb & _) & _).
  - split; [exact H0|].
    split; apply paced_reset, Qlt_le_weak, H0.
  - exact Hord.
  - repeat split; assumption.
Qed.

End Pace.

(** ** One process from a first start *)

Lemma scratch_clean (T now : Q) (self : RateLimiter) :
  T <= now -> paced_from_scratch T self ->
  paced_from_scratch now (clean_old_requests now self) /\
  minute_requests (clean_old_requests now self) =
    within 60 now (request_timestamps (clean_old_requests now self)).
Proof.
  intros HT (Hp & (tau & Htau & Heq) & Hlen).
  assert (E : minute_requests (clean_old_requests now self) =
              within 60 now (request_timestamps (clean_old_requests now self))).
  { simpl. rewrite Heq.
    rewrite (within_within 60 60 tau now) by lra.
    rewrite (within_within 300 60 now now) by lra. reflexivity. }
  split; [|exact E].
  split; [apply (paced_mono T); [exact HT|apply paced_clean, Hp]|].
  split; [exists now; split; [apply Qle_refl|exact E]|].
  simpl. pose proof (within_length 60 now (minute_requests self)). lia.
Qed.

(** An allowing answer finds at most 6 calls in the last minute. *)
Lemma scratch_allowed_few (T t : Q) (self : RateLimiter)
    (m : option string) :
  T <= t -> paced_from_scratch T self ->
  snd (can_make_request t self) = Returns (true, m) ->
  (len (minute_requests (clean_old_requests t self)) <= 6)%Z.
Proof.
  intros HT Hs Ha.
  destruct (scratch_clean T t self HT Hs) as [(Hp & _ & _) Heq].
  set (pruned := clean_old_requests t self) in *.
  destruct (Z_le_gt_dec (len (minute_requests pruned)) 6) as [Hle|Hgt];
    [exact Hle|exfalso].
  assert (Hb : calculate_backoff_time t pruned
               = backoff_of (len (minute_requests pruned))).
  { rewrite calculate_backoff_time_backoff_of, Heq. reflexivity. }
  assert (H32 : (32 <= calculate_backoff_time t pruned)%Z).
  { rewrite Hb. change 32%Z with (backoff_of 7).
    apply backoff_of_mono. lia. }
  rewrite Zle_Qle in H32. change (inject_Z 32) with 32 in H32.
  destruct Hp as (Hc & Hm & _ & _ & Hpos).
  destruct (minute_requests pruned) as [|a rest] eqn:El.
  { unfold len in Hgt. simpl in Hgt. lia. }
  destruct Hc as (l & Hl & _ & Hall & Hmd & _ & _).
  assert (Ha_in : In a (minute_requests pruned))
    by (rewrite El; left; reflexivity).
  assert (Hspan : a + 6 * inject_Z (len rest) <= l).
  { apply spaced_span; [exact Hm|].
    intros u Hu. apply Hall. unfold all_timestamps. rewrite El.
    apply in_app_iff. left. exact Hu. }
  assert (Hrest : (6 <= len rest)%Z) by (rewrite len_cons in Hgt; lia).
  rewrite Zle_Qle in Hrest. change (inject_Z 6) with 6 in Hrest.
  assert (Hapos : 0 < a) by (apply Hpos, Hmd, Ha_in).
  assert (Hwin : t - 60 < a).
  { unfold pruned in Ha_in. simpl in Ha_in. apply within_In in Ha_in. tauto. }
  assert (Hlpos : 0 < l) by lra.
  pose proof (allowed_after_cooldown T t self m) as Hcool.
  assert (Hcs : consistent T self) by (destruct Hs as ((Hcs & _) & _); exact Hcs).
  specialize (Hcool Hcs Ha l Hl Hlpos). fold pruned in Hcool.
  unfold REQUEST_COOLDOWN in Hcool. lra.
Qed.

Lemma scratch_record (T tc tr : Q) (w : write_result) (self : RateLimiter)
    (e : Env) (m : option string) :
  T <= tc -> tc <= tr -> 0 < tr ->
  paced_from_scratch T self ->
  snd (can_make_request tc self) = Returns (true, m) ->
  paced_from_scratch tr
    (fst (record_request tr w (clean_old_requests tc self) e)).
Proof.
  intros HT Htr Hpos Hs Ha.
  pose proof (scratch_allowed_few T tc self m HT Hs Ha) as Hfew.
  destruct (scratch_clean T tc self HT Hs) as [(Hp & _ & _) Heq].
  set (pruned := clean_old_requests tc self) in *.
  split; [|split].
  - apply (paced_record tc); try assumption.
    intros l Hl Hlpos.
    assert (Hcs : consistent T self)
      by (destruct Hs as ((Hcs & _) & _); exact Hcs).
    pose proof (allowed_after_cooldown T tc self m Hcs Ha l Hl Hlpos) as Hc.
    pose proof (cooldown_range tc pruned) as (Hb & _).
    cbv zeta in Hb.
    assert (Hb0 : (0 <= calculate_backoff_time tc pruned)%Z) by lia.
    rewrite Zle_Qle in Hb0. change (inject_Z 0) with 0 in Hb0.
    fold pruned in Hc. lra.
  - exists tc. split; [exact Htr|].
    change (minute_requests pruned ++ [tr] =
            within 60 tc (request_timestamps pruned ++ [tr])).
    rewrite within_app, <- Heq. f_equal.
    unfold within; simpl.
    assert (E : Qltb (tc - 60) tr = true) by (apply Qltb_lt; lra).
    rewrite E. reflexivity.
  - change (len (minute_requests pruned ++ [tr]) <= 7)%Z.
    rewrite len_app. change (len [tr]) with 1%Z. lia.
Qed.

Section Scratch.

Context {builtins : StrBuiltins} {text : TextBuiltins}.

Lemma scratch_app_step (T : Q) (ev : event) (p : Process) :
  is_reboot ev = false ->
  0 < T -> paced_from_scratch T (limiter p) ->
  nondecreasing T (readings ev) ->
  0 < last (readings ev) T /\
  paced_from_scratch (last (readings ev) T) (limiter (app_step ev p)).
Proof.
  intros Hev H0 Hs Hord.
  assert (Hmono : forall T1 T2 s, T1 <= T2 ->
            paced_from_scratch T1 s -> paced_from_scratch T2 s).
  { intros T1 T2 s H12 (Hp & (tau & Htau & Heq) & Hlen).
    split; [apply (paced_mono T1); assumption|].
    split; [exists tau; split; [lra|exact Heq]|exact Hlen]. }
  destruct ev as [t|t prompt tc tr w|]; [| |discriminate];
    simpl in Hord; simpl last.
  - destruct Hord as [Ht _]. split; [lra|].
    apply (scratch_clean T t (limiter p) Ht Hs).
  - destruct Hord as (Ht & Htc & Htr & _).
    split; [lra|].
    set (q := {| limiter := clean_old_requests t (limiter p); env := env p |}).
    assert (Hq : paced_from_scratch t (limiter q))
      by apply (scratch_clean T t (limiter p) Ht Hs).
    change (app_step (Ask t prompt tc tr w) p)
      with (fst (on_prompt prompt tc tr w q)).
    destruct (on_prompt_cases prompt tc tr w q) as [E|[E|[[m Hm] E]]];
      rewrite E.
    + apply (Hmono t); [lra|exact Hq].
    + apply (Hmono tc); [exact Htr|].
      apply (scratch_clean t tc (limiter q) Htc Hq).
    + apply (scratch_record t tc tr w (limiter q) (env q) m);
        try assumption. lra.
Qed.

Lemma scratch_app_run (evs : list event) (T : Q) (p : Process) :
  forallb (fun ev => negb (is_reboot ev)) evs = true ->
  0 < T -> paced_from_scratch T (limiter p) ->
  nondecreasing T (flat_map readings evs) ->
  exists T', paced_from_scratch T' (limiter (app_run evs p)).
Proof.
  revert T p. induction evs as [|ev r IH]; intros T p Hnr H0 Hs Hord.
  - exists T. exact Hs.
  - simpl in Hnr. apply andb_true_iff in Hnr. destruct Hnr as [Hev Hr].
    apply negb_true_iff in Hev.
    simpl in Hord. apply nondecreasing_app in Hord. destruct Hord as [H1 H2].
    destruct (scratch_app_step T ev p Hev H0 Hs H1) as [H0' Hs'].
    apply (IH (last (readings ev) T) (app_step ev p)); assumption.
Qed.

(** X10: in one process that started without a state file, with a
    positive clock that never runs backwards, the application never has
    more than 7 timestamps in the minute sequence: the cooldown and its
    backoff keep the ceiling of 10 out of reach, and [can_make_request]
    never takes the minute-limit branch. *)
Theorem minute_ceiling_out_of_reach (evs : list event) (T0 : Q) :
  0 < T0 ->
  nondecreasing T0 (flat_map readings evs) ->
  forallb (fun ev => negb (is_reboot ev)) evs = true ->
  let self := limiter (app_run evs (start Absent)) in
  (len (minute_requests self) <= 7)%Z /\
  forall now,
    can_make_request now self =
      (clean_old_requests now self,
       if (MAX_REQUESTS_PER_DAY
             <=? len (daily_requests (clean_old_requests now self)))%Z
       then Returns (false, Some daily_message)
       else cooldown_check now now (clean_old_requests now self)).
Proof.
  intros H0 Hord Hnr self.
  destruct (scratch_app_run evs T0 (start Absent) Hnr H0) as
    (T & _ & _ & Hlen).
  - split; [apply paced_reset, Qlt_le_weak, H0|].
    split; [exists T0; split; [apply Qle_refl|reflexivity]|].
    unfold len; simpl; lia.
  - exact Hord.
  - fold self in Hlen. split; [exact Hlen|].
    intro now. unfold can_make_request, can_make_request_at.
    assert (E : (MAX_REQUESTS_PER_MINUTE
                   <=? len (minute_requests (clean_old_requests now self)))%Z
                = false).
    { apply Z.leb_gt. simpl.
      pose proof (within_length 60 now (minute_requests self)).
      unfold MAX_REQUESTS_PER_MINUTE. lia. }
    rewrite E. reflexivity.
Qed.

End Scratch.

(** * Properties of the chunking (app/ingest.py) *)

Section Windows.

Context {A : Type}.

Lemma removelast_incl {B : Type} (x : B) (l : list B) :
  In x (removelast l) -> In x l.
Proof.
  induction l as [|a l IH]; [intros []|].
  destruct l as [|b l']; [intros []|].
  change (removelast (a :: b :: l')) with (a :: removelast (b :: l')).
  intros [<-|H]; [left; reflexivity|right; apply IH, H].
Qed.

(** [range(0, n, step)] holds the multiples of [step] below [n]. *)
Lemma range0_count (n step : Z) (k : nat) :
  (0 <= n)%Z -> (0 < step)%Z ->
  (k < Z.to_nat ((n + step - 1) / step))%nat <-> (Z.of_nat k * step < n)%Z.
Proof.
  intros Hn Hs.
  set (q := ((n + step - 1) / step)%Z).
  assert (Hq1 : (step * q <= n + step - 1)%Z)
    by (apply Z.mul_div_le; lia).
  assert (Hq2 : (n + step - 1 < step * Z.succ q)%Z)
    by (apply Z.mul_succ_div_gt; lia).
  assert (Hq0 : (0 <= q)%Z) by (apply Z.div_pos; lia).
  split; intro H.
  - assert (Z.of_nat k < q)%Z by lia. nia.
  - assert (Z.of_nat k < q)%Z by nia. lia.
Qed.

Lemma slice_spec (items : list A) (i size : Z) :
  (0 <= i)%Z -> (0 <= size)%Z ->
  Ingest.slice items i (i + size) =
  firstn (Z.to_nat size) (skipn (Z.to_nat i) items).
Proof.
  intros Hi Hs. unfold Ingest.slice. f_equal. f_equal. lia.
Qed.

Lemma window_loop_In (items : list A) (n size : Z) (starts : list Z)
    (w : Ingest.window A) :
  In w (Ingest.window_loop items n size starts) ->
  In (Ingest.start w) starts /\
  Ingest.content w =
    Ingest.slice items (Ingest.start w) (Ingest.start w + size).
Proof.
  induction starts as [|i rest IH]; simpl; [tauto|].
  intros [<-|Hin]; [split; [left|]; reflexivity|].
  destruct (n <? i + size)%Z; [destruct Hin|].
  destruct (IH Hin) as [H1 H2]. split; [right; exact H1|exact H2].
Qed.

(** Every window but the last was produced without the [break]. *)
Lemma window_loop_full (items : list A) (n size : Z) (starts : list Z)
    (w : Ingest.window A) :
  In w (removelast (Ingest.window_loop items n size starts)) ->
  (Ingest.start w + size <= n)%Z.
Proof.
  induction starts as [|i rest IH]; [intros []|].
  change (Ingest.window_loop items n size (i :: rest)) with
    ({| Ingest.start := i; Ingest.content := Ingest.slice items i (i + size) |}
     :: (if (n <? i + size)%Z then []
         else Ingest.window_loop items n size rest)).
  destruct (n <? i + size)%Z eqn:E; [intros []|].
  apply Z.ltb_ge in E.
  destruct (Ingest.window_loop items n size rest) as [|w1 tl] eqn:El;
    [intros []|].
  change (removelast (?x :: w1 :: tl)) with (x :: removelast (w1 :: tl)).
  intros [<-|Hin]; [exact E|apply IH, Hin].
Qed.

Lemma window_loop_starts (items : list A) (n size : Z) (f : nat -> Z)
    (a m : nat) :
  map Ingest.start
      (Ingest.window_loop items n size (map f (List.seq a m))) =
  map f (List.seq a
           (List.length (Ingest.window_loop items n size (map f (List.seq a m))))).
Proof.
  revert a. induction m as [|m IH]; intro a; [reflexivity|].
  simpl. destruct (n <? f a + size)%Z; [reflexivity|].
  simpl. f_equal. apply IH.
Qed.

Lemma window_loop_length (items : list A) (n size : Z) (starts : list Z) :
  (List.length (Ingest.window_loop items n size starts) <= List.length starts)%nat.
Proof.
  induction starts as [|i rest IH]; simpl; [lia|].
  destruct (n <? i + size)%Z; simpl; lia.
Qed.

(** Without overlap ([size <= step]) the [break] can only come at the
    last start. *)
Lemma window_loop_no_overlap (items : list A) (n size step : Z) (a m : nat) :
  (0 < size <= step)%Z ->
  (forall k, (k < a + m)%nat -> (Z.of_nat k * step < n)%Z) ->
  List.length (Ingest.window_loop items n size
            (map (fun k => (Z.of_nat k * step)%Z) (List.seq a m))) = m.
Proof.
  intros Hs. revert a. induction m as [|m IH]; intros a Hk; [reflexivity|].
  simpl. destruct m as [|m'].
  - destruct (n <? _)%Z; reflexivity.
  - assert (E : (n <? Z.of_nat a * step + size)%Z = false).
    { apply Z.ltb_ge. specialize (Hk (S a) ltac:(lia)). nia. }
    rewrite E. cbn [List.length]. f_equal.
    apply (IH (S a)). intros k Hlt. apply Hk. lia.
Qed.

(** X11: [sliding_window] raises [ValueError] exactly when [size] or [step]
    is not positive, also on an empty sequence; otherwise it returns a
    list that is empty exactly when the sequence is. *)
Theorem sliding_window_checks_arguments (items : list A) (size step : Z) :
  ((size <= 0 \/ step <= 0)%Z <->
   Ingest.sliding_window items size step = Ingest.Err Ingest.ValueError) /\
  ((0 < size)%Z -> (0 < step)%Z ->
   exists ws,
     Ingest.sliding_window items size step = Ingest.Ok ws /\
     (ws = [] <-> items = [])).
Proof.
  unfold Ingest.sliding_window. split.
  - destruct (size <=? 0)%Z eqn:E1; destruct (step <=? 0)%Z eqn:E2; simpl;
      try apply Z.leb_le in E1; try apply Z.leb_le in E2;
      try apply Z.leb_gt in E1; try apply Z.leb_gt in E2;
      split; intro H; try reflexivity; try discriminate; lia.
  - intros Hsize Hstep.
    assert (E : ((size <=? 0) || (step <=? 0))%Z = false).
    { apply orb_false_iff. split; apply Z.leb_gt; assumption. }
    rewrite E. eexists. split; [reflexivity|].
    destruct items as [|x r].
    + split; [reflexivity|intros _].
      unfold Ingest.range0. change (len (@nil A)) with 0%Z.
      rewrite Z.div_small by lia. reflexivity.
    + split; [|discriminate]. unfold Ingest.range0.
      assert (Hpos : (0 < Z.to_nat ((len (x :: r) + step - 1) / step))%nat).
      { apply (range0_count (len (x :: r)) step 0);
          [apply len_nonneg|assumption|].
        unfold len. cbn [List.length]. lia. }
      destruct (Z.to_nat ((len (x :: r) + step - 1) / step)); [lia|].
      simpl. discriminate.
Qed.

(** Where the windows start and what they hold. *)
Lemma sliding_window_windows (items : list A) (size step : Z)
    (ws : list (Ingest.window A)) :
  (0 < size)%Z -> (0 < step)%Z ->
  Ingest.sliding_window items size step = Ingest.Ok ws ->
  map Ingest.start ws =
    map (fun k => (Z.of_nat k * step)%Z) (List.seq 0 (List.length ws)) /\
  (forall w, In w ws ->
     (0 <= Ingest.start w < len items)%Z /\
     Ingest.content w =
       firstn (Z.to_nat size) (skipn (Z.to_nat (Ingest.start w)) items) /\
     (1 <= len (Ingest.content w) <= size)%Z) /\
  (forall w, In w (removelast ws) -> len (Ingest.content w) = size).
Proof.
  intros Hsize Hstep H. unfold Ingest.sliding_window in H.
  assert (E : ((size <=? 0) || (step <=? 0))%Z = false).
  { apply orb_false_iff. split; apply Z.leb_gt; assumption. }
  rewrite E in H. injection H as <-. unfold Ingest.range0.
  set (n := len items).
  set (f := fun k => (Z.of_nat k * step)%Z).
  set (m := Z.to_nat ((n + step - 1) / step)).
  assert (Hn : (0 <= n)%Z) by apply len_nonneg.
  assert (Hin : forall w,
            In w (Ingest.window_loop items n size (map f (List.seq 0 m))) ->
            (0 <= Ingest.start w < n)%Z /\
            Ingest.content w =
              firstn (Z.to_nat size)
                     (skipn (Z.to_nat (Ingest.start w)) items)).
  { intros w Hw. apply window_loop_In in Hw. destruct Hw as [Hs Hc].
    apply in_map_iff in Hs. destruct Hs as (k & Hk & Hkin).
    apply in_seq in Hkin.
    assert (Hlt : (Z.of_nat k * step < n)%Z)
      by (apply range0_count; [assumption|assumption|fold m; lia]).
    unfold f in Hk. split; [rewrite <- Hk; nia|].
    rewrite Hc. apply slice_spec; [rewrite <- Hk; nia|lia]. }
  assert (Hlen : forall w,
            (0 <= Ingest.start w < n)%Z ->
            Ingest.content w =
              firstn (Z.to_nat size)
                     (skipn (Z.to_nat (Ingest.start w)) items) ->
            len (Ingest.content w)
              = Z.min size (n - Ingest.start w)).
  { intros w Hs Hc. rewrite Hc. unfold len, n, len.
    rewrite length_firstn, length_skipn. unfold n, len in Hs. lia. }
  split; [apply window_loop_starts|]. split.
  - intros w Hw. destruct (Hin w Hw) as [Hs Hc].
    split; [exact Hs|]. split; [exact Hc|].
    rewrite (Hlen w Hs Hc). lia.
  - intros w Hw.
    pose proof (window_loop_full _ _ _ _ _ Hw) as Hfull.
    apply removelast_incl in Hw.
    destruct (Hin w Hw) as [Hs Hc]. rewrite (Hlen w Hs Hc). lia.
Qed.

(** X12: the windows start at 0, [step], [2 * step], ... inside the
    sequence; each holds the items from its start on, at least one and at
    most [size]; and every window but the last holds exactly [size]. *)
Theorem sliding_window_shape (items : list A) (size step : Z)
    (ws : list (Ingest.window A)) :
  (0 < size)%Z -> (0 < step)%Z ->
  Ingest.sliding_window items size step = Ingest.Ok ws ->
  map Ingest.start ws =
    map (fun k => (Z.of_nat k * step)%Z) (List.seq 0 (List.length ws)) /\
  (forall w, In w ws ->
     (0 <= Ingest.start w < len items)%Z /\
     Ingest.content w =
       firstn (Z.to_nat size) (skipn (Z.to_nat (Ingest.start w)) items) /\
     (1 <= len (Ingest.content w) <= size)%Z) /\
  (forall w, In w (removelast ws) -> len (Ingest.content w) = size).
Proof. apply sliding_window_windows. Qed.

End Windows.

Section Rebuilding.

Context {A : Type}.

Lemma rebuild_In (step : nat) (ws : list (Ingest.window A)) (x : A) :
  In x (Ingest.rebuild step ws) ->
  exists w, In w ws /\ In x (Ingest.content w).
Proof.
  induction ws as [|w rest IH]; [intros []|].
  destruct rest as [|w1 tl].
  - intro H. exists w. split; [left; reflexivity|exact H].
  - change (Ingest.rebuild step (w :: w1 :: tl)) with
      (firstn step (Ingest.content w) ++ Ingest.rebuild step (w1 :: tl)).
    intro H. apply in_app_iff in H. destruct H as [H|H].
    + exists w. split; [left; reflexivity|].
      rewrite <- (firstn_skipn step (Ingest.content w)).
      apply in_app_iff. left. exact H.
    + destruct (IH H) as (w' & Hw' & Hx).
      exists w'. split; [right; exact Hw'|exact Hx].
Qed.

Lemma rebuild_loop (items : list A) (size step : Z) (M : nat) :
  (0 < step <= size)%Z ->
  (forall k, (k < M)%nat <-> (Z.of_nat k * step < len items)%Z) ->
  forall m a,
    (a + m = M)%nat -> (0 < m)%nat ->
    Ingest.rebuild (Z.to_nat step)
      (Ingest.window_loop items (len items) size
         (map (fun k => (Z.of_nat k * step)%Z) (List.seq a m)))
    = skipn (a * Z.to_nat step) items.
Proof.
  intros Hs HM.
  assert (Hcontent : forall a,
            Ingest.slice items (Z.of_nat a * step)
                         (Z.of_nat a * step + size) =
            firstn (Z.to_nat size) (skipn (a * Z.to_nat step) items)).
  { intro a. rewrite slice_spec by nia. f_equal. f_equal. nia. }
  assert (Hwhole : forall a,
            (len items - Z.of_nat a * step <= size)%Z ->
            firstn (Z.to_nat size) (skipn (a * Z.to_nat step) items)
            = skipn (a * Z.to_nat step) items).
  { intros a H. apply firstn_all2. rewrite length_skipn.
    unfold len in H. nia. }
  induction m as [|m IH]; intros a Ha Hm; [lia|].
  simpl. rewrite Hcontent.
  destruct (len items <? Z.of_nat a * step + size)%Z eqn:E.
  - apply Z.ltb_lt in E. simpl. apply Hwhole. lia.
  - apply Z.ltb_ge in E. destruct m as [|m'].
    + simpl. apply Hwhole.
      assert (Hn : ~ (S a < M)%nat) by lia.
      rewrite HM in Hn. nia.
    + specialize (IH (S a) ltac:(lia) ltac:(lia)).
      simpl in IH. simpl.
      rewrite IH. rewrite firstn_firstn.
      replace (Init.Nat.min (Z.to_nat step) (Z.to_nat size))
        with (Z.to_nat step) by lia.
      rewrite <- skipn_skipn. apply firstn_skipn.
Qed.

(** X13: when the windows touch or overlap ([step <= size]) nothing is
    lost: the first [step] items of every window but the last, followed by
    the last window, are the sequence again, and every item of the sequence
    is in some window. *)
Theorem sliding_window_rebuild (items : list A) (size step : Z)
    (ws : list (Ingest.window A)) :
  (0 < step <= size)%Z ->
  Ingest.sliding_window items size step = Ingest.Ok ws ->
  Ingest.rebuild (Z.to_nat step) ws = items /\
  (forall x, In x items -> exists w, In w ws /\ In x (Ingest.content w)).
Proof.
  intros Hs H.
  assert (Hr : Ingest.rebuild (Z.to_nat step) ws = items).
  { unfold Ingest.sliding_window in H.
    assert (E : ((size <=? 0) || (step <=? 0))%Z = false).
    { apply orb_false_iff. split; apply Z.leb_gt; lia. }
    rewrite E in H. injection H as <-. unfold Ingest.range0.
    set (M := Z.to_nat ((len items + step - 1) / step)).
    assert (HM : forall k,
              (k < M)%nat <-> (Z.of_nat k * step < len items)%Z).
    { intro k. apply range0_count; [apply len_nonneg|lia]. }
    destruct M as [|M'] eqn:EM.
    - destruct items as [|x r]; [reflexivity|].
      exfalso. assert (Hk : (0 < 0)%nat); [|lia].
      apply HM. unfold len. cbn [List.length]. lia.
    - rewrite (rebuild_loop items size step (S M') Hs HM (S M') 0%nat)
        by lia.
      reflexivity. }
  split; [exact Hr|].
  intros x Hx. rewrite <- Hr in Hx. apply rebuild_In in Hx. exact Hx.
Qed.

Lemma window_loop_count (items : list A) (n size step : Z) (K0 : nat) :
  (0 < step)%Z ->
  (forall k, (K0 <= k)%nat <-> (n < Z.of_nat k * step + size)%Z) ->
  forall m a,
    (a <= K0)%nat ->
    List.length
      (Ingest.window_loop items n size
         (map (fun k => (Z.of_nat k * step)%Z) (List.seq a m)))
    = Nat.min m (K0 - a + 1).
Proof.
  intros Hs HK. induction m as [|m IH]; intros a Ha; [reflexivity|].
  cbn [List.seq map Ingest.window_loop].
  destruct (n <? Z.of_nat a * step + size)%Z eqn:E.
  - apply Z.ltb_lt in E. apply HK in E.
    assert (a = K0) by lia. subst a. cbn [List.length].
    replace (K0 - K0 + 1)%nat with 1%nat by lia. lia.
  - apply Z.ltb_ge in E.
    assert (Hlt : (a < K0)%nat).
    { destruct (Nat.lt_ge_cases a K0) as [Hlt|Hge]; [exact Hlt|].
      apply HK in Hge. lia. }
    cbn [List.length]. rewrite (IH (S a)) by lia. lia.
Qed.

(** X14: the number of windows: the starts below [len], cut after the
    first window that reaches past the end. *)
Theorem sliding_window_count (items : list A) (size step : Z)
    (ws : list (Ingest.window A)) :
  (0 < size)%Z -> (0 < step)%Z ->
  Ingest.sliding_window items size step = Ingest.Ok ws ->
  let n := len items in
  len ws =
    Z.min ((n + step - 1) / step) (Z.max 0 ((n - size) / step + 1) + 1) /\
  ((size <= step)%Z -> len ws = ((n + step - 1) / step)%Z).
Proof.
  intros Hsize Hstep H n. unfold Ingest.sliding_window in H.
  assert (E : ((size <=? 0) || (step <=? 0))%Z = false).
  { apply orb_false_iff. split; apply Z.leb_gt; lia. }
  rewrite E in H. injection H as <-. unfold Ingest.range0. fold n.
  assert (Hn : (0 <= n)%Z) by apply len_nonneg.
  set (q := ((n - size) / step)%Z).
  assert (Hq1 : (step * q <= n - size)%Z) by (apply Z.mul_div_le; lia).
  assert (Hq2 : (n - size < step * Z.succ q)%Z)
    by (apply Z.mul_succ_div_gt; lia).
  set (K0 := Z.to_nat (Z.max 0 (q + 1))).
  assert (HK : forall k,
            (K0 <= k)%nat <-> (n < Z.of_nat k * step + size)%Z).
  { intro k. unfold K0. split; intro Hk.
    - assert (q + 1 <= Z.of_nat k)%Z by lia. nia.
    - assert (q < Z.of_nat k)%Z by nia. lia. }
  set (m := ((n + step - 1) / step)%Z).
  assert (Hm0 : (0 <= m)%Z) by (apply Z.div_pos; lia).
  assert (Hcount : len (Ingest.window_loop items n size
                     (map (fun k => (Z.of_nat k * step)%Z)
                          (List.seq 0 (Z.to_nat m))))
                   = Z.min m (Z.max 0 (q + 1) + 1)).
  { unfold len.
    rewrite (window_loop_count items n size step K0 Hstep HK (Z.to_nat m) 0%nat)
      by lia.
    unfold K0. lia. }
  split; [exact Hcount|].
  intro Hle. rewrite Hcount.
  assert (Hm1 : (step * m <= n + step - 1)%Z) by (apply Z.mul_div_le; lia).
  assert (m <= Z.max 0 (q + 1) + 1)%Z; [|lia].
  assert (m <= q + 2)%Z; [|lia].
  assert (step * (m - 2) < step * Z.succ q)%Z by nia.
  assert (m - 2 < Z.succ q)%Z by nia. lia.
Qed.

End Rebuilding.

Section Chunks.

Context {Char Scalar : Type} (hashable_slices : bool).

#[local] Abbreviation dict := (@Ingest.dict Char Scalar).
#[local] Abbreviation value := (@Ingest.value Char Scalar).
#[local] Abbreviation chunk_documents := (@Ingest.chunk_documents Char Scalar hashable_slices).

Lemma dict_pop_None (key : string) (d : dict) :
  Ingest.dict_pop key d = None <-> Ingest.dict_get key d = None.
Proof.
  induction d as [|[k v] r IH]; simpl; [tauto|].
  destruct (String.eqb k key); [split; discriminate|].
  destruct (Ingest.dict_pop key r) as [[x r']|].
  - split; [discriminate|]. intro H. apply IH in H. discriminate.
  - split; [intros _; apply IH; reflexivity|reflexivity].
Qed.

Lemma dict_get_In (key : string) (v : value) (d : dict) :
  Ingest.dict_get key d = Some v -> In key (map fst d).
Proof.
  induction d as [|[k x] r IH]; simpl; [discriminate|].
  destruct (String.eqb k key) eqn:E.
  - apply String.eqb_eq in E. intros _. left. exact E.
  - intro H. right. apply IH, H.
Qed.

Lemma dict_pop_Some (key : string) (d d' : dict) (v : value) :
  Ingest.dict_pop key d = Some (v, d') ->
  Ingest.dict_get key d = Some v /\
  (forall k, k <> key -> Ingest.dict_get k d' = Ingest.dict_get k d) /\
  (Ingest.well_formed d ->
   Ingest.well_formed d' /\ Ingest.dict_get key d' = None).
Proof.
  unfold Ingest.well_formed. revert d'.
  induction d as [|[k x] r IH]; intros d'; simpl; [discriminate|].
  destruct (String.eqb k key) eqn:E.
  - intro H. injection H as <- <-. apply String.eqb_eq in E. subst k.
    split; [reflexivity|]. split.
    + intros k Hk. apply String.eqb_neq in Hk.
      rewrite String.eqb_sym in Hk. rewrite Hk. reflexivity.
    + intro Hnd. inversion Hnd as [|? ? Hnotin Hr]; subst.
      split; [exact Hr|].
      destruct (Ingest.dict_get key r) as [y|] eqn:Eg; [|reflexivity].
      exfalso. apply Hnotin. apply (dict_get_In key y r Eg).
  - destruct (Ingest.dict_pop key r) as [[y r']|] eqn:Ep; [|discriminate].
    intro H. injection H as <- <-.
    destruct (IH r' eq_refl) as (Hg & Hother & Hwf).
    split; [exact Hg|]. split.
    + intros k0 Hk0. simpl. rewrite (Hother k0 Hk0). reflexivity.
    + intro Hnd. inversion Hnd as [|? ? Hnotin Hr]; subst.
      destruct (Hwf Hr) as [Hr' Hnone]. split.
      * simpl. constructor; [|exact Hr'].
        intro Hin. apply Hnotin. apply in_map_iff in Hin.
        destruct Hin as ([k1 v1] & Hk1 & Hin1). simpl in Hk1. subst k1.
        destruct (String.eqb_spec k key) as [->|Hne]; [discriminate|].
        destruct (Ingest.dict_get k r') as [z|] eqn:Ez.
        -- rewrite (Hother k Hne) in Ez. apply (dict_get_In k z r Ez).
        -- exfalso. clear - Hin1 Ez.
           induction r' as [|[k2 v2] r2 IH2]; [destruct Hin1|].
           simpl in Ez. destruct (String.eqb k2 k) eqn:E2; [discriminate|].
           destruct Hin1 as [Heq|Hin1].
           ++ injection Heq as -> ->. rewrite String.eqb_refl in E2.
              discriminate.
           ++ apply IH2; assumption.
      * simpl. rewrite E. exact Hnone.
Qed.

Lemma dict_get_set (k key : string) (v : value) (d : dict) :
  Ingest.dict_get k (Ingest.dict_set key v d) =
  if String.eqb key k then Some v else Ingest.dict_get k d.
Proof.
  induction d as [|[k1 x] r IH]; simpl.
  - reflexivity.
  - destruct (String.eqb k1 key) eqn:E1; simpl.
    + apply String.eqb_eq in E1. subst k1.
      destruct (String.eqb key k); reflexivity.
    + destruct (String.eqb k1 k) eqn:E2.
      * apply String.eqb_eq in E2. subst k1.
        rewrite String.eqb_sym, E1. reflexivity.
      * exact IH.
Qed.

Lemma dict_get_update (k : string) (c other : dict) :
  Ingest.well_formed other ->
  Ingest.dict_get k (Ingest.dict_update c other) =
  match Ingest.dict_get k other with
  | Some v => Some v
  | None => Ingest.dict_get k c
  end.
Proof.
  unfold Ingest.well_formed, Ingest.dict_update. revert c.
  induction other as [|[k1 v1] r IH]; intros c Hnd; simpl; [reflexivity|].
  inversion Hnd as [|? ? Hnotin Hr]; subst.
  rewrite (IH _ Hr). simpl. rewrite dict_get_set.
  destruct (String.eqb k1 k) eqn:E.
  - apply String.eqb_eq in E. subst k1.
    destruct (Ingest.dict_get k r) as [y|] eqn:Eg; [|reflexivity].
    exfalso. apply Hnotin. apply (dict_get_In k y r Eg).
  - reflexivity.
Qed.

(** Chunking a list in two parts. *)
Lemma chunk_documents_concat (docs1 docs2 : list dict) (size step : Z) :
  chunk_documents (docs1 ++ docs2) size step =
  match chunk_documents docs1 size step with
  | Ingest.Err e => Ingest.Err e
  | Ingest.Ok chunks1 =>
      match chunk_documents docs2 size step with
      | Ingest.Err e => Ingest.Err e
      | Ingest.Ok chunks2 => Ingest.Ok (chunks1 ++ chunks2)
      end
  end.
Proof.
  induction docs1 as [|doc rest IH]; simpl.
  - destruct (chunk_documents docs2 size step); reflexivity.
  - destruct (Ingest.dict_pop "content" doc) as [[doc_content doc_copy]|];
      [|reflexivity].
    destruct (Ingest.sliding_window_value hashable_slices doc_content size step)
      as [doc_chunks|e]; [|reflexivity].
    rewrite IH.
    destruct (chunk_documents rest size step) as [c1|e]; [|reflexivity].
    destruct (chunk_documents docs2 size step) as [c2|e]; [|reflexivity].
    rewrite app_assoc. reflexivity.
Qed.

(** X15: chunking treats the documents one by one: the chunks of a list
    are the chunks of its first part followed by the chunks of the rest,
    and the first error met is the error of the whole. *)
Theorem chunk_documents_app (docs1 docs2 : list dict) (size step : Z) :
  chunk_documents (docs1 ++ docs2) size step =
  match chunk_documents docs1 size step with
  | Ingest.Err e => Ingest.Err e
  | Ingest.Ok chunks1 =>
      match chunk_documents docs2 size step with
      | Ingest.Err e => Ingest.Err e
      | Ingest.Ok chunks2 => Ingest.Ok (chunks1 ++ chunks2)
      end
  end.
Proof. apply chunk_documents_concat. Qed.

(** X16: the errors of [chunk_documents]: none on an empty list, whatever
    [size] and [step] are; [KeyError] at the first document without a
    [content] key; [ValueError] for a [size] or [step] that is not positive as
    soon as a first document has one. *)
Theorem chunk_documents_errors (size step : Z) :
  chunk_documents [] size step = Ingest.Ok [] /\
  (forall before doc rest chunks,
     chunk_documents before size step = Ingest.Ok chunks ->
     Ingest.dict_get "content" doc = None ->
     chunk_documents (before ++ doc :: rest) size step
       = Ingest.Err Ingest.KeyError) /\
  (forall doc rest,
     Ingest.dict_get "content" doc <> None ->
     (size <= 0 \/ step <= 0)%Z ->
     chunk_documents (doc :: rest) size step
       = Ingest.Err Ingest.ValueError).
Proof.
  split; [reflexivity|]. split.
  - intros before doc rest chunks Hb Hg.
    rewrite chunk_documents_concat, Hb. simpl.
    apply dict_pop_None in Hg. rewrite Hg. reflexivity.
  - intros doc rest Hg Hs. simpl.
    destruct (Ingest.dict_pop "content" doc) as [[doc_content doc_copy]|] eqn:E.
    + unfold Ingest.sliding_window_value.
      assert (Eb : ((size <=? 0) || (step <=? 0))%Z = true).
      { apply orb_true_iff. destruct Hs; [left|right]; apply Z.leb_le;
          assumption. }
      rewrite Eb. reflexivity.
    + apply dict_pop_None in E. contradiction.
Qed.

Lemma window_dict_get {B : Type} (wrap : list B -> value)
    (w : Ingest.window B) (k : string) :
  Ingest.dict_get k (Ingest.window_dict wrap w) =
  if String.eqb "start" k then Some (Ingest.Int (Ingest.start w))
  else if String.eqb "content" k then Some (wrap (Ingest.content w))
  else None.
Proof. reflexivity. Qed.

(** X17: a chunk of well-formed documents carries every field of its
    document except [content], with the document's value, so a [start]
    field of the document replaces the offset; when the content is a text,
    the chunk's content is the window of it that starts at the offset. *)
Theorem chunk_documents_keeps_fields (docs chunks : list dict)
    (size step : Z) :
  Forall Ingest.well_formed docs ->
  chunk_documents docs size step = Ingest.Ok chunks ->
  forall chunk, In chunk chunks ->
  exists doc,
    In doc docs /\
    (forall k v, k <> "content"%string ->
       Ingest.dict_get k doc = Some v ->
       Ingest.dict_get k chunk = Some v) /\
    (forall chars,
       Ingest.dict_get "content" doc = Some (Ingest.Str chars) ->
       exists i,
         (0 <= i < len chars)%Z /\
         Ingest.dict_get "content" chunk =
           Some (Ingest.Str (firstn (Z.to_nat size)
                               (skipn (Z.to_nat i) chars))) /\
         (Ingest.dict_get "start" doc = None ->
          Ingest.dict_get "start" chunk = Some (Ingest.Int i))).
Proof.
  revert chunks. induction docs as [|doc rest IH]; intros chunks Hwf H chunk Hin.
  - injection H as <-. destruct Hin.
  - simpl in H. inversion Hwf as [|? ? Hdoc Hrest]; subst.
    destruct (Ingest.dict_pop "content" doc) as [[doc_content doc_copy]|] eqn:Ep;
      [|discriminate].
    destruct (Ingest.sliding_window_value hashable_slices doc_content size step)
      as [doc_chunks|e] eqn:Ew; [|discriminate].
    destruct (chunk_documents rest size step) as [more|e] eqn:Er;
      [|discriminate].
    injection H as <-. apply in_app_iff in Hin. destruct Hin as [Hin|Hin].
    + exists doc. split; [left; reflexivity|].
      destruct (dict_pop_Some _ _ _ _ Ep) as (Hg & Hother & Hwf').
      destruct (Hwf' Hdoc) as [Hcopy Hnone].
      apply in_map_iff in Hin. destruct Hin as (c & <- & Hc).
      split.
      * intros k v Hk Hv. rewrite (dict_get_update k c doc_copy Hcopy).
        rewrite (Hother k Hk), Hv. reflexivity.
      * intros chars Hchars. rewrite Hg in Hchars. injection Hchars as ->.
        unfold Ingest.sliding_window_value in Ew.
        destruct ((size <=? 0) || (step <=? 0))%Z eqn:Eb; [discriminate|].
        apply orb_false_iff in Eb. destruct Eb as [Es Et].
        apply Z.leb_gt in Es. apply Z.leb_gt in Et.
        injection Ew as <-. apply in_map_iff in Hc.
        destruct Hc as (w & <- & Hw).
        assert (Hsw : Ingest.sliding_window chars size step =
                      Ingest.Ok (Ingest.window_loop chars (len chars) size
                                   (Ingest.range0 (len chars) step))).
        { unfold Ingest.sliding_window.
          assert (Eb : ((size <=? 0) || (step <=? 0))%Z = false).
          { apply orb_false_iff. split; apply Z.leb_gt; assumption. }
          rewrite Eb. reflexivity. }
        destruct (sliding_window_windows chars size step _ Es Et Hsw)
          as (_ & Hshape & _).
        destruct (Hshape w Hw) as (Hstart & Hcontent & _).
        exists (Ingest.start w). split; [exact Hstart|]. split.
        -- rewrite (dict_get_update _ _ doc_copy Hcopy), Hnone.
           rewrite window_dict_get. simpl. rewrite Hcontent. reflexivity.
        -- intro Hns.
           rewrite (dict_get_update _ _ doc_copy Hcopy).
           rewrite (Hother "start"%string) by discriminate.
           rewrite Hns. reflexivity.
    + destruct (IH more Hrest eq_refl chunk Hin) as (d & Hd & Hprops).
      exists d. split; [right; exact Hd|exact Hprops].
Qed.

End Chunks.

(** * Small talk and failed writes *)

Lemma prefix_app (w post : string) :
  String.prefix w (w ++ post) = true.
Proof.
  induction w as [|c w IH]; simpl; [destruct post; reflexivity|].
  destruct (ascii_dec c c); [exact IH|congruence].
Qed.

Lemma contains_unfold (w t : string) :
  contains w t =
  if String.prefix w t then true
  else
    match t with
    | EmptyString => false
    | String _ rest => contains w rest
    end.
Proof. destruct t; reflexivity. Qed.

Lemma contains_app (w pre post : string) :
  contains w (pre ++ w ++ post) = true.
Proof.
  induction pre as [|c pre IH].
  - change (("" ++ w ++ post)%string) with ((w ++ post)%string).
    rewrite contains_unfold, prefix_app. reflexivity.
  - change ((String c pre ++ w ++ post)%string)
      with (String c (pre ++ w ++ post)%string).
    rewrite contains_unfold, IH.
    destruct (String.prefix w _); reflexivity.
Qed.

(** X18: the small-talk test looks for its words anywhere in the
    lower-cased text, inside other words too: a prompt whose lower-cased
    text holds "hi" (as in "this") gets the greeting, whatever else it
    holds, and never reaches the limiter or the agent. *)
Theorem generate_response_matches_inside_words {text : TextBuiltins}
    (user_text pre post : string) (t_check t_record : Q) (w : write_result)
    (p : Process) :
  py_lower (py_strip user_text) = (pre ++ "hi" ++ post)%string ->
  generate_response user_text = Some greeting_reply /\
  on_prompt user_text t_check t_record w p = (p, SmallTalk greeting_reply).
Proof.
  intro H.
  assert (G : generate_response user_text = Some greeting_reply).
  { unfold generate_response. rewrite H. cbn [greetings existsb].
    rewrite contains_app. reflexivity. }
  split; [exact G|]. unfold on_prompt. rewrite G. reflexivity.
Qed.

(** X19: what a new process remembers after a failed write: when [open]
    failed it starts from the file as it was before the recording; when
    [json.dump] failed nothing is left, the new limiter is empty and allows
    at once, whatever the limits were. *)
Theorem failed_write_then_relaunch {builtins : StrBuiltins} (t now : Q)
    (msg : string) (p : Process) :
  limiter (fst (run [RecordRequest t (OpenFails msg); Relaunch] p))
    = RateLimiter_init (file (env p)) /\
  limiter (fst (run [RecordRequest t (DumpFails msg); Relaunch] p))
    = reset_state blank /\
  snd (can_make_request now
         (limiter (fst (run [RecordRequest t (DumpFails msg); Relaunch] p))))
    = Returns (true, None).
Proof.
  split; [reflexivity|]. split; reflexivity.
Qed.

(** * Reads and recordings together *)

(** X20: looking at the statistics never changes an answer, and asking
    never changes the statistics: a [get_stats] at an instant up to [now]
    leaves what [can_make_request] returns at [now] as it was, and the other
    way round. *)
Theorem reads_do_not_interfere (t now : Q) (self : RateLimiter) :
  t <= now ->
  can_make_request now (fst (get_stats t self)) = can_make_request now self /\
  get_stats now (fst (can_make_request t self)) = get_stats now self.
Proof.
  intro H. split.
  - apply can_make_request_clean. rewrite get_stats_fst.
    apply clean_clean, H.
  - apply get_stats_clean. rewrite can_make_request_fst.
    apply clean_clean, H.
Qed.

(** X21: after a recording at a positive instant [t], every check during
    the next 6 seconds is refused with a reason, whatever the object held
    before and however the write went. *)
Theorem refused_right_after_recording (t now : Q) (w : write_result)
    (self : RateLimiter) (e : Env) :
  0 < t -> t <= now -> now - t < REQUEST_COOLDOWN ->
  exists reason,
    snd (can_make_request now (fst (record_request t w self e)))
      = Returns (false, Some reason).
Proof.
  intros Hpos Hle Hlt.
  set (recorded := fst (record_request t w self e)).
  unfold can_make_request, can_make_request_at. cbv zeta.
  set (pruned := clean_old_requests now recorded).
  unfold snd.
  destruct (MAX_REQUESTS_PER_MINUTE <=? len (minute_requests pruned))%Z eqn:Em.
  - apply Z.leb_le in Em.
    destruct (py_min_nonempty (minute_requests pruned)) as [m Hm].
    { unfold MAX_REQUESTS_PER_MINUTE in Em. lia. }
    rewrite Hm. eexists. reflexivity.
  - destruct (MAX_REQUESTS_PER_DAY <=? len (daily_requests pruned))%Z.
    + eexists. reflexivity.
    + unfold cooldown_check.
      change (py_number (last_request_time pruned)) with (Some t).
      cbv beta iota.
      apply Qltb_lt in Hpos. rewrite Hpos. cbv zeta.
      pose proof (cooldown_range now pruned) as (_ & H6 & _).
      cbv zeta in H6.
      assert (E : Qltb (now - t)
                    (REQUEST_COOLDOWN
                     + inject_Z (calculate_backoff_time now pruned)) = true).
      { apply Qltb_lt. unfold REQUEST_COOLDOWN in *. lra. }
      rewrite E. eexists. reflexivity.
Qed.

(** * Reading the repository archive (app/ingest.py) *)

Lemma split_first_spec (s a b : string) :
  Ingest.split_first s = Some (a, b) ->
  s = (a ++ "/" ++ b)%string /\ Ingest.split_first a = None.
Proof.
  revert a. induction s as [|c r IH]; intro a; simpl; [discriminate|].
  destruct (Ascii.eqb c "/") eqn:E.
  - intro H. injection H as <- <-. apply Ascii.eqb_eq in E. subst c.
    split; reflexivity.
  - destruct (Ingest.split_first r) as [[a' b']|]; [|discriminate].
    intro H. injection H as <- <-.
    destruct (IH a' eq_refl) as [Hr Ha]. split.
    + simpl. rewrite Hr. reflexivity.
    + simpl. rewrite E, Ha. reflexivity.
Qed.

Section Repository.

Context {Char Scalar : Type} {text : TextBuiltins} {Raw : Type}.
Variable parse : Raw -> Ingest.result (@Ingest.dict Char Scalar).
Variable text_of : string -> list Char.

#[local] Abbreviation read_members := (Ingest.read_members parse text_of).
#[local] Abbreviation read_repo_data := (Ingest.read_repo_data parse text_of).

Lemma read_members_filter (members : list (string * Raw)) :
  read_members members =
  read_members (filter (fun m => Ingest.kept (fst m)) members).
Proof.
  induction members as [|[name raw] rest IH]; [reflexivity|].
  simpl. destruct (Ingest.kept name) eqn:E; simpl; [|exact IH].
  rewrite E, IH. reflexivity.
Qed.

(** X22: when [read_repo_data] returns, it returns one record per member
    that passed the tests, in the order of the archive; each is the parsed
    front matter of its member with the field [filename] set, also over a
    [filename] of the front matter, to the member's name, in its original
    case, without its first directory. *)
Theorem read_repo_data_records (members : list (string * Raw))
    (records : list (@Ingest.dict Char Scalar)) :
  read_repo_data 200 (Ingest.Ok members) = Ingest.Ok records ->
  Forall2
    (fun record member =>
       exists top rest data,
         fst member = (top ++ "/" ++ rest)%string /\
         Ingest.split_first top = None /\
         parse (snd member) = Ingest.Ok data /\
         record = Ingest.dict_set "filename" (Ingest.Str (text_of rest)) data /\
         Ingest.dict_get "filename" record
           = Some (Ingest.Str (text_of rest)))
    records
    (filter (fun m => Ingest.kept (fst m)) members).
Proof.
  unfold Ingest.read_repo_data. simpl.
  revert records. induction members as [|[name raw] rest IH];
    intros records H; simpl in H.
  - injection H as <-. constructor.
  - simpl. destruct (Ingest.kept name) eqn:E; [|apply IH, H].
    destruct (parse raw) as [data|e] eqn:Ep; [|discriminate].
    destruct (Ingest.split_first name) as [[top filename_repo]|] eqn:Es;
      [|discriminate].
    destruct (read_members rest) as [more|e] eqn:Er; [|discriminate].
    injection H as <-. constructor; [|apply IH; reflexivity].
    destruct (split_first_spec _ _ _ Es) as [Hname Htop].
    exists top, filename_repo, data. simpl.
    repeat split; try assumption.
    rewrite dict_get_set, String.eqb_refl. reflexivity.
Qed.

(** X23: what [read_repo_data] does not read: with a status other than 200
    it raises before the archive is opened; the members that fail the tests
    have no influence, whatever they hold; a member that passes them has a
    name ending in [.md] or [.mdx] in lower case, with [/en/] in it when it
    lies under [/translations/]; and such a member with no ["/"] in its
    name raises [ValueError] once it is parsed. *)
Theorem read_repo_data_skips (members : list (string * Raw)) :
  (forall status_code archive,
     status_code <> 200%Z ->
     read_repo_data status_code archive =
       Ingest.Err (Ingest.Failure ("Failed to download repository: "
                                   ++ digits status_code)%string)) /\
  read_repo_data 200 (Ingest.Ok members) =
    read_repo_data 200
      (Ingest.Ok (filter (fun m => Ingest.kept (fst m)) members)) /\
  (forall name,
     Ingest.kept name = true ->
     (Ingest.ends_with ".md" (py_lower name)
      || Ingest.ends_with ".mdx" (py_lower name) = true) /\
     (contains "/translations/" (py_lower name) = true ->
      contains "/en/" (py_lower name) = true)) /\
  (forall name raw data rest,
     Ingest.kept name = true ->
     parse raw = Ingest.Ok data ->
     Ingest.split_first name = None ->
     read_repo_data 200 (Ingest.Ok ((name, raw) :: rest))
       = Ingest.Err Ingest.ValueError).
Proof.
  split; [|split; [|split]].
  - intros status_code archive H. unfold Ingest.read_repo_data.
    apply Z.eqb_neq in H. rewrite H. reflexivity.
  - unfold Ingest.read_repo_data. simpl. apply read_members_filter.
  - intros name H. unfold Ingest.kept in H. cbv zeta in H.
    destruct (Ingest.ends_with ".md" (py_lower name)
              || Ingest.ends_with ".mdx" (py_lower name)) eqn:E1;
      [|discriminate].
    split; [reflexivity|]. intro Ht. simpl negb in H. cbv iota in H.
    rewrite Ht in H.
    destruct (contains "/en/" (py_lower name)); [reflexivity|discriminate].
  - intros name raw data rest Hk Hp Hs. unfold Ingest.read_repo_data.
    simpl. rewrite Hk, Hp, Hs. reflexivity.
Qed.

End Repository.

(** * Instances *)

Lemma minute_wait_frees_a_slot_witness :
  len (minute_requests (clean_old_requests 1010 ten_calls))
    = MAX_REQUESTS_PER_MINUTE /\
  py_min (minute_requests (clean_old_requests 1010 ten_calls)) = Some 1000 /\
  1010.5 + (60 - (1010.5 - 1000)) <= 1060 /\
  snd (can_make_request_at 1010 1010.5 1010.5 ten_calls) =
    Returns (false, Some "⚠️ Minute limit exceeded. Wait 50s."%string) /\
  Z.lt (len (minute_requests (clean_old_requests 1060 ten_calls)))
       MAX_REQUESTS_PER_MINUTE.
Proof.
  assert (H1 : len (minute_requests (clean_old_requests 1010 ten_calls))
               = MAX_REQUESTS_PER_MINUTE) by reflexivity.
  assert (H2 : py_min (minute_requests (clean_old_requests 1010 ten_calls))
               = Some 1000) by reflexivity.
  assert (H3 : 1010.5 + (60 - (1010.5 - 1000)) <= 1060)
    by (vm_compute; discriminate).
  destruct (minute_wait_frees_a_slot 1010 1010.5 1010.5 1000 ten_calls H1 H2)
    as (Hanswer & _ & _ & _ & Hlater).
  split; [exact H1|]. split; [exact H2|]. split; [exact H3|]. split.
  - rewrite Hanswer. reflexivity.
  - exact (proj1 (Hlater 1060 1060 1060 H3)).
Defined.

Lemma cooldown_wait_suffices_witness :
  1003 - 1000 < REQUEST_COOLDOWN
      + inject_Z (calculate_backoff_time 1003
                    (clean_old_requests 1003 one_call)) /\
  can_make_request 1006 one_call =
    (clean_old_requests 1006 one_call, Returns (true, None)).
Proof.
  assert (Hm : (len (minute_requests (clean_old_requests 1003 one_call))
                < MAX_REQUESTS_PER_MINUTE)%Z) by reflexivity.
  assert (Hd : (len (daily_requests (clean_old_requests 1003 one_call))
                < MAX_REQUESTS_PER_DAY)%Z) by reflexivity.
  assert (Hl : py_number (last_request_time one_call) = Some 1000)
    by reflexivity.
  assert (He : 1003 - 1000 < REQUEST_COOLDOWN
                + inject_Z (calculate_backoff_time 1003
                              (clean_old_requests 1003 one_call)))
    by reflexivity.
  assert (Hw : 1003 + (REQUEST_COOLDOWN
                + inject_Z (calculate_backoff_time 1003
                              (clean_old_requests 1003 one_call))
                - (1003 - 1000)) <= 1006)
    by (vm_compute; discriminate).
  split; [exact He|].
  exact (cooldown_wait_suffices 1003 1006 1000 one_call Hm Hd Hl He Hw).
Defined.

Lemma sequences_stay_sorted_witness :
  ordered 0 session /\
  sorted (daily_requests
            (limiter (fst (@run no_numeric_str session
                             (@start no_numeric_str Absent))))).
Proof.
  assert (Ho : ordered 0 session).
  { simpl. repeat split; vm_compute; discriminate. }
  split; [exact Ho|].
  exact (proj1 (proj2 (@sequences_stay_sorted no_numeric_str session Ho))).
Defined.

Lemma minute_used_le_daily_used_witness :
  ordered 0 session /\
  Z.le (minute_used
          (snd (get_stats 1250
                  (limiter (fst (@run no_numeric_str session
                                   (@start no_numeric_str Absent)))))))
       (daily_used
          (snd (get_stats 1250
                  (limiter (fst (@run no_numeric_str session
                                   (@start no_numeric_str Absent))))))).
Proof.
  assert (Ho : ordered 0 session).
  { simpl. repeat split; vm_compute; discriminate. }
  split; [exact Ho|].
  exact (@minute_used_le_daily_used no_numeric_str session 1250 Ho).
Defined.

Lemma on_prompt_records_only_when_allowed_witness :
  (snd (@on_prompt ascii_text "hello" 1000 1001 Written
          (@start no_numeric_str Absent)) = SmallTalk greeting_reply /\
   fst (@on_prompt ascii_text "hello" 1000 1001 Written
          (@start no_numeric_str Absent)) = @start no_numeric_str Absent) /\
  (@generate_response ascii_text "Explain tools" = None /\
   (exists m,
      snd (can_make_request 1000 (limiter (@start no_numeric_str Absent)))
        = Returns (true, m)) /\
   snd (@on_prompt ascii_text "Explain tools" 1000 1001 Written
          (@start no_numeric_str Absent)) = Asked /\
   daily_requests
     (limiter (fst (@on_prompt ascii_text "Explain tools" 1000 1001 Written
                      (@start no_numeric_str Absent)))) = [1001] /\
   last_request_time
     (limiter (fst (@on_prompt ascii_text "Explain tools" 1000 1001 Written
                      (@start no_numeric_str Absent)))) = PyNum 1001).
Proof.
  destruct (@on_prompt_records_only_when_allowed ascii_text
              "hello" 1000 1001 Written (@start no_numeric_str Absent))
    as (Hsmall & _).
  destruct (@on_prompt_records_only_when_allowed ascii_text
              "Explain tools" 1000 1001 Written (@start no_numeric_str Absent))
    as (_ & _ & _ & Hiff & Hrec & _).
  split.
  - assert (E : snd (@on_prompt ascii_text "hello" 1000 1001 Written
                       (@start no_numeric_str Absent))
                = SmallTalk greeting_reply) by reflexivity.
    split; [exact E|exact (Hsmall greeting_reply E)].
  - assert (Hg : @generate_response ascii_text "Explain tools" = None)
      by reflexivity.
    assert (Ha : exists m,
               snd (can_make_request 1000
                      (limiter (@start no_numeric_str Absent)))
                 = Returns (true, m))
      by (exists None; reflexivity).
    split; [exact Hg|]. split; [exact Ha|].
    split; [exact (proj2 Hiff (conj Hg Ha))|].
    destruct (Hrec Hg Ha) as (_ & _ & _ & Hd & _ & Hl).
    split; [exact Hd|exact Hl].
Defined.

Lemma app_calls_are_spaced_witness :
  0 < 1000 /\
  nondecreasing 1000 (flat_map readings busy_day) /\
  spaced REQUEST_COOLDOWN
    (daily_requests
       (limiter (@app_run no_numeric_str ascii_text busy_day
                   (@start no_numeric_str Absent)))).
Proof.
  assert (H0 : 0 < 1000) by reflexivity.
  assert (Ho : nondecreasing 1000 (flat_map readings busy_day)).
  { simpl. repeat split; vm_compute; discriminate. }
  split; [exact H0|]. split; [exact Ho|].
  exact (proj1 (@app_calls_are_spaced no_numeric_str ascii_text
                  busy_day 1000 H0 Ho)).
Defined.

Lemma minute_ceiling_out_of_reach_witness :
  0 < 1000 /\
  nondecreasing 1000 (flat_map readings one_sitting) /\
  forallb (fun ev => negb (is_reboot ev)) one_sitting = true /\
  Z.le (len (minute_requests
               (limiter (@app_run no_numeric_str ascii_text one_sitting
                           (@start no_numeric_str Absent)))))
       7.
Proof.
  assert (H0 : 0 < 1000) by reflexivity.
  assert (Ho : nondecreasing 1000 (flat_map readings one_sitting)).
  { simpl. repeat split; vm_compute; discriminate. }
  assert (Hn : forallb (fun ev => negb (is_reboot ev)) one_sitting = true)
    by reflexivity.
  split; [exact H0|]. split; [exact Ho|]. split; [exact Hn|].
  exact (proj1 (@minute_ceiling_out_of_reach no_numeric_str ascii_text
                  one_sitting 1000 H0 Ho Hn)).
Defined.

Lemma sliding_window_checks_arguments_witness :
  Ingest.sliding_window (@nil Z) 0 3 = Ingest.Err Ingest.ValueError /\
  exists ws,
    Ingest.sliding_window [1; 2; 3]%Z 2 1 = Ingest.Ok ws /\
    (ws = [] <-> [1; 2; 3]%Z = []).
Proof.
  split.
  - apply (proj1 (sliding_window_checks_arguments (@nil Z) 0 3)).
    left. apply Z.le_refl.
  - apply (proj2 (sliding_window_checks_arguments [1; 2; 3]%Z 2 1));
      reflexivity.
Defined.

Lemma sliding_window_shape_witness :
  Ingest.sliding_window [1; 2; 3; 4; 5]%Z 2 2 =
    Ingest.Ok [Ingest.mkWindow 0 [1; 2]%Z; Ingest.mkWindow 2 [3; 4]%Z;
               Ingest.mkWindow 4 [5]%Z] /\
  forall w,
    In w (removelast [Ingest.mkWindow 0 [1; 2]%Z; Ingest.mkWindow 2 [3; 4]%Z;
                      Ingest.mkWindow 4 [5]%Z]) ->
    len (Ingest.content w) = 2%Z.
Proof.
  assert (H : Ingest.sliding_window [1; 2; 3; 4; 5]%Z 2 2 =
              Ingest.Ok [Ingest.mkWindow 0 [1; 2]%Z;
                         Ingest.mkWindow 2 [3; 4]%Z;
                         Ingest.mkWindow 4 [5]%Z]) by reflexivity.
  split; [exact H|].
  exact (proj2 (proj2 (sliding_window_shape [1; 2; 3; 4; 5]%Z 2 2 _
                         eq_refl eq_refl H))).
Defined.

Lemma sliding_window_rebuild_witness :
  (0 < 2 <= 3)%Z /\
  Ingest.sliding_window [1; 2; 3; 4; 5]%Z 3 2 =
    Ingest.Ok [Ingest.mkWindow 0 [1; 2; 3]%Z; Ingest.mkWindow 2 [3; 4; 5]%Z;
               Ingest.mkWindow 4 [5]%Z] /\
  Ingest.rebuild 2 [Ingest.mkWindow 0 [1; 2; 3]%Z;
                    Ingest.mkWindow 2 [3; 4; 5]%Z;
                    Ingest.mkWindow 4 [5]%Z] = [1; 2; 3; 4; 5]%Z.
Proof.
  assert (Hs : (0 < 2 <= 3)%Z) by (split; [reflexivity|discriminate]).
  assert (H : Ingest.sliding_window [1; 2; 3; 4; 5]%Z 3 2 =
              Ingest.Ok [Ingest.mkWindow 0 [1; 2; 3]%Z;
                         Ingest.mkWindow 2 [3; 4; 5]%Z;
                         Ingest.mkWindow 4 [5]%Z]) by reflexivity.
  split; [exact Hs|]. split; [exact H|].
  exact (proj1 (sliding_window_rebuild [1; 2; 3; 4; 5]%Z 3 2 _ Hs H)).
Defined.

Lemma sliding_window_count_witness :
  Ingest.sliding_window [1; 2; 3; 4; 5]%Z 3 2 =
    Ingest.Ok [Ingest.mkWindow 0 [1; 2; 3]%Z; Ingest.mkWindow 2 [3; 4; 5]%Z;
               Ingest.mkWindow 4 [5]%Z] /\
  len [Ingest.mkWindow 0 [1; 2; 3]%Z; Ingest.mkWindow 2 [3; 4; 5]%Z;
       Ingest.mkWindow 4 [5]%Z] =
    Z.min ((len [1; 2; 3; 4; 5]%Z + 2 - 1) / 2)
          (Z.max 0 ((len [1; 2; 3; 4; 5]%Z - 3) / 2 + 1) + 1).
Proof.
  assert (H : Ingest.sliding_window [1; 2; 3; 4; 5]%Z 3 2 =
              Ingest.Ok [Ingest.mkWindow 0 [1; 2; 3]%Z;
                         Ingest.mkWindow 2 [3; 4; 5]%Z;
                         Ingest.mkWindow 4 [5]%Z]) by reflexivity.
  split; [exact H|].
  exact (proj1 (sliding_window_count [1; 2; 3; 4; 5]%Z 3 2 _
                  eq_refl eq_refl H)).
Defined.

Lemma chunk_documents_errors_witness :
  Ingest.chunk_documents false [sample_doc; empty_doc] 2 2
    = Ingest.Err Ingest.KeyError /\
  Ingest.chunk_documents false [sample_doc] 0 2
    = Ingest.Err Ingest.ValueError.
Proof.
  destruct (@chunk_documents_errors ascii unit false 2 2) as (_ & Hkey & _).
  destruct (@chunk_documents_errors ascii unit false 0 2) as (_ & _ & Hval).
  split.
  - exact (Hkey [sample_doc] empty_doc [] _ eq_refl eq_refl).
  - apply Hval; [discriminate|]. left. apply Z.le_refl.
Defined.

Lemma chunk_documents_keeps_fields_witness :
  Forall Ingest.well_formed [sample_doc] /\
  forall chunk,
    In chunk [[("start"%string, Ingest.Int 99);
               ("content"%string, Ingest.Str ["a"%char; "b"%char]);
               ("title"%string, Ingest.Str ["T"%char])];
              [("start"%string, Ingest.Int 99);
               ("content"%string, Ingest.Str ["c"%char]);
               ("title"%string, Ingest.Str ["T"%char])]] ->
    exists doc,
      In doc [sample_doc] /\
      forall k v, k <> "content"%string ->
        Ingest.dict_get k doc = Some v -> Ingest.dict_get k chunk = Some v.
Proof.
  assert (Hwf : Forall Ingest.well_formed [sample_doc]).
  { constructor; [|constructor]. unfold Ingest.well_formed. simpl.
    repeat constructor; simpl; intuition discriminate. }
  split; [exact Hwf|].
  intros chunk Hin.
  destruct (@chunk_documents_keeps_fields ascii unit false [sample_doc] _ 2 2
              Hwf eq_refl chunk Hin) as (doc & Hdoc & Hfields & _).
  exists doc. split; [exact Hdoc|exact Hfields].
Defined.

Lemma generate_response_matches_inside_words_witness :
  @py_lower ascii_text (@py_strip ascii_text "  What is THIS agent? ")
    = ("what is t" ++ "hi" ++ "s agent?")%string /\
  @generate_response ascii_text "  What is THIS agent? "
    = Some greeting_reply.
Proof.
  assert (H : @py_lower ascii_text (@py_strip ascii_text "  What is THIS agent? ")
              = ("what is t" ++ "hi" ++ "s agent?")%string) by reflexivity.
  split; [exact H|].
  exact (proj1 (@generate_response_matches_inside_words ascii_text
                  "  What is THIS agent? " "what is t" "s agent?"
                  1000 1001 Written (@start no_numeric_str Absent) H)).
Defined.

Lemma reads_do_not_interfere_witness :
  1003 <= 1010 /\
  can_make_request 1010 (fst (get_stats 1003 ten_calls))
    = can_make_request 1010 ten_calls.
Proof.
  assert (H : 1003 <= 1010) by (vm_compute; discriminate).
  split; [exact H|].
  exact (proj1 (reads_do_not_interfere 1003 1010 ten_calls H)).
Defined.

Lemma refused_right_after_recording_witness :
  0 < 1000 /\ 1000 <= 1005 /\ 1005 - 1000 < REQUEST_COOLDOWN /\
  exists reason,
    snd (can_make_request 1005
           (fst (record_request 1000 Written (reset_state blank) empty_env)))
      = Returns (false, Some reason).
Proof.
  assert (H1 : 0 < 1000) by reflexivity.
  assert (H2 : 1000 <= 1005) by (vm_compute; discriminate).
  assert (H3 : 1005 - 1000 < REQUEST_COOLDOWN) by reflexivity.
  split; [exact H1|]. split; [exact H2|]. split; [exact H3|].
  exact (refused_right_after_recording 1000 1005 Written
           (reset_state blank) empty_env H1 H2 H3).
Defined.

Lemma read_repo_data_records_witness :
  @Ingest.read_repo_data ascii unit ascii_text string
    sample_parse list_ascii_of_string 200 (Ingest.Ok sample_archive) =
  Ingest.Ok
    [[("content"%string, Ingest.Str (list_ascii_of_string "hello"));
      ("filename"%string, Ingest.Str (list_ascii_of_string "README.md"))];
     [("content"%string, Ingest.Str (list_ascii_of_string "intro"));
      ("filename"%string,
       Ingest.Str (list_ascii_of_string "docs/Intro.MDX"))]] /\
  List.length
    (filter (fun m => @Ingest.kept ascii_text (fst m)) sample_archive) = 2%nat.
Proof.
  assert (H : @Ingest.read_repo_data ascii unit ascii_text string
                sample_parse list_ascii_of_string 200
                (Ingest.Ok sample_archive) =
              Ingest.Ok
                [[("content"%string,
                   Ingest.Str (list_ascii_of_string "hello"));
                  ("filename"%string,
                   Ingest.Str (list_ascii_of_string "README.md"))];
                 [("content"%string,
                   Ingest.Str (list_ascii_of_string "intro"));
                  ("filename"%string,
                   Ingest.Str (list_ascii_of_string "docs/Intro.MDX"))]])
    by reflexivity.
  split; [exact H|].
  pose proof (@read_repo_data_records ascii unit ascii_text string
                sample_parse list_ascii_of_string sample_archive _ H) as HF.
  apply Forall2_length in HF. symmetry. exact HF.
Defined.

Lemma read_repo_data_skips_witness :
  @Ingest.kept ascii_text "repo-master/docs/Intro.MDX" = true /\
  (Ingest.ends_with ".md" (@py_lower ascii_text "repo-master/docs/Intro.MDX")
   || Ingest.ends_with ".mdx"
        (@py_lower ascii_text "repo-master/docs/Intro.MDX") = true) /\
  @Ingest.read_repo_data ascii unit ascii_text string
     sample_parse list_ascii_of_string 200
     (Ingest.Ok [("README.md"%string, "hello"%string)])
   = Ingest.Err Ingest.ValueError.
Proof.
  destruct (@read_repo_data_skips ascii unit ascii_text string
              sample_parse list_ascii_of_string sample_archive)
    as (_ & _ & Hkept & Hflat).
  assert (Hk : @Ingest.kept ascii_text "repo-master/docs/Intro.MDX" = true)
    by reflexivity.
  split; [exact Hk|]. split.
  - exact (proj1 (Hkept _ Hk)).
  - apply (Hflat "README.md"%string "hello"%string
             [("content"%string, Ingest.Str (list_ascii_of_string "hello"))]);
      reflexivity.
Defined.
